(** * westminster-podcast: [generate_feed.py]

    A shallow embedding of the feed generator and the properties of its
    four stages: the listing scraper ([scrape_messages]), the detail
    extractor ([get_message_details]), the feed builder ([generate_feed])
    and the orchestrator ([main]); with them, the fetch of a page
    ([get_soup]) and the reader of written dates ([parse_date]).

    Conventions of the embedding.
    - A Python [str] is a [string]; a character is a code point below 256.
      In that range the digits of the regular expression class [\d] are
      "0".."9", and the white space removed by [str.strip] is 9..13, 28..32,
      133 and 160.
    - Code that can raise returns a [result]; code with effects (console,
      HTTP requests, clock, output file) runs in the monad [M] over [state].
    - The parsed HTML documents, the answers of the web server, the clock,
      [urllib.parse.urljoin] with the references on which it raises, the
      validation done by the podcast library and the feeds that it fails
      to serialise are parameters of the development. *)

From Stdlib Require Import String Ascii List ZArith NArith Lia Bool.
From stdpp Require Import gmap strings.
Import ListNotations.

Local Open Scope string_scope.
Local Open Scope Z_scope.
Local Set Warnings "-clear-no-such-hyp".

(** ** Exceptions and results *)

(** The exceptions of a run: the two classes that the program itself can
    raise, and any other class, which only the podcast library may
    raise. *)
Inductive exn : Type :=
| ValueError (msg : string)
| KeyError (key : string)
| OtherError (class msg : string).

Inductive result (A : Type) : Type :=
| Ok (a : A)
| Raise (e : exn).
Arguments Ok {A} a.
Arguments Raise {A} e.

(** ** Built-in string operations *)

Module Str.

(** [s.startswith(p)] *)
Fixpoint startswith (s p : string) {struct p} : bool :=
  match p with
  | EmptyString => true
  | String a p' =>
      match s with
      | EmptyString => false
      | String b s' => Ascii.eqb a b && startswith s' p'
      end
  end.

(** [sub in s] *)
Fixpoint contains (sub s : string) : bool :=
  startswith s sub ||
  match s with
  | EmptyString => false
  | String _ s' => contains sub s'
  end.

(** [s.split(sep)] for a non-empty [sep]: the text is cut at the
    occurrences of [sep] found from left to right, an occurrence starting
    only after the previous one has ended.  [skip] counts the characters
    of the current occurrence still to pass over; the head of the result
    is the piece being read. *)
Fixpoint split_from (sep : string) (skip : nat) (s : string) : list string :=
  match s with
  | EmptyString => [EmptyString]
  | String c s' =>
      match skip with
      | S k => split_from sep k s'
      | O =>
          if startswith s sep
          then EmptyString :: split_from sep (Nat.pred (String.length sep)) s'
          else match split_from sep O s' with
               | piece :: pieces => String c piece :: pieces
               | [] => [String c EmptyString]
               end
      end
  end.

Definition split (sep s : string) : list string := split_from sep O s.

(** [s.replace(old, new)] for a non-empty [old], same scan as [split]. *)
Fixpoint replace_from (old new : string) (skip : nat) (s : string) : string :=
  match s with
  | EmptyString => EmptyString
  | String c s' =>
      match skip with
      | S k => replace_from old new k s'
      | O =>
          if startswith s old
          then new ++ replace_from old new (Nat.pred (String.length old)) s'
          else String c (replace_from old new O s')
      end
  end.

Definition replace (old new s : string) : string := replace_from old new O s.

(** White space of [str.strip()] among the code points below 256. *)
Definition isspace (c : ascii) : bool :=
  let n := N_of_ascii c in
  ((9 <=? n) && (n <=? 13) || (28 <=? n) && (n <=? 32)
   || (n =? 133) || (n =? 160))%N.

Fixpoint lstrip (s : string) : string :=
  match s with
  | EmptyString => EmptyString
  | String c s' => if isspace c then lstrip s' else s
  end.

Fixpoint rstrip (s : string) : string :=
  match s with
  | EmptyString => EmptyString
  | String c s' =>
      match rstrip s' with
      | EmptyString => if isspace c then EmptyString else String c EmptyString
      | r => String c r
      end
  end.

(** [s.strip()] *)
Definition strip (s : string) : string := rstrip (lstrip s).

(** The decimal digits, the class [\d]. *)
Definition isdigit (c : ascii) : bool :=
  let n := N_of_ascii c in ((48 <=? n) && (n <=? 57))%N.

Definition digit_value (c : ascii) : Z := Z.of_N (N_of_ascii c) - 48.

(** [l[-1]] and [l[0]] of a list of strings that is never empty here (a
    [split] has at least one piece). *)
Definition last_piece (l : list string) : string := List.last l EmptyString.
Definition first_piece (l : list string) : string := List.hd EmptyString l.

(** [str(n)] for a natural number, and the zero-padded [%02d], [%04d]. *)
Definition digit_char (d : nat) : ascii := ascii_of_nat (48 + d).

Fixpoint decimal_fuel (fuel n : nat) (acc : string) : string :=
  match fuel with
  | O => acc
  | S f =>
      let acc' := String (digit_char (Nat.modulo n 10)) acc in
      if Nat.ltb n 10 then acc' else decimal_fuel f (Nat.div n 10) acc'
  end.

Definition of_nat (n : nat) : string := decimal_fuel (S n) n EmptyString.

Fixpoint zeros (k : nat) : string :=
  match k with O => EmptyString | S k' => String "0" (zeros k') end.

Definition pad (width : nat) (n : nat) : string :=
  let d := of_nat n in zeros (width - String.length d) ++ d.

(** [repr(s)], the form in which [%r] shows a text: between single
    quotes - between double quotes when the text holds a single quote and
    no double one - with a backslash before the quote in use and before a
    backslash, with [\t], [\n] and [\r], and with [\xNN] for every other
    character that is not printable. *)
Definition isprintable (c : ascii) : bool :=
  let n := N_of_ascii c in
  ((32 <=? n) && (n <=? 126) || (161 <=? n) && negb (n =? 173))%N.

Definition hex_digit (n : N) : ascii :=
  if (n <? 10)%N then ascii_of_N (48 + n) else ascii_of_N (87 + n).

Definition double_quote : ascii := ascii_of_N 34.

Definition repr_char (quote c : ascii) : string :=
  let n := N_of_ascii c in
  if Ascii.eqb c quote || Ascii.eqb c "\" then String "\" (String c EmptyString)
  else if (n =? 9)%N then "\t"
  else if (n =? 10)%N then "\n"
  else if (n =? 13)%N then "\r"
  else if isprintable c then String c EmptyString
  else String "\" (String "x" (String (hex_digit (n / 16))
                                 (String (hex_digit (n mod 16)) EmptyString))).

Fixpoint repr_body (quote : ascii) (s : string) : string :=
  match s with
  | EmptyString => EmptyString
  | String c s' => repr_char quote c ++ repr_body quote s'
  end.

Definition repr (s : string) : string :=
  let quote :=
    if contains "'" s && negb (contains (String double_quote EmptyString) s)
    then double_quote else "'"%char in
  String quote (repr_body quote s ++ String quote EmptyString).

End Str.

(** ** [urllib.parse.unquote] *)

Module Urllib.

(** Value of a hexadecimal digit, in either case. *)
Definition hexval (c : ascii) : option N :=
  let n := N_of_ascii c in
  if ((48 <=? n) && (n <=? 57))%N then Some (n - 48)%N
  else if ((65 <=? n) && (n <=? 70))%N then Some (n - 55)%N
  else if ((97 <=? n) && (n <=? 102))%N then Some (n - 87)%N
  else None.

(** Every "%" followed by two hexadecimal digits is replaced by the
    character of that code; any other "%" stays.  The library decodes
    the bytes so obtained as UTF-8: an escape below [%80] gives the
    character itself, which is what the model returns.  A text with an
    escape from [%80] on is outside the texts that the model covers (the
    library makes of a run of such escapes the characters that the bytes
    encode, or U+FFFD): here such an escape is kept as the byte it
    denotes. *)
Fixpoint unquote_from (skip : nat) (s : string) : string :=
  match s with
  | EmptyString => EmptyString
  | String c s' =>
      match skip with
      | S k => unquote_from k s'
      | O =>
          match s' with
          | String h (String l _) =>
              match Ascii.eqb c "%", hexval h, hexval l with
              | true, Some a, Some b =>
                  String (ascii_of_N (16 * a + b)) (unquote_from 2 s')
              | _, _, _ => String c (unquote_from O s')
              end
          | _ => String c (unquote_from O s')
          end
      end
  end.

(** [unquote(string)]: a text without "%" is returned as it is. *)
Definition unquote (s : string) : string :=
  if Str.contains "%" s then unquote_from O s else s.

End Urllib.

(** ** The regular expression of the date, [re.search] *)

Module Re.

(** The pattern [\d{4}-\d{2}-\d{2}] over a list of characters. *)
Definition date_shape (l : list ascii) : bool :=
  match l with
  | [y1; y2; y3; y4; h1; m1; m2; h2; d1; d2] =>
      Str.isdigit y1 && Str.isdigit y2 && Str.isdigit y3 && Str.isdigit y4
      && Ascii.eqb h1 "-" && Str.isdigit m1 && Str.isdigit m2
      && Ascii.eqb h2 "-" && Str.isdigit d1 && Str.isdigit d2
  | _ => false
  end.

(** The first [n] characters of [s], when it has that many. *)
Fixpoint take (n : nat) (s : string) : option (list ascii) :=
  match n with
  | O => Some []
  | S k =>
      match s with
      | EmptyString => None
      | String c s' =>
          match take k s' with
          | Some l => Some (c :: l)
          | None => None
          end
      end
  end.

(** A match of the pattern at the very start of [s]. *)
Definition match_date (s : string) : option string :=
  match take 10 s with
  | Some l => if date_shape l then Some (string_of_list_ascii l) else None
  | None => None
  end.

(** [re.search(r'(\d{4}-\d{2}-\d{2})', s)]: the match at the leftmost
    position that has one; [group(1)] is the matched text. *)
Fixpoint search_date (s : string) : option string :=
  match match_date s with
  | Some m => Some m
  | None =>
      match s with
      | EmptyString => None
      | String _ s' => search_date s'
      end
  end.

End Re.

(** ** [datetime] *)

Module Datetime.

(** A naive [datetime]: no time zone attached. *)
Record datetime : Type := mk_datetime {
  year : Z; month : Z; day : Z;
  hour : Z; minute : Z; second : Z; microsecond : Z
}.

Definition midnight (y m d : Z) : datetime := mk_datetime y m d 0 0 0 0.

Definition is_leap (y : Z) : bool :=
  (y mod 4 =? 0) && (negb (y mod 100 =? 0) || (y mod 400 =? 0)).

Definition days_in_month (y m : Z) : Z :=
  if m =? 2 then (if is_leap y then 29 else 28)
  else if (m =? 4) || (m =? 6) || (m =? 9) || (m =? 11) then 30
  else 31.

Definition in_range (lo hi : N) (c : ascii) : bool :=
  ((lo <=? N_of_ascii c) && (N_of_ascii c <=? hi))%N.

(** The alternatives of [%m], [1[0-2]|0[1-9]|[1-9]], that match at the
    start of [s], in the order the matcher tries them, each with the
    value read and the text left. *)
Definition month_alts (s : string) : list (Z * string) :=
  match s with
  | EmptyString => []
  | String a r1 =>
      match r1 with
      | String b r2 =>
          (if in_range 49 49 a && in_range 48 50 b
           then [(10 + Str.digit_value b, r2)] else [])
          ++ (if in_range 48 48 a && in_range 49 57 b
              then [(Str.digit_value b, r2)] else [])
      | EmptyString => []
      end
      ++ (if in_range 49 57 a then [(Str.digit_value a, r1)] else [])
  end.

(** The alternatives of [%d], [3[0-1]|[1-2]\d|0[1-9]|[1-9]| [1-9]]. *)
Definition day_alts (s : string) : list (Z * string) :=
  match s with
  | EmptyString => []
  | String a r1 =>
      match r1 with
      | String b r2 =>
          (if in_range 51 51 a && in_range 48 49 b
           then [(30 + Str.digit_value b, r2)] else [])
          ++ (if in_range 49 50 a && Str.isdigit b
              then [(10 * Str.digit_value a + Str.digit_value b, r2)] else [])
          ++ (if in_range 48 48 a && in_range 49 57 b
              then [(Str.digit_value b, r2)] else [])
      | EmptyString => []
      end
      ++ (if in_range 49 57 a then [(Str.digit_value a, r1)] else [])
      ++ match r1 with
         | String b r2 =>
             if in_range 32 32 a && in_range 49 57 b
             then [(Str.digit_value b, r2)] else []
         | EmptyString => []
         end
  end.

(** What is left of [s] after a leading "-". *)
Definition after_dash (s : string) : option string :=
  match s with
  | String c r => if Ascii.eqb c "-" then Some r else None
  | EmptyString => None
  end.

(** The format [%Y-%m-%d] matched at the start of [s], with backtracking
    over the alternatives: year, month, day and the text not consumed. *)
Definition match_Ymd (s : string) : option (Z * Z * Z * string) :=
  match s with
  | String y1 (String y2 (String y3 (String y4 r))) =>
      if Str.isdigit y1 && Str.isdigit y2 && Str.isdigit y3 && Str.isdigit y4
      then
        match after_dash r with
        | Some r' =>
            let y := 1000 * Str.digit_value y1 + 100 * Str.digit_value y2
                     + 10 * Str.digit_value y3 + Str.digit_value y4 in
            List.hd_error
              (List.flat_map
                 (fun '(m, rm) =>
                    match after_dash rm with
                    | Some rd => List.map (fun '(d, rest) => (y, m, d, rest)) (day_alts rd)
                    | None => []
                    end)
                 (month_alts r'))
        | None => None
        end
      else None
  | _ => None
  end.

(** [datetime.strptime(s, "%Y-%m-%d")]. *)
Definition strptime_Ymd (s : string) : result datetime :=
  match match_Ymd s with
  | None =>
      Raise (ValueError ("time data '" ++ s ++ "' does not match format '%Y-%m-%d'"))
  | Some (y, m, d, rest) =>
      match rest with
      | String _ _ => Raise (ValueError ("unconverted data remains: " ++ rest))
      | EmptyString =>
          if y <? 1 then Raise (ValueError "year 0 is out of range")
          else if days_in_month y m <? d
               then Raise (ValueError "day is out of range for month")
               else Ok (midnight y m d)
      end
  end.

Definition month_name (m : Z) : string :=
  List.nth (Z.to_nat (m - 1))
    ["January"; "February"; "March"; "April"; "May"; "June"; "July";
     "August"; "September"; "October"; "November"; "December"] "".

(** [dt.strftime('%B %d, %Y')], with the English month names of the
    default locale (C library of Linux: the year is not padded). *)
Definition strftime_BdY (dt : datetime) : string :=
  month_name (month dt) ++ " " ++ Str.pad 2 (Z.to_nat (day dt)) ++ ", "
  ++ Str.of_nat (Z.to_nat (year dt)).

(** [str(dt.date())] *)
Definition isoformat_date (dt : datetime) : string :=
  Str.pad 4 (Z.to_nat (year dt)) ++ "-" ++ Str.pad 2 (Z.to_nat (month dt))
  ++ "-" ++ Str.pad 2 (Z.to_nat (day dt)).

(** *** The format ["%B %d, %Y"]

    [strptime] turns the format into the regular expression
    [(?P<B>september|february|...|may)\s+(?P<d>...),\s+(?P<Y>\d\d\d\d)],
    matched at the start of the text without regard to the case of the
    letters. *)

(** A character with its letter, if it is one of "A".."Z", in lower
    case. *)
Definition lower (c : ascii) : ascii :=
  let n := N_of_ascii c in
  if ((65 <=? n) && (n <=? 90))%N then ascii_of_N (n + 32) else c.

(** What is left of [s] after [word], read whatever the case. *)
Fixpoint after_word (word s : string) : option string :=
  match word with
  | EmptyString => Some s
  | String a word' =>
      match s with
      | String b s' => if Ascii.eqb a (lower b) then after_word word' s' else None
      | EmptyString => None
      end
  end.

(** The names of the months with their numbers, in the order of the
    alternatives of [%B]: from the longest name to the shortest. *)
Definition month_words : list (string * Z) :=
  [("september", 9); ("february", 2); ("november", 11); ("december", 12);
   ("january", 1); ("october", 10); ("august", 8); ("march", 3); ("april", 4);
   ("june", 6); ("july", 7); ("may", 5)].

Definition monthname_alts (s : string) : list (Z * string) :=
  List.flat_map
    (fun '(word, m) =>
       match after_word word s with
       | Some r => [(m, r)]
       | None => []
       end)
    month_words.

(** [\s+]: what is left of [s] after the white space at its start, for
    the longest run first, then for the shorter ones, down to one
    character. *)
Fixpoint spaces_alts (s : string) : list string :=
  match s with
  | String c s' => if Str.isspace c then spaces_alts s' ++ [s'] else []
  | EmptyString => []
  end.

(** What is left of [s] after a leading ",". *)
Definition after_comma (s : string) : option string :=
  match s with
  | String c r => if Ascii.eqb c "," then Some r else None
  | EmptyString => None
  end.

(** [\d\d\d\d] *)
Definition year_alts (s : string) : list (Z * string) :=
  match s with
  | String y1 (String y2 (String y3 (String y4 r))) =>
      if Str.isdigit y1 && Str.isdigit y2 && Str.isdigit y3 && Str.isdigit y4
      then [(1000 * Str.digit_value y1 + 100 * Str.digit_value y2
             + 10 * Str.digit_value y3 + Str.digit_value y4, r)]
      else []
  | _ => []
  end.

(** The format matched at the start of [s], with backtracking: the first
    way, in the order of the alternatives, to read a month name, white
    space, a day, a comma, white space and a year; with the text not
    consumed. *)
Definition match_BdY (s : string) : option (Z * Z * Z * string) :=
  List.hd_error
    (List.flat_map
       (fun '(m, r1) =>
          List.flat_map
            (fun r2 =>
               List.flat_map
                 (fun '(d, r3) =>
                    match after_comma r3 with
                    | Some r4 =>
                        List.flat_map
                          (fun r5 => List.map (fun '(y, rest) => (y, m, d, rest)) (year_alts r5))
                          (spaces_alts r4)
                    | None => []
                    end)
                 (day_alts r2))
            (spaces_alts r1))
       (monthname_alts s)).

(** [datetime.strptime(s, "%B %d, %Y")]. *)
Definition strptime_BdY (s : string) : result datetime :=
  match match_BdY s with
  | None =>
      Raise (ValueError ("time data " ++ Str.repr s ++ " does not match format '%B %d, %Y'"))
  | Some (y, m, d, rest) =>
      match rest with
      | String _ _ => Raise (ValueError ("unconverted data remains: " ++ rest))
      | EmptyString =>
          if y <? 1 then Raise (ValueError "year 0 is out of range")
          else if days_in_month y m <? d
               then Raise (ValueError "day is out of range for month")
               else Ok (midnight y m d)
      end
  end.

End Datetime.

(** ** Parsed HTML, as [BeautifulSoup] presents it *)

Module Bs4.

(** A node of the parsed tree: a piece of text, or a tag with its name,
    the list of its classes (the value of the multi-valued attribute
    [class]), its other attributes and its children. *)
#[warnings="-register-all"]
Inductive node : Type :=
| Text (s : string)
| Tag (name : string) (classes : list string) (attrs : gmap string string)
      (children : list node).

(** A parsed page: the top-level nodes. *)
Definition document : Type := list node.

(** A node followed by everything below it, in document order. *)
Fixpoint subtree (n : node) : list node :=
  n :: match n with
       | Text _ => []
       | Tag _ _ _ children => List.flat_map subtree children
       end.

Definition descendants (roots : list node) : list node :=
  List.flat_map subtree roots.

Definition children_of (n : node) : list node :=
  match n with
  | Text _ => []
  | Tag _ _ _ children => children
  end.

Definition is_tag (name : string) (n : node) : bool :=
  match n with
  | Tag name' _ _ _ => String.eqb name' name
  | Text _ => false
  end.

Definition has_class (cls : string) (n : node) : bool :=
  match n with
  | Tag _ classes _ _ => List.existsb (String.eqb cls) classes
  | Text _ => false
  end.

(** [tag.get(key)] *)
Definition get (n : node) (key : string) : option string :=
  match n with
  | Tag _ _ attrs _ => attrs !! key
  | Text _ => None
  end.

(** [tag[key]] *)
Definition getitem (n : node) (key : string) : result string :=
  match get n key with
  | Some v => Ok v
  | None => Raise (KeyError key)
  end.

(** [x.find(name)]: the first tag of that name below [x]. *)
Definition find (name : string) (roots : list node) : option node :=
  List.find (is_tag name) (descendants roots).

(** [x.find(name, class_=cls)] *)
Definition find_class (name cls : string) (roots : list node) : option node :=
  List.find (fun n => is_tag name n && has_class cls n) (descendants roots).

(** [link['href'] for link in soup.find_all('a', href=True)] *)
Definition hrefs (roots : list node) : list string :=
  omap (fun n => if is_tag "a" n then get n "href" else None)
       (descendants roots).

(** [tag.get_text(strip=True)]: the pieces of text below the tag, each
    stripped, the empty ones dropped, joined without separator. *)
Definition get_text_strip (n : node) : string :=
  List.fold_right String.append EmptyString
    (omap (fun d => match d with
                    | Text s =>
                        match Str.strip s with
                        | EmptyString => None
                        | t => Some t
                        end
                    | Tag _ _ _ _ => None
                    end)
          (descendants (children_of n))).

(** Truth value of [tag.get(key)]: present and not empty. *)
Definition truthy (v : option string) : bool :=
  match v with
  | Some (String _ _) => true
  | _ => false
  end.

End Bs4.

(** ** The podcast library's data *)

Module Podgen.

Record Person : Type := mk_Person { person_name : string; person_email : option string }.

Record Media : Type := mk_Media { media_url : string; media_size : Z; media_type : string }.

Record Category : Type := mk_Category { category_name : string; subcategory : string }.

(** A publication date: a naive date and time with the offset from UTC,
    in seconds, of the zone attached to it. *)
Record Episode : Type := mk_Episode {
  ep_title : string;
  ep_media : Media;
  ep_summary : string;
  ep_publication_date : Datetime.datetime * Z;
  ep_link : string;
  ep_authors : list Person
}.

Record Podcast : Type := mk_Podcast {
  name : string;
  description : string;
  website : string;
  explicit : bool;
  image : string;
  authors : list Person;
  owner : Person;
  category : Category;
  language : string;
  episodes : list Episode
}.

(** [p.add_episode(ep)] *)
Definition add_episode (p : Podcast) (ep : Episode) : Podcast :=
  mk_Podcast (name p) (description p) (website p) (explicit p) (image p)
    (authors p) (owner p) (category p) (language p) (episodes p ++ [ep]).

End Podgen.

(** ** State of a run and the monad of effects *)

(** What a run leaves behind: the lines printed, the URLs requested, the
    number of clock readings made, the files written (the feed file holds
    the feed that was serialised into it). *)
Record state : Type := mk_state {
  stdout : list string;
  requests : list string;
  ticks : nat;
  files : gmap string Podgen.Podcast
}.

Definition initial_state : state := mk_state [] [] O ∅.

Definition M (A : Type) : Type := state -> result A * state.

Definition ret {A} (a : A) : M A := fun st => (Ok a, st).

Definition bind {A B} (c : M A) (k : A -> M B) : M B :=
  fun st =>
    match c st with
    | (Ok a, st') => k a st'
    | (Raise e, st') => (Raise e, st')
    end.

Notation "'let*' x ':=' c 'in' k" := (bind c (fun x => k))
  (at level 10, x binder, c at level 100, k at level 200).

(** A computation without effects that may raise. *)
Definition lift {A} (r : result A) : M A := fun st => (r, st).

(** The state after one more line on the console, one more request, one
    more reading of the clock, one more file written. *)
Definition printed (line : string) (st : state) : state :=
  mk_state (stdout st ++ [line]) (requests st) (ticks st) (files st).

Definition requested (u : string) (st : state) : state :=
  mk_state (stdout st) (requests st ++ [u]) (ticks st) (files st).

Definition ticked (st : state) : state :=
  mk_state (stdout st) (requests st) (S (ticks st)) (files st).

Definition written (filename : string) (p : Podgen.Podcast) (st : state) : state :=
  mk_state (stdout st) (requests st) (ticks st) (<[filename := p]> (files st)).

(** [print(line)] *)
Definition print (line : string) : M unit := fun st => (Ok tt, printed line st).

(** [try: body / except Exception as e: handler(e)] *)
Definition try_except {A} (body : M A) (handler : exn -> M A) : M A :=
  fun st =>
    match body st with
    | (Ok a, st') => (Ok a, st')
    | (Raise e, st') => handler e st'
    end.

(** [try: body / except ValueError: handler]: any other exception goes
    on. *)
Definition try_except_ValueError {A} (body : M A) (handler : M A) : M A :=
  fun st =>
    match body st with
    | (Raise (ValueError _), st') => handler st'
    | r => r
    end.

(** [str(e)] of an exception. *)
Definition exn_str (e : exn) : string :=
  match e with
  | ValueError msg => msg
  | KeyError key => "'" ++ key ++ "'"
  | OtherError _ msg => msg
  end.

(** ** The world a run takes place in *)

(** The parts of a run that the program does not decide: what the web
    server answers to a GET (the text of the [RequestException], or the
    parsed page; a run requests no URL twice, so one answer per URL is
    enough), what the clock shows at each reading, the offset of the
    local time zone at a given time, how [urljoin] resolves a reference
    against a base where it returns, which arguments the constructors
    [Media] and [Person] of the podcast library refuse, with the exception
    they raise, on which references [urljoin] raises, with its exception
    (it raises [ValueError] on a reference such as "//[x", whose host
    opens a bracket that it does not close), and which feeds the podcast
    library fails to serialise in [rss_file], with the exception raised
    (a [ValueError] for a feed with a control character in one of its
    texts). *)
Record world : Type := mk_world {
  http_get : string -> string + Bs4.document;
  clock : nat -> Datetime.datetime;
  utc_offset : Datetime.datetime -> Z;
  urljoin : string -> string -> string;
  Media_refuses : string -> option exn;
  Person_refuses : string -> option exn;
  urljoin_refuses : string -> string -> option exn;
  rss_refuses : Podgen.Podcast -> option exn
}.

(** ** The program *)

Definition BASE_URL : string := "https://www.westminster.org/messages/".
Definition RSS_FILENAME : string := "podcast.xml".

(** [{'url': href}] *)
Record MessageLink : Type := mk_link { link_url : string }.

(** The dictionary [details]; the key ['speaker'] may be missing. *)
Record MessageDetails : Type := mk_details {
  url : string;
  title : string;
  audio_url : string;
  date : Datetime.datetime;
  speaker : option string;
  description : string
}.

Section Program.

Variable w : world.

(** [requests.get(url, headers=headers)] followed by
    [raise_for_status()] and the parse: the request is recorded. *)
Definition http_request (u : string) : M (string + Bs4.document) :=
  fun st => (Ok (http_get w u), requested u st).

(** [datetime.now()] *)
Definition datetime_now : M Datetime.datetime :=
  fun st => (Ok (clock w (ticks st)), ticked st).

Definition get_soup (u : string) : M (option Bs4.document) :=
  let* response := http_request u in
  match response with
  | inr soup => ret (Some soup)
  | inl e =>
      let* _ := print ("Error fetching " ++ u ++ ": " ++ e) in
      ret None
  end.

(** Lines 26-31.  The date made by [strptime] is naive, and
    [replace(tzinfo=None)] leaves it as it is. *)
Definition parse_date (date_str : string) : M Datetime.datetime :=
  try_except_ValueError
    (lift (Datetime.strptime_BdY (Str.strip date_str)))
    datetime_now.

(** *** Listing scraper *)

(** [urljoin(base, href)] *)
Definition urljoin_call (base href : string) : result string :=
  match urljoin_refuses w base href with
  | Some e => Raise e
  | None => Ok (urljoin w base href)
  end.

(** The URL a link of the listing stands for, where its resolution
    returns: resolved against the base when it starts with "/", taken as
    it is otherwise (lines 45-48). *)
Definition normalize (href : string) : string :=
  if Str.startswith href "/" then urljoin w BASE_URL href else href.

(** The test of line 50. *)
Definition is_message_url (href : string) : bool :=
  Str.contains "/mediacast/" href
  && negb (String.eqb href "https://www.westminster.org/mediacast/").

(** One turn of the loop of lines 44-53 on the pair of [seen_urls] and
    [messages], for a link whose resolution returns. *)
Definition scrape_step (acc : gset string * list MessageLink) (href : string)
  : gset string * list MessageLink :=
  let '(seen_urls, messages) := acc in
  let href := normalize href in
  if is_message_url href then
    if decide (href ∈ seen_urls) then acc
    else (seen_urls ∪ {[ href ]}, (messages ++ [mk_link href])%list)
  else acc.

(** What the loop collects from the links [hrefs] when no resolution
    raises. *)
Definition collect_links (hrefs : list string) : list MessageLink :=
  snd (List.fold_left scrape_step hrefs (∅, [])).

(** Lines 44-55: the loop over the links, from the values [seen_urls] and
    [messages] in [acc], and the list returned after it.  An exception of
    [urljoin] at line 48 leaves the loop and the function. *)
Fixpoint scrape_loop (hrefs : list string) (acc : gset string * list MessageLink)
  : result (list MessageLink) :=
  match hrefs with
  | [] => Ok (snd acc)
  | href :: rest =>
      match (if Str.startswith href "/" then urljoin_call BASE_URL href else Ok href) with
      | Raise e => Raise e
      | Ok href =>
          let '(seen_urls, messages) := acc in
          if is_message_url href then
            if decide (href ∈ seen_urls) then scrape_loop rest acc
            else scrape_loop rest (seen_urls ∪ {[ href ]}, (messages ++ [mk_link href])%list)
          else scrape_loop rest acc
      end
  end.

Definition scrape_messages : M (list MessageLink) :=
  let* soup := get_soup BASE_URL in
  match soup with
  | None => ret []
  | Some soup => lift (scrape_loop (Bs4.hrefs soup) (∅, []))
  end.

(** *** Detail extractor *)

(** Lines 73-80: the audio URL, when the page gives one. *)
Definition find_audio_url (soup : Bs4.document) : result (option string) :=
  match Bs4.find_class "audio" "wp-audio-shortcode" soup with
  | Some audio_tag =>
      if Bs4.truthy (Bs4.get audio_tag "src") then
        match Bs4.getitem audio_tag "src" with
        | Ok v => Ok (Some v)
        | Raise e => Raise e
        end
      else
        match Bs4.find "source" (Bs4.children_of audio_tag) with
        | Some source =>
            match Bs4.getitem source "src" with
            | Ok v => Ok (Some v)
            | Raise e => Raise e
            end
        | None =>
            match Bs4.find "a" (Bs4.children_of audio_tag) with
            | Some a =>
                match Bs4.getitem a "href" with
                | Ok v => Ok (Some v)
                | Raise e => Raise e
                end
            | None => Ok None
            end
        end
  | None => Ok None
  end.

(** Line 88: [details['audio_url'].split('/')[-1]]. *)
Definition filename_of (audio : string) : string :=
  Str.last_piece (Str.split "/" audio).

(** Lines 91-96: the date of the message. *)
Definition extract_date (audio_filename : string) : M Datetime.datetime :=
  match Re.search_date audio_filename with
  | Some group1 => lift (Datetime.strptime_Ymd group1)
  | None => datetime_now
  end.

(** Lines 100-110: the speaker. *)
Definition extract_speaker (audio_filename : string) : option string :=
  let decoded_filename := Urllib.unquote audio_filename in
  if Str.contains " - " decoded_filename then
    let parts := Str.split " - " decoded_filename in
    if Nat.ltb 1 (List.length parts) then
      let speaker := Str.strip (Str.replace ".mp3" "" (Str.last_piece parts)) in
      let speaker := Str.first_piece (Str.split "?" speaker) in
      Some speaker
    else None
  else Some "Westminster Chapel".

(** Line 112. *)
Definition describe (speaker : option string) (date : Datetime.datetime) : string :=
  "Message by " ++ default "Unknown" speaker ++ " on " ++ Datetime.strftime_BdY date.

Definition get_message_details (message_url : string) : M (option MessageDetails) :=
  let* soup := get_soup message_url in
  match soup with
  | None => ret None
  | Some soup =>
      let title :=
        match Bs4.find "h1" soup with
        | Some title_tag => Bs4.get_text_strip title_tag
        | None => "Unknown Title"
        end in
      let* found := lift (find_audio_url soup) in
      match found with
      | None =>
          let* _ := print ("No audio found for " ++ message_url) in
          ret None
      | Some audio_url =>
          let audio_filename := filename_of audio_url in
          let* date := extract_date audio_filename in
          let speaker := extract_speaker audio_filename in
          ret (Some (mk_details message_url title audio_url date speaker
                       (describe speaker date)))
      end
  end.

(** *** Feed builder *)

(** [Media(url, size=0, type="audio/mpeg")] *)
Definition Media_new (u : string) : result Podgen.Media :=
  match Media_refuses w u with
  | Some e => Raise e
  | None => Ok (Podgen.mk_Media u 0 "audio/mpeg")
  end.

(** [Person(name)] *)
Definition Person_new (n : string) : result Podgen.Person :=
  match Person_refuses w n with
  | Some e => Raise e
  | None => Ok (Podgen.mk_Person n None)
  end.

(** Lines 118-128. *)
Definition new_podcast : Podgen.Podcast :=
  Podgen.mk_Podcast
    "Westminster Chapel Messages"
    "Audio messages from Westminster Chapel of Bellevue."
    BASE_URL
    false
    "https://isaacy.github.io/westminster-podcast/cover.png"
    [Podgen.mk_Person "Westminster Chapel - Bellevue" None]
    (Podgen.mk_Person "Westminster Chapel - Bellevue" (Some "info@westminster.org"))
    (Podgen.mk_Category "Religion & Spirituality" "Christianity")
    "en"
    [].

(** Lines 134-143, the body of the [try].  The constructors [Media] and
    [Person] may raise; the assignments to the attributes of the episode
    and [add_episode] are taken not to. *)
Definition build_episode (p : Podgen.Podcast) (msg : MessageDetails) : M Podgen.Podcast :=
  let* media := lift (Media_new (audio_url msg)) in
  let* now := datetime_now in
  let publication_date := (date msg, utc_offset w now) in
  let* authors :=
    match speaker msg with
    | Some s => let* person := lift (Person_new s) in ret [person]
    | None => ret []
    end in
  ret (Podgen.add_episode p
         (Podgen.mk_Episode (title msg) media (description msg)
            publication_date (url msg) authors)).

(** Lines 130-145, the loop over [messages]. *)
Fixpoint add_episodes (messages : list (option MessageDetails)) (p : Podgen.Podcast)
  : M Podgen.Podcast :=
  match messages with
  | [] => ret p
  | None :: rest => add_episodes rest p
  | Some msg :: rest =>
      let* p' :=
        try_except (build_episode p msg)
          (fun e =>
             let* _ := print ("Error adding episode " ++ title msg ++ ": " ++ exn_str e) in
             ret p) in
      add_episodes rest p'
  end.

(** [p.rss_file(filename, minimize=True)]: the feed is serialised, then
    written.  An exception of the serialisation comes before the file is
    opened and leaves no file; after it the file holds the feed (the
    writing itself is taken to succeed). *)
Definition rss_file (p : Podgen.Podcast) (filename : string) : M unit :=
  fun st =>
    match rss_refuses w p with
    | Some e => (Raise e, st)
    | None => (Ok tt, written filename p st)
    end.

Definition generate_feed (messages : list (option MessageDetails)) : M unit :=
  let* p := add_episodes messages new_podcast in
  let* _ := rss_file p RSS_FILENAME in
  print ("Podcast feed generated: " ++ RSS_FILENAME).

(** *** Orchestrator *)

(** Lines 157-162, the loop over the links with [details_list]. *)
Fixpoint process_links (links : list MessageLink) (details_list : list MessageDetails)
  : M (list MessageDetails) :=
  match links with
  | [] => ret details_list
  | link_obj :: rest =>
      let* _ := print ("Processing " ++ link_url link_obj ++ "...") in
      let* details := get_message_details (link_url link_obj) in
      match details with
      | Some details =>
          let* _ := print ("  Found: " ++ title details ++ " - "
                           ++ Datetime.isoformat_date (date details)) in
          process_links rest (details_list ++ [details])
      | None => process_links rest details_list
      end
  end.

Definition main : M unit :=
  let* _ := print "Scraping messages..." in
  let* message_links := scrape_messages in
  let* _ := print ("Found " ++ Str.of_nat (List.length message_links)
                   ++ " potential message links.") in
  let* details_list := process_links (List.firstn 20 message_links) [] in
  match details_list with
  | _ :: _ => generate_feed (List.map Some details_list)
  | [] => print "No messages found to generate feed."
  end.

(** Lines 151-162 of [main] on their own: the run up to the end of the
    loop, with the value of [details_list] there. *)
Definition collect_details : M (list MessageDetails) :=
  let* _ := print "Scraping messages..." in
  let* message_links := scrape_messages in
  let* _ := print ("Found " ++ Str.of_nat (List.length message_links)
                   ++ " potential message links.") in
  process_links (List.firstn 20 message_links) [].

End Program.

(** ** Specification of the listing *)

(** A list without its repetitions, each element at the place of its first
    occurrence. *)
Fixpoint first_occurrences (l : list string) : list string :=
  match l with
  | [] => []
  | x :: l' => x :: List.filter (fun y => negb (String.eqb y x)) (first_occurrences l')
  end.

(** The URLs of the listing that qualify as message pages, in the order of
    their anchors, repetitions included. *)
Definition candidates (w : world) (hrefs : list string) : list string :=
  List.filter is_message_url (List.map (normalize w) hrefs).

(** ** Specification of the date *)

(** [f] is the final path segment of [u]: what follows the last "/". *)
Definition final_segment (u f : string) : Prop :=
  Str.contains "/" f = false /\ (u = f \/ exists dir, u = dir ++ "/" ++ f).

(** [m] has the form of four digits, a dash, two digits, a dash, two
    digits. *)
Definition is_date (m : string) : Prop :=
  Re.date_shape (list_ascii_of_string m) = true.

(** [m] is the occurrence of that form in [s] that starts first. *)
Definition leftmost_date (s m : string) : Prop :=
  exists pre post,
    s = pre ++ m ++ post /\ is_date m /\
    forall pre' m' post',
      s = pre' ++ m' ++ post' -> is_date m' ->
      (String.length pre <= String.length pre')%nat.

(** No part of [s] has that form. *)
Definition no_date (s : string) : Prop :=
  forall pre m post, s = pre ++ m ++ post -> ~ is_date m.

(** The number written by a list of decimal digits. *)
Definition number (digits : list ascii) : Z :=
  List.fold_left (fun acc c => 10 * acc + Str.digit_value c) digits 0.

(** The day of the calendar that a text of the form YYYY-MM-DD names, at
    midnight, when there is such a day: year from 1, month from 1 to 12,
    day from 1 to the length of that month. *)
Definition calendar_date (m : string) : option Datetime.datetime :=
  match list_ascii_of_string m with
  | [y1; y2; y3; y4; _; m1; m2; _; d1; d2] =>
      let y := number [y1; y2; y3; y4] in
      let mo := number [m1; m2] in
      let d := number [d1; d2] in
      if (1 <=? y) && (1 <=? mo) && (mo <=? 12) && (1 <=? d)
         && (d <=? Datetime.days_in_month y mo)
      then Some (Datetime.midnight y mo d)
      else None
  | _ => None
  end.

(** ** What the world decides of a run *)

(** The links that the listing scraper returns in the world [w], when it
    returns: none for a listing that cannot be fetched. *)
Definition listing_of (w : world) : list MessageLink :=
  match http_get w BASE_URL with
  | inr soup => collect_links w (Bs4.hrefs soup)
  | inl _ => []
  end.

(** The exception of the first of the links [hrefs] whose resolution
    raises one. *)
Fixpoint resolution_error (w : world) (hrefs : list string) : option exn :=
  match hrefs with
  | [] => None
  | href :: rest =>
      match (if Str.startswith href "/" then urljoin_refuses w BASE_URL href else None) with
      | Some e => Some e
      | None => resolution_error w rest
      end
  end.

(** The exception with which the listing scraper ends in the world [w],
    when it does not return. *)
Definition scrape_error (w : world) : option exn :=
  match http_get w BASE_URL with
  | inr soup => resolution_error w (Bs4.hrefs soup)
  | inl _ => None
  end.

(** The page at [u] is fetched and gives an audio URL. *)
Definition extractable (w : world) (u : string) : bool :=
  match http_get w u with
  | inr soup =>
      match find_audio_url soup with
      | Ok (Some _) => true
      | _ => false
      end
  | inl _ => false
  end.

(** The exception that escapes from the extraction of the page at [u],
    when one does: from the attribute look-ups of lines 78 and 80, or from
    [strptime] at line 93. *)
Definition extraction_error (w : world) (u : string) : option exn :=
  match http_get w u with
  | inr soup =>
      match find_audio_url soup with
      | Raise e => Some e
      | Ok None => None
      | Ok (Some audio) =>
          match Re.search_date (filename_of audio) with
          | Some m =>
              match Datetime.strptime_Ymd m with
              | Raise e => Some e
              | Ok _ => None
              end
          | None => None
          end
      end
  | inl _ => None
  end.

(** The title the extractor gives to a page (lines 67-68). *)
Definition title_of (soup : Bs4.document) : string :=
  match Bs4.find "h1" soup with
  | Some title_tag => Bs4.get_text_strip title_tag
  | None => "Unknown Title"
  end.

(** The podcast library accepts the message: neither [Media] nor [Person]
    refuses its argument. *)
Definition accepted (w : world) (msg : MessageDetails) : bool :=
  match Media_refuses w (audio_url msg) with
  | Some _ => false
  | None =>
      match speaker msg with
      | Some s => match Person_refuses w s with Some _ => false | None => true end
      | None => true
      end
  end.

(** The episode built from a message when the local zone is [offset]
    seconds from UTC. *)
Definition episode_of (offset : Z) (msg : MessageDetails) : Podgen.Episode :=
  Podgen.mk_Episode (title msg)
    (Podgen.mk_Media (audio_url msg) 0 "audio/mpeg")
    (description msg)
    (date msg, offset)
    (url msg)
    match speaker msg with
    | Some s => [Podgen.mk_Person s None]
    | None => []
    end.

(** ** A sample site *)

Module Sample.

Definition audio_player (attrs : gmap string string) (inner : list Bs4.node) : Bs4.node :=
  Bs4.Tag "audio" ["wp-audio-shortcode"] attrs inner.

(** A message page: a heading and, possibly, an audio player. *)
Definition page (heading : list Bs4.node) (player : list Bs4.node) : Bs4.document :=
  [Bs4.Tag "html" [] ∅
     [Bs4.Tag "body" [] ∅ (Bs4.Tag "h1" ["entry-title"] ∅ heading :: player)]].

Definition site_root : string := "https://www.westminster.org".
Definition media_root : string := "https://www.westminster.org/wp-content/uploads/Messages/".

(** Some message pages: with the audio URL on the player itself, on a
    nested [source], on a nested link; with an empty heading; with a file
    name whose date is no day of the calendar; with a [source] and a link
    that lack their attribute; without player. *)
Definition hope_audio : string := media_root ++ "2025-11-09+Message+-+Jane+Doe.mp3".
Definition hope_page : Bs4.document :=
  page [Bs4.Text "Hope"] [audio_player {[ "src" := hope_audio ]} []].

Definition grace_audio : string :=
  media_root ++ "2025-11-16%20Message%20-%20John%20Roe.mp3?_=1".
Definition grace_page : Bs4.document :=
  page [Bs4.Text " Grace "]
    [audio_player ∅ [Bs4.Tag "source" [] {[ "src" := grace_audio ]} []]].

Definition untitled_audio : string :=
  media_root ++ "2025-11-23%20Message%20-%20Jane%20Doe.mp3".
Definition untitled_page : Bs4.document :=
  page [] [audio_player {[ "src" := untitled_audio ]} []].

Definition undated_audio : string := media_root ++ "Peace.mp3".
Definition undated_page : Bs4.document :=
  page [Bs4.Text "Peace"]
    [audio_player ∅
       [Bs4.Tag "a" [] {[ "href" := undated_audio ]} [Bs4.Text "Download"]]].

Definition baddate_audio : string :=
  media_root ++ "2025-13-45%20Message%20-%20Jane%20Doe.mp3".
Definition baddate_page : Bs4.document :=
  page [Bs4.Text "Joy"] [audio_player {[ "src" := baddate_audio ]} []].

Definition nosrc_source : Bs4.node := Bs4.Tag "source" [] {[ "type" := "audio/mpeg" ]} [].
Definition nosrc_player : Bs4.node := audio_player ∅ [nosrc_source].
Definition nosrc_page : Bs4.document := page [Bs4.Text "Faith"] [nosrc_player].

Definition nohref_link : Bs4.node := Bs4.Tag "a" [] ∅ [Bs4.Text "Download"].
Definition nohref_player : Bs4.node := audio_player ∅ [nohref_link].
Definition nohref_page : Bs4.document := page [Bs4.Text "Love"] [nohref_player].

Definition silent_page : Bs4.document := page [Bs4.Text "Rest"] [].

Definition mute_page : Bs4.document :=
  page [Bs4.Text "Hush"] [audio_player ∅ [Bs4.Tag "source" [] {[ "src" := "" ]} []]].

Definition hope_url : string := site_root ++ "/mediacast/hope/".
Definition grace_url : string := site_root ++ "/mediacast/grace/".
Definition untitled_url : string := site_root ++ "/mediacast/untitled/".
Definition undated_url : string := site_root ++ "/mediacast/undated/".
Definition baddate_url : string := site_root ++ "/mediacast/baddate/".
Definition nosrc_url : string := site_root ++ "/mediacast/nosrc/".
Definition nohref_url : string := site_root ++ "/mediacast/nohref/".
Definition silent_url : string := site_root ++ "/mediacast/silent/".
Definition mute_url : string := site_root ++ "/mediacast/mute/".

(** A page whose audio file names a speaker with a control character. *)
Definition control_audio : string :=
  media_root ++ "2025-11-30%20Message%20-%20Jane%01Doe.mp3".
Definition control_page : Bs4.document :=
  page [Bs4.Text "Light"] [audio_player {[ "src" := control_audio ]} []].
Definition control_url : string := site_root ++ "/mediacast/control/".

(** The pages of the site, by URL. *)
Definition pages : list (string * Bs4.document) :=
  [ (hope_url, hope_page); (grace_url, grace_page); (untitled_url, untitled_page);
    (undated_url, undated_page); (baddate_url, baddate_page);
    (nosrc_url, nosrc_page); (nohref_url, nohref_page); (silent_url, silent_page);
    (mute_url, mute_page); (control_url, control_page) ].

(** The listing page with the given [href]s on its anchors. *)
Definition listing (hrefs : list string) : Bs4.document :=
  [Bs4.Tag "html" [] ∅
     [Bs4.Tag "body" [] ∅
        (Bs4.Tag "a" [] ∅ [Bs4.Text "Top"]
         :: List.map (fun h => Bs4.Tag "a" [] {[ "href" := h ]} [Bs4.Text "Listen"]) hrefs)]].

Fixpoint lookup_page (u : string) (l : list (string * Bs4.document)) : option Bs4.document :=
  match l with
  | [] => None
  | (u', doc) :: l' => if String.eqb u u' then Some doc else lookup_page u l'
  end.

(** A character that XML does not admit: a control character other than
    tab, new line and carriage return. *)
Definition is_control (c : ascii) : bool :=
  let n := N_of_ascii c in
  ((n <? 32) && negb ((n =? 9) || (n =? 10) || (n =? 13)))%N.

Fixpoint has_control (s : string) : bool :=
  match s with
  | EmptyString => false
  | String c s' => is_control c || has_control s'
  end.

(** No text of the episode holds such a character. *)
Definition serialisable (ep : Podgen.Episode) : bool :=
  negb (has_control (Podgen.ep_title ep)
        || has_control (Podgen.ep_summary ep)
        || has_control (Podgen.ep_link ep)
        || has_control (Podgen.media_url (Podgen.ep_media ep))
        || List.existsb (fun a => has_control (Podgen.person_name a)) (Podgen.ep_authors ep)).

(** The site whose listing carries the given [href]s.  References that
    start with "//" are resolved by prefixing the scheme, the others that
    start with "/" by prefixing the root of the site; the resolution
    raises on a reference that starts with "//[" and holds no "]"; the
    clock shows the first seconds of 2026; the local zone is eight hours
    behind UTC; the library refuses an empty media URL and an empty name,
    and fails to serialise a feed that has an episode with a control
    character in one of its texts. *)
Definition site (hrefs : list string) : world :=
  mk_world
    (fun u =>
       if String.eqb u BASE_URL then inr (listing hrefs)
       else match lookup_page u pages with
            | Some doc => inr doc
            | None => inl ("404 Client Error: Not Found for url: " ++ u)
            end)
    (fun n => Datetime.mk_datetime 2026 1 1 0 0 (Z.of_nat n) 0)
    (fun _ => -28800)
    (fun _ href => if Str.startswith href "//" then "https:" ++ href else site_root ++ href)
    (fun u => match u with
              | EmptyString => Some (ValueError "media URL is empty")
              | _ => None
              end)
    (fun n => match n with
              | EmptyString => Some (ValueError "person without name")
              | _ => None
              end)
    (fun _ href =>
       if Str.startswith href "//[" && negb (Str.contains "]" href)
       then Some (ValueError "Invalid IPv6 URL") else None)
    (fun p =>
       if List.forallb serialisable (Podgen.episodes p) then None
       else Some (ValueError "All strings must be XML compatible: Unicode or ASCII, no NULL bytes or control characters")).

(** The record that the extractor makes of [mute_page] at the first
    reading of the clock: its audio URL is empty. *)
Definition mute_details : MessageDetails :=
  mk_details mute_url "Hush" "" (Datetime.mk_datetime 2026 1 1 0 0 0 0)
    (Some "Westminster Chapel") "Message by Westminster Chapel on January 01, 2026".

(** A world in which no request is answered. *)
Definition offline : world :=
  mk_world (fun u => inl ("ConnectionError: no route to " +:+ u)%string)
    (clock (Sample.site [])) (utc_offset (Sample.site [])) (urljoin (Sample.site []))
    (Media_refuses (Sample.site [])) (Person_refuses (Sample.site []))
    (urljoin_refuses (Sample.site [])) (rss_refuses (Sample.site [])).

End Sample.

(** The record [d] is what the extractor makes of the page at its URL:
    title, audio URL, speaker and description as the page and the file
    name give them, and a date that is the one read in the file name or a
    reading of the clock. *)
Definition extracted_from (w : world) (d : MessageDetails) : Prop :=
  exists soup,
    http_get w (url d) = inr soup
    /\ title d = title_of soup
    /\ find_audio_url soup = Ok (Some (audio_url d))
    /\ speaker d = extract_speaker (filename_of (audio_url d))
    /\ description d = describe (speaker d) (date d)
    /\ match Re.search_date (filename_of (audio_url d)) with
       | Some m => Datetime.strptime_Ymd m = Ok (date d)
       | None => exists k, date d = clock w k
       end.

(** The rule for the date of the record made from the page at
    [message_url] whose audio URL is [audio], in a run that has reached
    the state [st]: the date pattern is looked for in the final path
    segment; the occurrence that starts first, if there is one, is read as
    a day of the calendar (a text that names no such day makes the
    extraction raise [ValueError]); without any occurrence the date is the
    reading of the clock. *)
Definition date_rule (w : world) (message_url audio : string) (st : state) : Prop :=
  let f := filename_of audio in
  final_segment audio f
  /\ ((exists m, leftmost_date f m) \/ no_date f)
  /\ (forall m, leftmost_date f m ->
        match calendar_date m with
        | Some dt =>
            exists d st',
              get_message_details w message_url st = (Ok (Some d), st')
              /\ audio_url d = audio /\ date d = dt
        | None =>
            exists msg st',
              get_message_details w message_url st = (Raise (ValueError msg), st')
        end)
  /\ (no_date f ->
        exists d st',
          get_message_details w message_url st = (Ok (Some d), st')
          /\ audio_url d = audio /\ date d = clock w (ticks st)).

(** ** Specification of the feed *)

(** The feed [p] with the episodes [eps] added at its end. *)
Definition extended (p : Podgen.Podcast) (eps : list Podgen.Episode) : Podgen.Podcast :=
  Podgen.mk_Podcast (Podgen.name p) (Podgen.description p) (Podgen.website p)
    (Podgen.explicit p) (Podgen.image p) (Podgen.authors p) (Podgen.owner p)
    (Podgen.category p) (Podgen.language p) (Podgen.episodes p ++ eps)%list.

(** The episode [ep] was built from the message [msg]. *)
Definition built_from (ep : Podgen.Episode) (msg : MessageDetails) : Prop :=
  exists offset, ep = episode_of offset msg.

(** The messages of which the feed builder makes an episode. *)
Definition publishable (w : world) (messages : list (option MessageDetails))
  : list MessageDetails :=
  List.filter (accepted w) (omap id messages).

(** How the feed builder ends once its loop has built the feed [p] and
    left the state [st1]: the library fails to serialise [p], the
    exception of [rss_file] escapes, and nothing is written or printed; or
    the file is written and the last line printed. *)
Definition feed_end (w : world) (p : Podgen.Podcast) (st1 : state) : result unit * state :=
  match rss_refuses w p with
  | Some e => (Raise e, st1)
  | None =>
      (Ok tt, printed ("Podcast feed generated: " +:+ RSS_FILENAME)%string
                (written RSS_FILENAME p st1))
  end.

(** What holds of an episode of the feed: it links to a page that was
    fetched; its title is the one the extractor gives to that page (the
    text of its first [h1], or the placeholder when it has none); its
    media URL is the audio URL found on that page, and one that the
    library's [Media] accepted; its publication date is the day read in
    the name of the audio file, or a reading of the clock when the name
    shows no date. *)
Definition episode_invariant (w : world) (ep : Podgen.Episode) : Prop :=
  exists soup,
    http_get w (Podgen.ep_link ep) = inr soup
    /\ Podgen.ep_title ep = title_of soup
    /\ find_audio_url soup = Ok (Some (Podgen.media_url (Podgen.ep_media ep)))
    /\ Media_refuses w (Podgen.media_url (Podgen.ep_media ep)) = None
    /\ match Re.search_date (filename_of (Podgen.media_url (Podgen.ep_media ep))) with
       | Some m => calendar_date m = Some (fst (Podgen.ep_publication_date ep))
       | None => exists k, fst (Podgen.ep_publication_date ep) = clock w k
       end.

(** ** Specification of the run *)

(** The extraction of the page at [u] ends with a record. *)
Definition yields_record (w : world) (u : string) : bool :=
  match extraction_error w u with
  | Some _ => false
  | None => extractable w u
  end.


(** ** Further specifications *)

(** A text without white space at either end. *)
Definition trimmed (s : string) : Prop := Str.lstrip s = s /\ Str.rstrip s = s.

(** A day of the calendar from the year 1 to the year 9999, at
    midnight. *)
Definition calendar_day (dt : Datetime.datetime) : Prop :=
  1 <= Datetime.year dt <= 9999
  /\ 1 <= Datetime.month dt <= 12
  /\ 1 <= Datetime.day dt <= Datetime.days_in_month (Datetime.year dt) (Datetime.month dt)
  /\ dt = Datetime.midnight (Datetime.year dt) (Datetime.month dt) (Datetime.day dt).

(** The text of a day: one or two digits that write its number. *)
Inductive day_text (d : Z) : string -> Prop :=
| day_one_digit (a : ascii) :
    Str.isdigit a = true -> Str.digit_value a = d -> day_text d (String a "")
| day_two_digits (a b : ascii) :
    Str.isdigit a = true -> Str.isdigit b = true -> number [a; b] = d ->
    day_text d (String a (String b "")).

(** The values of a decimal digit. *)
Definition digits_below_ten : list nat := seq 0 10.


(** The page states [audio] as the address of its audio: on its first
    marked player (the first [audio] of class [wp-audio-shortcode]), as a
    [src] that is not empty, or inside that player, as the [src] of a
    [source] or as the [href] of a link. *)
Definition stated_by_player (soup : Bs4.document) (audio : string) : Prop :=
  exists player,
    Bs4.find_class "audio" "wp-audio-shortcode" soup = Some player
    /\ In player (Bs4.descendants soup)
    /\ ((Bs4.get player "src" = Some audio /\ audio <> ""%string)
        \/ (exists source,
              In source (Bs4.descendants (Bs4.children_of player))
              /\ Bs4.is_tag "source" source = true /\ Bs4.get source "src" = Some audio)
        \/ (exists a,
              In a (Bs4.descendants (Bs4.children_of player))
              /\ Bs4.is_tag "a" a = true /\ Bs4.get a "href" = Some audio)).

(** The exception that the library raises on a message, if it refuses
    it: that of [Media], or else that of [Person]. *)
Definition refusal (w : world) (msg : MessageDetails) : option exn :=
  match Media_refuses w (audio_url msg) with
  | Some e => Some e
  | None =>
      match speaker msg with
      | Some s => Person_refuses w s
      | None => None
      end
  end.

(** The lines that the feed builder prints for the messages refused. *)
Definition error_lines (w : world) (messages : list (option MessageDetails)) : list string :=
  omap (fun msg =>
          match refusal w msg with
          | Some e => Some ("Error adding episode " +:+ title msg +:+ ": " +:+ exn_str e)%string
          | None => None
          end)
       (omap id messages).

(** The readings of the clock in the feed builder: one for each message
    whose media the library accepts. *)
Definition readings (w : world) (messages : list (option MessageDetails)) : nat :=
  length (List.filter (fun msg => match Media_refuses w (audio_url msg) with
                                  | Some _ => false
                                  | None => true
                                  end) (omap id messages)).

(** What the loop of the feed builder leaves behind, from the state
    [st] to the state [st'], with the episodes [eps] that it has added. *)
Definition loop_footprint (w : world) (messages : list (option MessageDetails))
    (st st' : state) (eps : list Podgen.Episode) : Prop :=
  stdout st' = (stdout st ++ error_lines w messages)%list
  /\ ticks st' = (ticks st + readings w messages)%nat
  /\ length eps = length (publishable w messages)
  /\ Forall (fun ep => exists k, (ticks st <= k < ticks st')%nat
               /\ snd (Podgen.ep_publication_date ep) = utc_offset w (clock w k)) eps.

(** What the feed says of the speaker of an episode. *)
Definition episode_credits (ep : Podgen.Episode) : Prop :=
  exists s,
    extract_speaker (filename_of (Podgen.media_url (Podgen.ep_media ep))) = Some s
    /\ Podgen.ep_authors ep = [Podgen.mk_Person s None]
    /\ Podgen.ep_summary ep
       = ("Message by " +:+ s +:+ " on "
          +:+ Datetime.strftime_BdY (fst (Podgen.ep_publication_date ep)))%string.

(** The exception of the first of the pages at [urls] whose extraction
    raises one. *)
Fixpoint first_error (w : world) (urls : list string) : option exn :=
  match urls with
  | [] => None
  | u :: rest =>
      match extraction_error w u with
      | Some e => Some e
      | None => first_error w rest
      end
  end.

(** The library accepts what the extractor finds on the page at [u]. *)
Definition library_accepts (w : world) (u : string) : bool :=
  match http_get w u with
  | inr soup =>
      match find_audio_url soup with
      | Ok (Some audio) =>
          match Media_refuses w audio with
          | Some _ => false
          | None =>
              match extract_speaker (filename_of audio) with
              | Some s => match Person_refuses w s with Some _ => false | None => true end
              | None => true
              end
          end
      | _ => false
      end
  | inl _ => false
  end.

(** The page at [u] gives an episode of the feed. *)
Definition published (w : world) (u : string) : bool :=
  yields_record w u && library_accepts w u.

(** * Properties *)

(** From here on [++] is the concatenation of lists; that of strings is
    written [+:+]. *)
Local Close Scope string_scope.

(** ** The library operations on some inputs *)

Example split_pieces :
  Str.split " - " "a - b - c" = ["a"; "b"; "c"]%string
  /\ Str.split " - " " -  - " = [""; ""; ""]%string
  /\ Str.split "/" "a/b/" = ["a"; "b"; ""]%string
  /\ Str.split "/" "" = [""%string].
Proof. repeat split; reflexivity. Qed.

Example replace_scans_once :
  Str.replace ".mp3" "" "..mp3mp3" = ".mp3"%string
  /\ Str.replace ".mp3" "" "a.mp3b.mp3" = "ab"%string.
Proof. split; reflexivity. Qed.

Example strip_both_ends : Str.strip "  a b  " = "a b"%string.
Proof. reflexivity. Qed.

Example decimal_numbers :
  Str.of_nat 0 = "0"%string /\ Str.of_nat 20 = "20"%string /\ Str.of_nat 105 = "105"%string
  /\ Str.pad 2 9 = "09"%string /\ Str.pad 4 999 = "0999"%string /\ Str.pad 2 123 = "123"%string.
Proof. repeat split; reflexivity. Qed.

Example unquote_escapes :
  Urllib.unquote "2025-11-09%20Message%20-%20Jane%20Doe.mp3"
  = "2025-11-09 Message - Jane Doe.mp3"%string
  /\ Urllib.unquote "a%zz%4" = "a%zz%4"%string
  /\ Urllib.unquote "%%41" = "%A"%string
  /\ Urllib.unquote "%2541" = "%41"%string
  /\ Urllib.unquote "%4a%4A" = "JJ"%string
  /\ Urllib.unquote "a+b" = "a+b"%string.
Proof. repeat split; reflexivity. Qed.

Example search_date_leftmost_match :
  Re.search_date "x12025-11-091" = Some "2025-11-09"%string
  /\ Re.search_date "2025-1-2025-11-09" = Some "2025-11-09"%string
  /\ Re.search_date "2025-11-0" = None.
Proof. repeat split; reflexivity. Qed.

Example strptime_days :
  Datetime.strptime_Ymd "2025-11-09" = Ok (Datetime.midnight 2025 11 9)
  /\ Datetime.strptime_Ymd "2024-02-29" = Ok (Datetime.midnight 2024 2 29)
  /\ Datetime.strptime_Ymd "1900-02-29" = Raise (ValueError "day is out of range for month")
  /\ Datetime.strptime_Ymd "0000-01-01" = Raise (ValueError "year 0 is out of range")
  /\ Datetime.strptime_Ymd "2025-13-45"
     = Raise (ValueError "time data '2025-13-45' does not match format '%Y-%m-%d'")
  /\ Datetime.strptime_Ymd "2025-11-35" = Raise (ValueError "unconverted data remains: 5")
  /\ Datetime.strptime_Ymd "2025-1-5" = Ok (Datetime.midnight 2025 1 5).
Proof. repeat split; reflexivity. Qed.

Example strftime_formats :
  Datetime.strftime_BdY (Datetime.midnight 2025 11 9) = "November 09, 2025"%string
  /\ Datetime.isoformat_date (Datetime.midnight 999 1 9) = "0999-01-09"%string.
Proof. split; reflexivity. Qed.

(** ** Listing scraper *)

Section Listing.

Variable w : world.

Lemma first_occurrences_elem (l : list string) (x : string) :
  x ∈ first_occurrences l <-> x ∈ l.
Proof.
  revert x; induction l as [|a l IH]; intros x; simpl; [done|].
  rewrite !elem_of_cons, <- IH, !list_elem_of_In, filter_In.
  destruct (String.eqb_spec x a) as [->|Hne]; simpl; intuition congruence.
Qed.

Lemma first_occurrences_NoDup (l : list string) : NoDup (first_occurrences l).
Proof.
  induction l as [|a l IH]; simpl; constructor.
  - rewrite list_elem_of_In, filter_In, String.eqb_refl. simpl. intuition congruence.
  - apply NoDup_ListNoDup, List.NoDup_filter. by apply NoDup_ListNoDup.
Qed.

Lemma first_occurrences_snoc (l : list string) (x : string) :
  first_occurrences (l ++ [x]) =
  if decide (x ∈ l) then first_occurrences l else first_occurrences l ++ [x].
Proof.
  induction l as [|a l IH]; simpl; [done|].
  rewrite IH. destruct (decide (x ∈ l)) as [Hin|Hnin].
  - rewrite decide_True by set_solver. done.
  - rewrite List.filter_app; simpl.
    destruct (String.eqb_spec x a) as [->|Hne]; simpl.
    + rewrite decide_True by set_solver. by rewrite app_nil_r.
    + rewrite decide_False by set_solver. done.
Qed.

(** The loop keeps [seen_urls] equal to the set of the URLs collected, and
    collects the first occurrences of the candidates read so far. *)
Lemma scrape_fold_spec (hrefs : list string) (seen : gset string)
    (messages : list MessageLink) (before : list string) :
  seen = list_to_set before ->
  List.map link_url messages = first_occurrences before ->
  List.map link_url (snd (List.fold_left (scrape_step w) hrefs (seen, messages)))
  = first_occurrences (before ++ candidates w hrefs).
Proof.
  revert seen messages before.
  induction hrefs as [|h hrefs IH]; intros seen messages before Hseen Hmsg.
  - unfold candidates; simpl. by rewrite app_nil_r.
  - simpl. unfold candidates; simpl.
    destruct (is_message_url (normalize w h)) eqn:Hq.
    + destruct (decide (normalize w h ∈ seen)) as [Hin|Hnin].
      * replace (before ++ normalize w h :: List.filter is_message_url (List.map (normalize w) hrefs))
          with ((before ++ [normalize w h]) ++ candidates w hrefs)
          by (by rewrite <- app_assoc).
        apply IH.
        -- subst seen. set_solver.
        -- rewrite first_occurrences_snoc, decide_True; [done|].
           subst seen. by apply elem_of_list_to_set in Hin.
      * replace (before ++ normalize w h :: List.filter is_message_url (List.map (normalize w) hrefs))
          with ((before ++ [normalize w h]) ++ candidates w hrefs)
          by (by rewrite <- app_assoc).
        apply IH.
        -- subst seen. rewrite list_to_set_app_L. set_solver.
        -- rewrite List.map_app, Hmsg, first_occurrences_snoc, decide_False; [done|].
           subst seen. by rewrite elem_of_list_to_set in Hnin.
    + by apply IH.
Qed.

Lemma collect_links_spec (hrefs : list string) :
  List.map link_url (collect_links w hrefs) = first_occurrences (candidates w hrefs).
Proof.
  unfold collect_links.
  by rewrite (scrape_fold_spec hrefs ∅ [] []).
Qed.

(** The loop raises the exception of the first resolution that raises
    one; without any, it returns what the turns of [scrape_step]
    collect. *)
Lemma scrape_loop_spec (hrefs : list string) (acc : gset string * list MessageLink) :
  scrape_loop w hrefs acc =
  match resolution_error w hrefs with
  | Some e => Raise e
  | None => Ok (snd (List.fold_left (scrape_step w) hrefs acc))
  end.
Proof.
  revert acc; induction hrefs as [|href rest IH]; intros acc; [done|].
  cbn [scrape_loop resolution_error List.fold_left].
  unfold scrape_step at 2, normalize, urljoin_call.
  destruct acc as [seen_urls messages].
  destruct (Str.startswith href "/").
  - destruct (urljoin_refuses w BASE_URL href) as [e|]; [done|].
    destruct (is_message_url (urljoin w BASE_URL href)); [|apply IH].
    destruct (decide (urljoin w BASE_URL href ∈ seen_urls)); apply IH.
  - destruct (is_message_url href); [|apply IH].
    destruct (decide (href ∈ seen_urls)); apply IH.
Qed.

End Listing.

Lemma first_occurrences_prefix (pre post : list string) :
  exists rest, first_occurrences (pre ++ post) = first_occurrences pre ++ rest
               /\ forall y, y ∈ rest -> y ∉ pre.
Proof.
  revert pre; induction post as [|x post IH]; intros pre.
  - exists []. rewrite !app_nil_r. split; [done|]. intros y Hy. by apply elem_of_nil in Hy.
  - destruct (IH (pre ++ [x])) as (rest & Heq & Hrest).
    rewrite <- app_assoc in Heq; simpl in Heq. rewrite Heq, first_occurrences_snoc.
    destruct (decide (x ∈ pre)) as [Hin|Hnin].
    + exists rest. split; [done|]. intros y Hy Hpre. apply (Hrest y Hy). set_solver.
    + exists (x :: rest). rewrite <- app_assoc. split; [done|].
      intros y [->|Hy]%elem_of_cons; [done|]. intros Hpre. apply (Hrest y Hy). set_solver.
Qed.





(** ** Strings, the date pattern and [strptime] *)

Lemma string_app_cons (c : ascii) (a b : string) : String c a +:+ b = String c (a +:+ b).
Proof. reflexivity. Qed.

Lemma string_app_nil_l (a : string) : "" +:+ a = a.
Proof. reflexivity. Qed.

Ltac sapp := rewrite ?string_app_cons, ?string_app_nil_l in *; simpl in *.

Lemma string_app_assoc (a b c : string) : (a +:+ b) +:+ c = a +:+ b +:+ c.
Proof. induction a as [|x a IH]; sapp; [done|]. by rewrite IH. Qed.

Lemma string_app_nil_r (a : string) : a +:+ "" = a.
Proof. induction a as [|x a IH]; sapp; [done|]. by rewrite IH. Qed.

Lemma take_spec (n : nat) (s : string) (l : list ascii) :
  Re.take n s = Some l <->
  length l = n /\ exists post, s = string_of_list_ascii l +:+ post.
Proof.
  revert s l; induction n as [|n IH]; intros s l; simpl.
  - split.
    + intros [= <-]. split; [done|]. by exists s.
    + intros [Hl _]. destruct l; [done|discriminate].
  - destruct s as [|c s].
    + split; [done|]. intros [Hl [post Hp]]. destruct l; sapp; discriminate.
    + destruct (Re.take n s) as [l'|] eqn:Ht.
      * apply IH in Ht as [Hlen [post Hp]]. split.
        -- intros [= <-]. simpl. split; [by rewrite Hlen|]. exists post. sapp. by rewrite Hp.
        -- intros [Hl [post' Hp']]. destruct l as [|c' l]; [discriminate|].
           sapp. injection Hp' as -> Hs. f_equal. f_equal.
           assert (Re.take n s = Some l) as Ht'.
           { apply IH. split; [by injection Hl|]. by exists post'. }
           rewrite Hp in Ht'. 
           assert (Re.take n (string_of_list_ascii l' +:+ post) = Some l') as Ht''.
           { apply IH. split; [done|]. by exists post. }
           congruence.
      * split; [done|]. intros [Hl [post' Hp']]. destruct l as [|c' l]; [discriminate|].
        sapp. injection Hp' as -> Hs.
        assert (Re.take n s = Some l) as Ht'.
        { apply IH. split; [by injection Hl|]. by exists post'. }
        congruence.
Qed.

Lemma date_shape_length (l : list ascii) : Re.date_shape l = true -> length l = 10%nat.
Proof. do 11 (destruct l as [|? l]; try discriminate). done. Qed.

Lemma match_date_spec (s m : string) :
  Re.match_date s = Some m <-> is_date m /\ exists post, s = m +:+ post.
Proof.
  unfold Re.match_date, is_date. split.
  - destruct (Re.take 10 s) as [l|] eqn:Ht; [|done].
    destruct (Re.date_shape l) eqn:Hs; [|done]. intros [= <-].
    rewrite list_ascii_of_string_of_list_ascii. split; [done|].
    by apply take_spec in Ht as [_ Hp].
  - intros [Hd [post ->]].
    assert (Re.take 10 (m +:+ post) = Some (list_ascii_of_string m)) as ->.
    { apply take_spec. split; [by apply date_shape_length|].
      exists post. by rewrite string_of_list_ascii_of_string. }
    by rewrite Hd, string_of_list_ascii_of_string.
Qed.

Lemma search_date_Some (s m : string) : Re.search_date s = Some m -> leftmost_date s m.
Proof.
  revert m; induction s as [|c s IH]; intros m; simpl.
  - done.
  - destruct (Re.match_date (String c s)) as [m0|] eqn:Hm.
    + intros [= <-]. apply match_date_spec in Hm as [Hd [post Hp]].
      exists ""%string, post. split; [done|]. split; [done|]. intros; simpl; lia.
    + intros Hs. destruct (IH m Hs) as (pre & post & -> & Hd & Hmin).
      exists (String c pre), post. split; [done|]. split; [done|].
      intros pre' m' post' Heq Hd'. destruct pre' as [|c' pre'].
      * sapp. assert (Re.match_date (String c (pre +:+ m +:+ post)) = Some m') as Hc.
        { apply match_date_spec. split; [done|]. by exists post'. }
        congruence.
      * sapp. injection Heq as -> Heq. simpl.
        specialize (Hmin pre' m' post' Heq Hd'). lia.
Qed.

Lemma search_date_None (s : string) : Re.search_date s = None -> no_date s.
Proof.
  induction s as [|c s IH]; simpl.
  - intros _ pre m post Heq Hd.
    destruct pre; [|discriminate]. destruct m; [discriminate|discriminate].
  - destruct (Re.match_date (String c s)) as [m0|] eqn:Hm; [done|].
    intros Hs pre m post Heq Hd. destruct pre as [|c' pre].
    + sapp. assert (Re.match_date (String c s) = Some m) as Hc; [|congruence].
      apply match_date_spec. split; [done|]. by exists post.
    + sapp. injection Heq as -> Heq. by apply (IH Hs pre m post).
Qed.

Lemma string_app_length_inj (pre pre' x x' : string) :
  pre +:+ x = pre' +:+ x' -> String.length pre = String.length pre' ->
  pre = pre' /\ x = x'.
Proof.
  revert pre'; induction pre as [|c pre IH]; intros [|c' pre'] Heq Hlen;
    try discriminate Hlen; [done|].
  rewrite !string_app_cons in Heq. injection Heq as -> Heq. injection Hlen as Hlen.
  destruct (IH pre' Heq Hlen) as [-> ->]. done.
Qed.

Lemma string_length_list (s : string) :
  String.length s = length (list_ascii_of_string s).
Proof. induction s as [|c s IH]; simpl; [done|]. by rewrite IH. Qed.

Lemma leftmost_date_unique (s m m' : string) :
  leftmost_date s m -> leftmost_date s m' -> m = m'.
Proof.
  intros (pre & post & Hs & Hd & Hmin) (pre' & post' & Hs' & Hd' & Hmin').
  pose proof (Hmin pre' m' post' Hs' Hd'). pose proof (Hmin' pre m post Hs Hd).
  rewrite Hs in Hs'.
  destruct (string_app_length_inj pre pre' _ _ Hs') as [_ Hrest]; [lia|].
  apply (string_app_length_inj m m' post post' Hrest).
  rewrite !string_length_list.
  by rewrite (date_shape_length _ Hd), (date_shape_length _ Hd').
Qed.

Lemma search_date_leftmost (s m : string) :
  leftmost_date s m -> Re.search_date s = Some m.
Proof.
  intros Hl. destruct (Re.search_date s) as [m'|] eqn:Hs.
  - apply search_date_Some in Hs. f_equal. by apply (leftmost_date_unique s).
  - apply search_date_None in Hs. destruct Hl as (pre & post & Heq & Hd & _).
    by destruct (Hs pre m post Heq).
Qed.

Lemma search_date_no_date (s : string) : no_date s -> Re.search_date s = None.
Proof.
  intros Hn. destruct (Re.search_date s) as [m|] eqn:Hs; [|done].
  apply search_date_Some in Hs as (pre & post & Heq & Hd & _).
  by destruct (Hn pre m post Heq).
Qed.

Lemma in_range_spec (lo hi : N) (c : ascii) :
  Datetime.in_range lo hi c = true <-> (lo <= N_of_ascii c <= hi)%N.
Proof. unfold Datetime.in_range. rewrite andb_true_iff, !N.leb_le. tauto. Qed.

Lemma isdigit_spec (c : ascii) :
  Str.isdigit c = true <-> (48 <= N_of_ascii c <= 57)%N.
Proof. unfold Str.isdigit. cbv zeta. rewrite andb_true_iff, !N.leb_le. tauto. Qed.

Lemma isdigit_not_dash (c : ascii) : Str.isdigit c = true -> Ascii.eqb c "-" = false.
Proof.
  intros Hd. apply Ascii.eqb_neq. intros ->. vm_compute in Hd. discriminate.
Qed.

Ltac split_leb :=
  repeat match goal with
    | |- context [(?x <=? ?y)%N] => destruct (N.leb_spec x y); try (exfalso; lia)
    | |- context [(?x <=? ?y)%Z] => destruct (Z.leb_spec x y); try (exfalso; lia)
    end.

Lemma month_alts_digits (a b : ascii) (r : string) :
  Str.isdigit a = true -> Str.isdigit b = true ->
  Datetime.month_alts (String a (String b r)) =
  (if (1 <=? number [a; b]) && (number [a; b] <=? 12) then [(number [a; b], r)] else [])
  ++ (if 1 <=? Str.digit_value a then [(Str.digit_value a, String b r)] else []).
Proof.
  intros Ha%isdigit_spec Hb%isdigit_spec.
  unfold Datetime.month_alts, Datetime.in_range, number, Str.digit_value. simpl List.fold_left.
  set (na := N_of_ascii a) in *. set (nb := N_of_ascii b) in *.
  split_leb; simpl; repeat f_equal; lia.
Qed.

Lemma day_alts_digits (a b : ascii) (r : string) :
  Str.isdigit a = true -> Str.isdigit b = true ->
  Datetime.day_alts (String a (String b r)) =
  (if (1 <=? number [a; b]) && (number [a; b] <=? 31) then [(number [a; b], r)] else [])
  ++ (if 1 <=? Str.digit_value a then [(Str.digit_value a, String b r)] else []).
Proof.
  intros Ha%isdigit_spec Hb%isdigit_spec.
  unfold Datetime.day_alts, Datetime.in_range, Str.isdigit, number, Str.digit_value.
  simpl List.fold_left. cbv zeta.
  set (na := N_of_ascii a) in *. set (nb := N_of_ascii b) in *.
  split_leb; simpl; repeat f_equal; lia.
Qed.



Lemma days_in_month_le (y m : Z) : Datetime.days_in_month y m <= 31.
Proof.
  unfold Datetime.days_in_month.
  repeat match goal with |- context [if ?c then _ else _] => destruct c end; lia.
Qed.

Lemma strptime_of_date (m : string) :
  is_date m ->
  match calendar_date m with
  | Some dt => Datetime.strptime_Ymd m = Ok dt
  | None => exists msg, Datetime.strptime_Ymd m = Raise (ValueError msg)
  end.
Proof.
  unfold is_date, calendar_date. intros Hs.
  pose proof (string_of_list_ascii_of_string m) as Hm.
  destruct (list_ascii_of_string m) as [|y1 [|y2 [|y3 [|y4 [|h1 [|m1 [|m2 [|h2 [|d1 [|d2 [|? ?]]]]]]]]]]];
    try discriminate Hs.
  simpl in Hm. subst m. unfold Re.date_shape in Hs.
  do 9 (apply andb_true_iff in Hs as [Hs ?]).
  repeat match goal with H : Ascii.eqb _ _ = true |- _ => apply Ascii.eqb_eq in H; subst end.
  unfold Datetime.strptime_Ymd, Datetime.match_Ymd.
  repeat match goal with H : Str.isdigit _ = true |- _ => rewrite H end.
  cbn [andb Datetime.after_dash Ascii.eqb Bool.eqb].
  rewrite month_alts_digits by done.
  rewrite List.flat_map_app.
  assert (1000 * Str.digit_value y1 + 100 * Str.digit_value y2
          + 10 * Str.digit_value y3 + Str.digit_value y4 = number [y1; y2; y3; y4]) as ->
    by (unfold number; simpl; lia).
  generalize (number [y1; y2; y3; y4]) as y; intros y.
  match goal with
  | |- context [List.flat_map ?f (if 1 <=? Str.digit_value m1 then ?l else [])] =>
      assert (List.flat_map f (if 1 <=? Str.digit_value m1 then l else []) = []) as ->
  end.
  { destruct (1 <=? Str.digit_value m1); [|done]. simpl.
    by rewrite (isdigit_not_dash m2). }
  rewrite app_nil_r.
  generalize (number [m1; m2]) as mo; intros mo.
  destruct (Z.leb_spec 1 mo); [destruct (Z.leb_spec mo 12)|];
    cbn [andb List.flat_map Datetime.after_dash Ascii.eqb Bool.eqb app];
    rewrite ?andb_false_r; cbn [andb]; try (eexists; reflexivity).
  rewrite app_nil_r, day_alts_digits by done.
  pose proof (days_in_month_le y mo) as Hdim.
  generalize (number [d1; d2]) as d; intros d.
  destruct (Z.leb_spec 1 y), (Z.leb_spec 1 d), (Z.leb_spec d 31),
    (Z.leb_spec d (Datetime.days_in_month y mo)),
    (Z.leb_spec 1 (Str.digit_value d1));
    cbn [andb List.map app head]; try lia; try (eexists; reflexivity).
  all: destruct (Z.ltb_spec y 1), (Z.ltb_spec (Datetime.days_in_month y mo) d);
    try lia; try (eexists; reflexivity); try reflexivity.
Qed.

Lemma split_slash_cons (c : ascii) (s : string) :
  Str.split "/" (String c s) =
  if Ascii.eqb "/" c then ""%string :: Str.split "/" s
  else match Str.split "/" s with
       | piece :: pieces => String c piece :: pieces
       | [] => [String c ""]
       end.
Proof.
  unfold Str.split. cbn [Str.split_from Str.startswith String.length Nat.pred].
  rewrite andb_true_r. by destruct (Ascii.eqb "/" c).
Qed.

Lemma split_slash_join (s : string) :
  Str.split "/" s <> []
  /\ String.concat "/" (Str.split "/" s) = s
  /\ Forall (fun p => Str.contains "/" p = false) (Str.split "/" s).
Proof.
  induction s as [|c s (Hne & Hjoin & Hall)].
  - split; [done|]. split; [done|]. by repeat constructor.
  - rewrite split_slash_cons. destruct (Ascii.eqb_spec "/" c) as [<-|Hc].
    + split; [done|]. split.
      * destruct (Str.split "/" s) as [|piece pieces]; [done|].
        change (String.concat "/" (""%string :: piece :: pieces))
          with (String "/" (String.concat "/" (piece :: pieces))).
        by rewrite Hjoin.
      * by constructor.
    + destruct (Str.split "/" s) as [|piece pieces]; [done|].
      split; [done|]. split.
      * destruct pieces as [|p2 pieces].
        -- simpl in *. by rewrite Hjoin.
        -- change (String.concat "/" (String c piece :: p2 :: pieces))
             with (String c (String.concat "/" (piece :: p2 :: pieces))).
           by rewrite Hjoin.
      * inversion Hall as [|? ? Hp Hps]; subst. constructor; [|done].
        cbn [Str.contains Str.startswith]. rewrite Hp.
        apply Ascii.eqb_neq in Hc. by rewrite Hc.
Qed.

Lemma concat_slash_last (l : list string) :
  l <> [] ->
  String.concat "/" l = Str.last_piece l
  \/ exists dir, String.concat "/" l = dir +:+ "/" +:+ Str.last_piece l.
Proof.
  induction l as [|p l IH]; [done|]. intros _.
  destruct l as [|q l]; [by left|].
  right. destruct IH as [IH|[dir IH]]; [done| |].
  - exists p. change (String.concat "/" (p :: q :: l)) with (p +:+ "/" +:+ String.concat "/" (q :: l)).
    by rewrite IH.
  - exists (p +:+ "/" +:+ dir).
    change (String.concat "/" (p :: q :: l)) with (p +:+ "/" +:+ String.concat "/" (q :: l)).
    rewrite IH. change (Str.last_piece (p :: q :: l)) with (Str.last_piece (q :: l)).
    by rewrite !string_app_assoc.
Qed.

Lemma filename_of_final (u : string) : final_segment u (filename_of u).
Proof.
  unfold final_segment, filename_of.
  destruct (split_slash_join u) as (Hne & Hjoin & Hall). split.
  - rewrite Forall_forall in Hall. apply Hall.
    unfold Str.last_piece. destruct (Str.split "/" u) as [|p l]; [done|].
    destruct (@List.exists_last _ (p :: l) Hne) as (l' & a & ->).
    rewrite List.last_last. set_solver.
  - pose proof (concat_slash_last _ Hne) as Hlast. by rewrite Hjoin in Hlast.
Qed.

(** ** The detail extractor, case by case *)

Lemma get_message_details_cases (w : world) (u : string) (st : state) :
  get_message_details w u st =
  match http_get w u with
  | inl e => (Ok None, printed ("Error fetching " +:+ u +:+ ": " +:+ e) (requested u st))
  | inr soup =>
      match find_audio_url soup with
      | Raise e => (Raise e, requested u st)
      | Ok None => (Ok None, printed ("No audio found for " +:+ u) (requested u st))
      | Ok (Some audio) =>
          let speaker := extract_speaker (filename_of audio) in
          match Re.search_date (filename_of audio) with
          | Some m =>
              match Datetime.strptime_Ymd m with
              | Ok dt =>
                  (Ok (Some (mk_details u (title_of soup) audio dt speaker
                               (describe speaker dt))),
                   requested u st)
              | Raise e => (Raise e, requested u st)
              end
          | None =>
              (Ok (Some (mk_details u (title_of soup) audio (clock w (ticks st)) speaker
                           (describe speaker (clock w (ticks st))))),
               ticked (requested u st))
          end
      end
  end.
Proof.
  unfold get_message_details, get_soup, bind, http_request, lift, ret, extract_date,
    datetime_now, title_of.
  destruct (http_get w u) as [e|soup]; [done|].
  destruct (find_audio_url soup) as [[audio|]|e]; [|done|done].
  cbv zeta. destruct (Re.search_date (filename_of audio)) as [m|]; [|done].
  by destruct (Datetime.strptime_Ymd m).
Qed.

Lemma get_message_details_effects (w : world) (u : string) (st : state) :
  requests (snd (get_message_details w u st)) = requests st ++ [u]
  /\ files (snd (get_message_details w u st)) = files st.
Proof.
  rewrite get_message_details_cases.
  destruct (http_get w u) as [e|soup]; [done|].
  destruct (find_audio_url soup) as [[audio|]|e]; [|done|done].
  cbv zeta. destruct (Re.search_date (filename_of audio)) as [m|]; [|done].
  by destruct (Datetime.strptime_Ymd m).
Qed.

Lemma get_message_details_outcome (w : world) (u : string) (st : state) :
  match extraction_error w u with
  | Some e => fst (get_message_details w u st) = Raise e
  | None =>
      if extractable w u
      then exists d, fst (get_message_details w u st) = Ok (Some d) /\ url d = u
      else fst (get_message_details w u st) = Ok None
  end.
Proof.
  rewrite get_message_details_cases. unfold extraction_error, extractable.
  destruct (http_get w u) as [e|soup]; [done|].
  destruct (find_audio_url soup) as [[audio|]|e]; [|done|done].
  cbv zeta. destruct (Re.search_date (filename_of audio)) as [m|]; [|by eexists].
  destruct (Datetime.strptime_Ymd m); [by eexists|done].
Qed.

Lemma get_message_details_extracted (w : world) (u : string) (st st' : state) (d : MessageDetails) :
  get_message_details w u st = (Ok (Some d), st') ->
  url d = u /\ extracted_from w d.
Proof.
  rewrite get_message_details_cases. unfold extracted_from.
  destruct (http_get w u) as [e|soup] eqn:Hget; [done|].
  destruct (find_audio_url soup) as [[audio|]|e] eqn:Haudio; [|done|done].
  cbv zeta. destruct (Re.search_date (filename_of audio)) as [m|] eqn:Hm.
  - destruct (Datetime.strptime_Ymd m) eqn:Hp; [|done].
    intros [= <- <-]; simpl. split; [done|]. exists soup. rewrite Hm. by repeat split.
  - intros [= <- <-]; simpl. split; [done|]. exists soup. rewrite Hm.
    repeat split; try done. by eexists.
Qed.

(** C3. The date of a record is looked for in the final path segment of
    the audio URL: the first occurrence of four digits, a dash, two digits,
    a dash and two digits is read as the day of the calendar it names, and
    without any occurrence the date is the reading of the clock at the
    extraction.  (An occurrence that names no day of the calendar, such as
    2025-13-45, makes the extraction raise [ValueError].) *)
Theorem date_from_audio_filename (w : world) (message_url audio : string)
    (soup : Bs4.document) (st : state) :
  http_get w message_url = inr soup ->
  find_audio_url soup = Ok (Some audio) ->
  date_rule w message_url audio st.
Proof.
  intros Hget Haudio. unfold date_rule. cbv zeta.
  split; [apply filename_of_final|]. split; [|split].
  - destruct (Re.search_date (filename_of audio)) as [m|] eqn:Hs.
    + left. exists m. by apply search_date_Some.
    + right. by apply search_date_None.
  - intros m Hl. pose proof (search_date_leftmost _ _ Hl) as Hs.
    assert (is_date m) as Hd by (by destruct Hl as (? & ? & ? & ? & ?)).
    pose proof (strptime_of_date m Hd) as Hp.
    rewrite get_message_details_cases, Hget, Haudio. cbv zeta. rewrite Hs.
    destruct (calendar_date m) as [dt|].
    + rewrite Hp. by eexists _, _.
    + destruct Hp as [msg ->]. by eexists _, _.
  - intros Hn. rewrite get_message_details_cases, Hget, Haudio. cbv zeta.
    rewrite (search_date_no_date _ Hn). by eexists _, _.
Qed.

Lemma date_from_audio_filename_witness :
  http_get (Sample.site []) Sample.hope_url = inr Sample.hope_page
  /\ find_audio_url Sample.hope_page = Ok (Some Sample.hope_audio)
  /\ date_rule (Sample.site []) Sample.hope_url Sample.hope_audio initial_state.
Proof.
  split; [reflexivity|]. split; [reflexivity|].
  apply (date_from_audio_filename (Sample.site []) Sample.hope_url Sample.hope_audio
           Sample.hope_page initial_state); reflexivity.
Defined.

(** ** The audio URL *)

(** The first source that applies decides: the attribute [src] of the
    player when it is there and not empty, else the first nested
    [source], else the first nested link. *)
Lemma find_audio_url_priority (soup : Bs4.document) :
  find_audio_url soup =
  match Bs4.find_class "audio" "wp-audio-shortcode" soup with
  | None => Ok None
  | Some audio_tag =>
      match Bs4.get audio_tag "src" with
      | Some (String c v) => Ok (Some (String c v))
      | _ =>
          match Bs4.find "source" (Bs4.children_of audio_tag) with
          | Some source =>
              match Bs4.get source "src" with
              | Some v => Ok (Some v)
              | None => Raise (KeyError "src")
              end
          | None =>
              match Bs4.find "a" (Bs4.children_of audio_tag) with
              | Some a =>
                  match Bs4.get a "href" with
                  | Some v => Ok (Some v)
                  | None => Raise (KeyError "href")
                  end
              | None => Ok None
              end
          end
      end
  end.
Proof.
  unfold find_audio_url, Bs4.getitem, Bs4.truthy.
  destruct (Bs4.find_class "audio" "wp-audio-shortcode" soup) as [audio_tag|]; [|done].
  destruct (Bs4.get audio_tag "src") as [[|c v]|]; [|done|].
  all: destruct (Bs4.find "source" (Bs4.children_of audio_tag)) as [source|];
    [by destruct (Bs4.get source "src")|].
  all: destruct (Bs4.find "a" (Bs4.children_of audio_tag)) as [a|]; [|done].
  all: by destruct (Bs4.get a "href").
Qed.

(** An exception in the extraction of the first link leaves the loop. *)
Lemma process_links_raise (w : world) (link : MessageLink) (rest : list MessageLink)
    (acc : list MessageDetails) (st st' : state) (e : exn) :
  get_message_details w (link_url link)
    (printed ("Processing " +:+ link_url link +:+ "...") st) = (Raise e, st') ->
  process_links w (link :: rest) acc st = (Raise e, st').
Proof.
  intros Hraise. cbn [process_links]. unfold bind at 1. cbn [print].
  unfold bind at 1. by rewrite Hraise.
Qed.

(** C9. When the marked player has no usable [src] of its own and its
    first nested [source] has no [src] (or, without any [source], its
    first nested link has no [href]), the look-up of the attribute raises
    [KeyError]; the extractor does not return "nothing", and neither it
    nor the loop of [main] catches the exception. *)
Theorem nested_attribute_unguarded (w : world) (message_url : string)
    (soup : Bs4.document) (audio_tag : Bs4.node) :
  http_get w message_url = inr soup ->
  Bs4.find_class "audio" "wp-audio-shortcode" soup = Some audio_tag ->
  Bs4.truthy (Bs4.get audio_tag "src") = false ->
  (forall source,
      Bs4.find "source" (Bs4.children_of audio_tag) = Some source ->
      Bs4.get source "src" = None ->
      forall st rest acc,
        fst (get_message_details w message_url st) = Raise (KeyError "src")
        /\ fst (process_links w (mk_link message_url :: rest) acc st) = Raise (KeyError "src"))
  /\ (forall a,
        Bs4.find "source" (Bs4.children_of audio_tag) = None ->
        Bs4.find "a" (Bs4.children_of audio_tag) = Some a ->
        Bs4.get a "href" = None ->
        forall st rest acc,
          fst (get_message_details w message_url st) = Raise (KeyError "href")
          /\ fst (process_links w (mk_link message_url :: rest) acc st) = Raise (KeyError "href")).
Proof.
  intros Hget Hplayer Hsrc.
  assert (forall e, find_audio_url soup = Raise e ->
          forall st rest acc,
            fst (get_message_details w message_url st) = Raise e
            /\ fst (process_links w (mk_link message_url :: rest) acc st) = Raise e) as Hraise.
  { intros e He st rest acc.
    assert (forall st0, get_message_details w message_url st0 = (Raise e, requested message_url st0)) as Hd.
    { intros st0. by rewrite get_message_details_cases, Hget, He. }
    split; [by rewrite Hd|].
    by rewrite (process_links_raise w (mk_link message_url) rest acc st _ e (Hd _)). }
  split.
  - intros source Hsource Hnone. apply Hraise.
    rewrite find_audio_url_priority, Hplayer.
    destruct (Bs4.get audio_tag "src") as [[|c v]|]; try done; by rewrite Hsource, Hnone.
  - intros a Hsource Ha Hnone. apply Hraise.
    rewrite find_audio_url_priority, Hplayer.
    destruct (Bs4.get audio_tag "src") as [[|c v]|]; try done; by rewrite Hsource, Ha, Hnone.
Qed.

Lemma nested_attribute_unguarded_witness :
  http_get (Sample.site []) Sample.nosrc_url = inr Sample.nosrc_page
  /\ Bs4.find_class "audio" "wp-audio-shortcode" Sample.nosrc_page = Some Sample.nosrc_player
  /\ Bs4.truthy (Bs4.get Sample.nosrc_player "src") = false
  /\ Bs4.find "source" (Bs4.children_of Sample.nosrc_player) = Some Sample.nosrc_source
  /\ Bs4.get Sample.nosrc_source "src" = None
  /\ fst (get_message_details (Sample.site []) Sample.nosrc_url initial_state)
     = Raise (KeyError "src").
Proof.
  repeat (split; [reflexivity|]).
  destruct (nested_attribute_unguarded (Sample.site []) Sample.nosrc_url Sample.nosrc_page
              Sample.nosrc_player eq_refl eq_refl eq_refl) as [Hsource _].
  exact (proj1 (Hsource Sample.nosrc_source eq_refl eq_refl initial_state [] [])).
Defined.

(** C4. A page whose marked player has no [src] and whose nested [source]
    has none either gives no audio URL, yet the extractor does not return
    "nothing": the look-up of line 78 raises [KeyError].  The same holds at
    line 80 for a nested link without [href]. *)
Theorem audio_lookup_raises_instead_of_nothing :
  find_audio_url Sample.nosrc_page = Raise (KeyError "src")
  /\ get_message_details (Sample.site []) Sample.nosrc_url initial_state
     = (Raise (KeyError "src"), requested Sample.nosrc_url initial_state)
  /\ find_audio_url Sample.nohref_page = Raise (KeyError "href")
  /\ get_message_details (Sample.site []) Sample.nohref_url initial_state
     = (Raise (KeyError "href"), requested Sample.nohref_url initial_state)
  /\ fst (main (Sample.site ["/mediacast/nosrc/"; "/mediacast/hope/"]%string) initial_state)
     = Raise (KeyError "src").
Proof. repeat split; reflexivity. Qed.

(** The cases in which the extractor does return "nothing" for want of an
    audio URL: no marked player, or a player without usable [src], nested
    [source] and nested link. *)
Lemma no_audio_returns_nothing (w : world) (message_url : string)
    (soup : Bs4.document) (st : state) :
  http_get w message_url = inr soup ->
  find_audio_url soup = Ok None ->
  get_message_details w message_url st
  = (Ok None, printed ("No audio found for " +:+ message_url) (requested message_url st)).
Proof. intros Hget Hnone. by rewrite get_message_details_cases, Hget, Hnone. Qed.

Example audio_from_src :
  find_audio_url Sample.hope_page = Ok (Some Sample.hope_audio).
Proof. reflexivity. Qed.

Example audio_from_source :
  find_audio_url Sample.grace_page = Ok (Some Sample.grace_audio).
Proof. reflexivity. Qed.

Example audio_from_link :
  find_audio_url Sample.undated_page = Ok (Some Sample.undated_audio).
Proof. reflexivity. Qed.

Example audio_missing : find_audio_url Sample.silent_page = Ok None.
Proof. reflexivity. Qed.

(** ** The speaker *)

Lemma unquote_without_percent (s : string) :
  Str.contains "%" s = false -> Urllib.unquote s = s.
Proof. unfold Urllib.unquote. by intros ->. Qed.

(** The rule of lines 100-110 on a file name that holds no "%": the name
    is searched as it is. *)
Lemma extract_speaker_without_separator (f : string) :
  Str.contains " - " (Urllib.unquote f) = false ->
  extract_speaker f = Some "Westminster Chapel"%string.
Proof. unfold extract_speaker. cbv zeta. by intros ->. Qed.

Example speaker_percent_encoded :
  extract_speaker "2025-11-09%20Message%20-%20Jane%20Doe.mp3" = Some "Jane Doe"%string.
Proof. reflexivity. Qed.

Example speaker_with_query :
  extract_speaker (filename_of Sample.grace_audio) = Some "John Roe"%string.
Proof. reflexivity. Qed.

Example speaker_space_before_query :
  extract_speaker "2025-11-09%20Message%20-%20Jane%20Doe%20?ver=2" = Some "Jane Doe "%string.
Proof. reflexivity. Qed.

Example speaker_inner_extension :
  extract_speaker "Message%20-%20Jane.mp3%20Doe.mp3" = Some "Jane Doe"%string.
Proof. reflexivity. Qed.

(** C2. On the file name of the pattern that line 87 documents, with "+"
    for the spaces, the speaker is not the name after the separator:
    [unquote] leaves "+" as it is, the decoded name holds no " - ", and
    the speaker is the name of the organization. *)
Theorem speaker_of_plus_encoded_name :
  Urllib.unquote "2025-11-09+Message+-+Jane+Doe.mp3"
  = "2025-11-09+Message+-+Jane+Doe.mp3"%string
  /\ extract_speaker "2025-11-09+Message+-+Jane+Doe.mp3" = Some "Westminster Chapel"%string
  /\ extract_speaker "2025-11-09+Message+-+Jane+Doe.mp3" <> Some "Jane Doe"%string
  /\ (exists d,
        fst (get_message_details (Sample.site []) Sample.hope_url initial_state) = Ok (Some d)
        /\ filename_of (audio_url d) = "2025-11-09+Message+-+Jane+Doe.mp3"%string
        /\ speaker d = Some "Westminster Chapel"%string).
Proof.
  split; [reflexivity|]. split; [reflexivity|]. split; [discriminate|].
  eexists. split; [vm_compute; reflexivity|]. split; reflexivity.
Qed.

(** ** The loop of the orchestrator *)

Lemma scrape_messages_run (w : world) (st : state) :
  fst (scrape_messages w st)
  = match scrape_error w with
    | Some e => Raise e
    | None => Ok (listing_of w)
    end
  /\ requests (snd (scrape_messages w st)) = requests st ++ [BASE_URL]
  /\ files (snd (scrape_messages w st)) = files st.
Proof.
  unfold scrape_messages, scrape_error, listing_of, collect_links, get_soup, bind,
    http_request, print, ret, lift.
  destruct (http_get w BASE_URL) as [e|soup]; [done|].
  rewrite scrape_loop_spec. by destruct (resolution_error w (Bs4.hrefs soup)).
Qed.

(** One turn of the loop, by the outcome of the extraction. *)
Lemma process_links_step (w : world) (link : MessageLink) (rest : list MessageLink)
    (acc : list MessageDetails) (st : state) :
  process_links w (link :: rest) acc st =
  match get_message_details w (link_url link)
          (printed ("Processing " +:+ link_url link +:+ "...") st) with
  | (Ok (Some d), st') =>
      process_links w rest (acc ++ [d])
        (printed ("  Found: " +:+ title d +:+ " - " +:+ Datetime.isoformat_date (date d)) st')
  | (Ok None, st') => process_links w rest acc st'
  | (Raise e, st') => (Raise e, st')
  end.
Proof.
  cbn [process_links]. unfold bind at 1. cbn [print]. unfold bind at 1.
  destruct (get_message_details _ _ _) as [[[d|]|e] st']; done.
Qed.

(** The requests of the loop are those of a prefix of the links, in
    order: all of them when the loop comes to its end.  The loop writes no
    file. *)
Lemma process_links_trace (w : world) (links : list MessageLink)
    (acc : list MessageDetails) (st : state) :
  exists k : nat,
    (k <= length links)%nat
    /\ requests (snd (process_links w links acc st))
       = requests st ++ List.map link_url (List.firstn k links)
    /\ files (snd (process_links w links acc st)) = files st
    /\ match fst (process_links w links acc st) with
       | Ok _ => k = length links
       | Raise _ => True
       end.
Proof.
  revert acc st; induction links as [|link rest IH]; intros acc st.
  - exists 0%nat. simpl. by rewrite app_nil_r.
  - rewrite process_links_step.
    set (st1 := printed _ st).
    destruct (get_message_details_effects w (link_url link) st1) as [Hreq Hfiles].
    destruct (get_message_details w (link_url link) st1) as [[[d|]|e] st2]; simpl in Hreq, Hfiles.
    + destruct (IH (acc ++ [d]) (printed ("  Found: " +:+ title d +:+ " - "
                  +:+ Datetime.isoformat_date (date d)) st2)) as (k & Hk & Hr & Hf & Hok).
      exists (S k). split; [simpl; lia|]. split; [|split].
      * rewrite Hr. simpl. rewrite Hreq. by rewrite <- app_assoc.
      * rewrite Hf. simpl. by rewrite Hfiles.
      * destruct (fst _); [by rewrite Hok|done].
    + destruct (IH acc st2) as (k & Hk & Hr & Hf & Hok).
      exists (S k). split; [simpl; lia|]. split; [|split].
      * rewrite Hr, Hreq. simpl. by rewrite <- app_assoc.
      * by rewrite Hf, Hfiles.
      * destruct (fst _); [by rewrite Hok|done].
    + exists 1%nat. simpl. split; [lia|]. by rewrite Hreq, Hfiles.
Qed.

(** ** The feed builder *)

Lemma extended_nil (p : Podgen.Podcast) : extended p [] = p.
Proof. destruct p. unfold extended; simpl. by rewrite app_nil_r. Qed.

Lemma extended_app (p : Podgen.Podcast) (eps eps' : list Podgen.Episode) :
  extended (extended p eps) eps' = extended p (eps ++ eps').
Proof. unfold extended; simpl. by rewrite app_assoc. Qed.

(** The body of the [try], by what the library refuses. *)
Lemma build_episode_cases (w : world) (p : Podgen.Podcast) (msg : MessageDetails)
    (st : state) :
  build_episode w p msg st =
  match Media_refuses w (audio_url msg) with
  | Some e => (Raise e, st)
  | None =>
      match speaker msg with
      | Some s =>
          match Person_refuses w s with
          | Some e => (Raise e, ticked st)
          | None =>
              (Ok (extended p [episode_of (utc_offset w (clock w (ticks st))) msg]),
               ticked st)
          end
      | None =>
          (Ok (extended p [episode_of (utc_offset w (clock w (ticks st))) msg]), ticked st)
      end
  end.
Proof.
  unfold build_episode, bind, lift, ret, Media_new, Person_new, datetime_now, episode_of.
  destruct (Media_refuses w (audio_url msg)); [done|].
  destruct (speaker msg) as [s|]; [|done].
  unfold bind, lift, ret. by destruct (Person_refuses w s).
Qed.

Lemma publishable_cons_Some (w : world) (msg : MessageDetails)
    (rest : list (option MessageDetails)) :
  publishable w (Some msg :: rest)
  = if accepted w msg then msg :: publishable w rest else publishable w rest.
Proof. reflexivity. Qed.

Lemma publishable_cons_None (w : world) (rest : list (option MessageDetails)) :
  publishable w (None :: rest) = publishable w rest.
Proof. reflexivity. Qed.

(** One turn of the loop on a message: an episode more when the library
    accepts the message, a line on the console when it does not. *)
Lemma add_episodes_step (w : world) (msg : MessageDetails)
    (rest : list (option MessageDetails)) (p : Podgen.Podcast) (st : state) :
  exists st1,
    requests st1 = requests st /\ files st1 = files st
    /\ add_episodes w (Some msg :: rest) p st =
       if accepted w msg
       then add_episodes w rest
              (extended p [episode_of (utc_offset w (clock w (ticks st))) msg]) st1
       else add_episodes w rest p st1.
Proof.
  cbn [add_episodes]. unfold bind at 1, try_except.
  rewrite build_episode_cases. unfold accepted.
  destruct (Media_refuses w (audio_url msg)) as [e|].
  { by exists (printed ("Error adding episode " +:+ title msg +:+ ": " +:+ exn_str e) st). }
  destruct (speaker msg) as [s|]; [|by exists (ticked st)].
  destruct (Person_refuses w s) as [e|]; [|by exists (ticked st)].
  by exists (printed ("Error adding episode " +:+ title msg +:+ ": " +:+ exn_str e) (ticked st)).
Qed.

(** The loop adds one episode for each message that the library accepts,
    in order, and touches neither the requests nor the files. *)
Lemma add_episodes_spec (w : world) (messages : list (option MessageDetails))
    (p : Podgen.Podcast) (st : state) :
  exists eps st',
    add_episodes w messages p st = (Ok (extended p eps), st')
    /\ Forall2 built_from eps (publishable w messages)
    /\ requests st' = requests st
    /\ files st' = files st.
Proof.
  revert p st; induction messages as [|[msg|] rest IH]; intros p st.
  - exists [], st. rewrite extended_nil. split; [done|]. split; [constructor|done].
  - destruct (add_episodes_step w msg rest p st) as (st1 & Hreq1 & Hfiles1 & ->).
    rewrite publishable_cons_Some. destruct (accepted w msg).
    + destruct (IH (extended p [episode_of (utc_offset w (clock w (ticks st))) msg]) st1)
        as (eps & st' & Hrun & Hall & Hreq & Hfiles).
      exists (episode_of (utc_offset w (clock w (ticks st))) msg :: eps), st'.
      rewrite Hrun, extended_app. split; [done|]. split; [|split; congruence].
      constructor; [by eexists|done].
    + destruct (IH p st1) as (eps & st' & Hrun & Hall & Hreq & Hfiles).
      exists eps, st'. split; [done|]. split; [done|]. split; congruence.
  - cbn [add_episodes]. rewrite publishable_cons_None.
    destruct (IH p st) as (eps & st' & Hrun & Hall & Hreq & Hfiles).
    exists eps, st'. by rewrite Hrun.
Qed.

Lemma generate_feed_spec (w : world) (messages : list (option MessageDetails)) (st : state) :
  exists eps st1,
    add_episodes w messages new_podcast st = (Ok (extended new_podcast eps), st1)
    /\ generate_feed w messages st = feed_end w (extended new_podcast eps) st1
    /\ Forall2 built_from eps (publishable w messages)
    /\ requests st1 = requests st
    /\ files st1 = files st.
Proof.
  destruct (add_episodes_spec w messages new_podcast st) as (eps & st1 & Hrun & Hall & Hreq & Hf).
  exists eps, st1. split; [done|]. split; [|done].
  unfold generate_feed, bind. rewrite Hrun. unfold rss_file, feed_end, print.
  by destruct (rss_refuses w (extended new_podcast eps)).
Qed.

(** What a run of the feed builder that ends in [feed_end] returns and
    leaves in the files. *)
Lemma feed_end_cases (w : world) (p : Podgen.Podcast) (st1 : state) :
  match rss_refuses w p with
  | None =>
      fst (feed_end w p st1) = Ok tt
      /\ files (snd (feed_end w p st1)) = <[RSS_FILENAME := p]> (files st1)
  | Some e =>
      fst (feed_end w p st1) = Raise e /\ snd (feed_end w p st1) = st1
  end.
Proof. unfold feed_end. by destruct (rss_refuses w p). Qed.

Lemma feed_end_requests (w : world) (p : Podgen.Podcast) (st1 : state) :
  requests (snd (feed_end w p st1)) = requests st1.
Proof. unfold feed_end. by destruct (rss_refuses w p). Qed.

Lemma generate_feed_files (w : world) (messages : list (option MessageDetails))
    (st : state) :
  exists eps,
    Forall2 built_from eps (publishable w messages)
    /\ match rss_refuses w (extended new_podcast eps) with
       | None =>
           fst (generate_feed w messages st) = Ok tt
           /\ files (snd (generate_feed w messages st))
              = <[RSS_FILENAME := extended new_podcast eps]> (files st)
       | Some e =>
           fst (generate_feed w messages st) = Raise e
           /\ files (snd (generate_feed w messages st)) = files st
       end.
Proof.
  destruct (generate_feed_spec w messages st) as (eps & st1 & _ & -> & Hall & Hreq & Hf).
  exists eps. split; [done|].
  pose proof (feed_end_cases w (extended new_podcast eps) st1) as Hend.
  destruct (rss_refuses w (extended new_podcast eps)).
  - destruct Hend as [-> ->]. by split.
  - destruct Hend as [-> ->]. by rewrite Hf.
Qed.


Example mute_page_extracted :
  fst (get_message_details (Sample.site []) Sample.mute_url initial_state)
  = Ok (Some Sample.mute_details).
Proof. reflexivity. Qed.


(** C10, as stated, fails: the page names a speaker with a control
    character in the name of its audio file.  The extractor makes a
    record of it and the library accepts the record, so the list is not
    empty and the loop adds an episode; the library then fails to
    serialise the feed, [ValueError] escapes from the feed builder and no
    file is written. *)
Lemma control_character_leaves_no_file :
  exists d,
    fst (get_message_details (Sample.site []) Sample.control_url initial_state) = Ok (Some d)
    /\ speaker d = Some ("Jane" +:+ String (ascii_of_nat 1) "Doe")%string
    /\ publishable (Sample.site []) [Some d] = [d]
    /\ fst (generate_feed (Sample.site []) [Some d] initial_state)
       = Raise (ValueError "All strings must be XML compatible: Unicode or ASCII, no NULL bytes or control characters")
    /\ stdout (snd (generate_feed (Sample.site []) [Some d] initial_state)) = []
    /\ files (snd (generate_feed (Sample.site []) [Some d] initial_state)) = ∅.
Proof.
  eexists. split; [vm_compute; reflexivity|]. repeat (split; [reflexivity|]). reflexivity.
Qed.

(** ** The orchestrator *)

Lemma collect_details_run (w : world) (st : state) :
  exists st0,
    requests st0 = requests st ++ [BASE_URL] /\ files st0 = files st
    /\ collect_details w st =
       match scrape_error w with
       | Some e => (Raise e, st0)
       | None => process_links w (List.firstn 20 (listing_of w)) [] st0
       end.
Proof.
  unfold collect_details. unfold bind at 1. cbn [print]. unfold bind at 1.
  destruct (scrape_messages_run w (printed "Scraping messages..." st)) as (Hres & Hreq & Hfiles).
  destruct (scrape_messages w (printed "Scraping messages..." st)) as [r st1].
  simpl in Hres, Hreq, Hfiles. subst r.
  destruct (scrape_error w) as [e|].
  - exists st1. by rewrite <- Hreq, <- Hfiles.
  - unfold bind at 1. cbn [print].
    exists (printed ("Found " +:+ Str.of_nat (length (listing_of w))
                     +:+ " potential message links.") st1).
    by rewrite <- Hreq, <- Hfiles.
Qed.

(** The run up to the end of the loop writes no file. *)
Lemma collect_details_files (w : world) (st : state) :
  files (snd (collect_details w st)) = files st.
Proof.
  destruct (collect_details_run w st) as (st0 & _ & Hfiles0 & ->).
  destruct (scrape_error w) as [e|]; [done|].
  destruct (process_links_trace w (List.firstn 20 (listing_of w)) [] st0)
    as (k & _ & _ & -> & _). done.
Qed.


(** [main] is the run up to the end of the loop, followed by the feed
    builder or by the notice. *)
Lemma main_split (w : world) (st : state) :
  main w st =
  match collect_details w st with
  | (Ok [], st1) => (Ok tt, printed "No messages found to generate feed." st1)
  | (Ok (d :: dl), st1) => generate_feed w (List.map Some (d :: dl)) st1
  | (Raise e, st1) => (Raise e, st1)
  end.
Proof.
  unfold main, collect_details, bind.
  destruct (print "Scraping messages..." st) as [[[]|e] st1]; [|done].
  destruct (scrape_messages w st1) as [[links|e] st2]; [|done].
  destruct (print _ st2) as [[[]|e] st3]; [|done].
  by destruct (process_links w (List.firstn 20 links) [] st3) as [[[|d dl]|e] st4].
Qed.

(** The end of [main], by the list that the loop has collected. *)
Lemma main_cases (w : world) (st : state) :
  match collect_details w st with
  | (Ok [], st1) =>
      main w st = (Ok tt, printed "No messages found to generate feed." st1)
      /\ files (snd (main w st)) = files st
  | (Ok (d :: dl), st1) =>
      main w st = generate_feed w (List.map Some (d :: dl)) st1
      /\ (files (snd (main w st)) = files st
          \/ exists p, files (snd (main w st)) = <[RSS_FILENAME := p]> (files st))
  | (Raise e, st1) =>
      main w st = (Raise e, st1) /\ files (snd (main w st)) = files st
  end.
Proof.
  rewrite main_split. pose proof (collect_details_files w st) as Hfiles.
  destruct (collect_details w st) as [[[|d dl]|e] st1]; simpl in Hfiles.
  - split; [done|]. simpl. congruence.
  - split; [done|].
    destruct (generate_feed_files w (List.map Some (d :: dl)) st1) as (eps & _ & Hend).
    destruct (rss_refuses w (extended new_podcast eps)).
    + left. destruct Hend as [_ ->]. done.
    + right. exists (extended new_podcast eps). destruct Hend as [_ ->]. congruence.
  - split; [done|]. simpl. congruence.
Qed.



(** C7, as stated, fails in both of its parts.  The listing has one
    anchor, whose reference opens a bracket in the place of the host and
    does not close it: the listing has no qualifying link, [urljoin]
    raises [ValueError] on the reference, the run ends with that
    exception, and the notice is not printed.  The page of the second
    site names a speaker with a control character: the loop collects its
    record, the feed builder is run, the library fails to serialise the
    feed, and no file is written. *)
Lemma unresolvable_href_ends_the_run :
  (listing_of (Sample.site ["//[x"%string]) = []
   /\ fst (main (Sample.site ["//[x"%string]) initial_state)
      = Raise (ValueError "Invalid IPv6 URL")
   /\ stdout (snd (main (Sample.site ["//[x"%string]) initial_state))
      = ["Scraping messages..."%string]
   /\ files (snd (main (Sample.site ["//[x"%string]) initial_state)) = ∅)
  /\ (exists d st1,
        collect_details (Sample.site ["/mediacast/control/"%string]) initial_state
        = (Ok [d], st1)
        /\ fst (main (Sample.site ["/mediacast/control/"%string]) initial_state)
           = Raise (ValueError "All strings must be XML compatible: Unicode or ASCII, no NULL bytes or control characters")
        /\ files (snd (main (Sample.site ["/mediacast/control/"%string]) initial_state)) = ∅).
Proof.
  split; [repeat (split; [reflexivity|]); reflexivity|].
  eexists _, _. split; [vm_compute; reflexivity|]. split; reflexivity.
Qed.

(** The requests of a run of [main]: the listing, then the pages of the
    first [k] links. *)
Lemma main_requests (w : world) (st : state) :
  exists k : nat,
    (k <= 20)%nat
    /\ requests (snd (main w st))
       = requests st ++ BASE_URL :: List.map link_url (List.firstn k (listing_of w))
    /\ match fst (main w st) with
       | Ok _ => k = Nat.min 20 (length (listing_of w))
       | Raise _ => True
       end.
Proof.
  rewrite main_split.
  destruct (collect_details_run w st) as (st0 & Hreq0 & Hfiles0 & Hrun).
  destruct (scrape_error w) as [e|].
  { exists 0%nat. rewrite Hrun. simpl. split; [lia|]. by rewrite Hreq0. }
  destruct (process_links_trace w (List.firstn 20 (listing_of w)) [] st0)
    as (k & Hk & Hreq & _ & Hok).
  rewrite <- Hrun in Hreq, Hok. rewrite length_firstn in Hk, Hok.
  rewrite List.firstn_firstn, Hreq0, <- app_assoc in Hreq.
  replace (Nat.min k 20) with k in Hreq by lia. simpl in Hreq.
  exists k. split; [lia|].
  destruct (collect_details w st) as [[[|d dl]|e] st1]; simpl in Hreq, Hok.
  - done.
  - destruct (generate_feed_spec w (List.map Some (d :: dl)) st1)
      as (eps & st2 & _ & -> & _ & Hreq2 & _).
    rewrite feed_end_requests, Hreq2. split; [done|].
    by destruct (fst (feed_end w (extended new_podcast eps) st2)).
  - done.
Qed.

(** C6. The pages requested by [main] after the listing are those of the
    first [k] links of the listing, in order, for some [k] that is at most
    20; no other link is processed.  A run that ends without error has
    processed the first 20 links, or all of them when there are fewer. *)
Theorem main_processes_first_20 (w : world) (st : state) :
  exists k : nat,
    (k <= 20)%nat
    /\ requests (snd (main w st))
       = requests st ++ BASE_URL :: List.map link_url (List.firstn k (listing_of w))
    /\ match fst (main w st) with
       | Ok _ => k = Nat.min 20 (length (listing_of w))
       | Raise _ => True
       end.
Proof. apply main_requests. Qed.

Lemma listing_of_urls (w : world) :
  NoDup (List.map link_url (listing_of w))
  /\ forall u, u ∈ List.map link_url (listing_of w) -> is_message_url u = true.
Proof.
  unfold listing_of. destruct (http_get w BASE_URL) as [e|soup].
  - split; [constructor|]. intros u Hu. by apply elem_of_nil in Hu.
  - rewrite collect_links_spec. split; [apply first_occurrences_NoDup|].
    intros u Hu. apply (proj1 (first_occurrences_elem _ _)) in Hu.
    unfold candidates in Hu. apply list_elem_of_In, filter_In in Hu. tauto.
Qed.

(** A run requests no URL twice: one answer of the server per URL is all
    that it sees. *)
Lemma main_requests_NoDup (w : world) :
  NoDup (requests (snd (main w initial_state))).
Proof.
  destruct (main_requests w initial_state) as (k & _ & -> & _).
  destruct (listing_of_urls w) as [Hnodup Hmsg]. simpl.
  rewrite <- (List.firstn_skipn k (listing_of w)), List.map_app in Hnodup, Hmsg.
  constructor.
  - intros Hin. assert (is_message_url BASE_URL = true) as Hbase; [|done].
    apply Hmsg. set_solver.
  - by apply NoDup_app in Hnodup as [? _].
Qed.

(** When no extraction raises, the loop comes to its end with the records
    of the extractable links, in order. *)
Lemma process_links_ok (w : world) (links : list MessageLink)
    (acc : list MessageDetails) (st : state) :
  Forall (fun link => extraction_error w (link_url link) = None) links ->
  exists dl st',
    process_links w links acc st = (Ok (acc ++ dl), st')
    /\ List.map url dl = List.filter (yields_record w) (List.map link_url links).
Proof.
  intros Hall; revert acc st; induction Hall as [|link rest Herr Hrest IH]; intros acc st.
  - exists [], st. simpl. by rewrite app_nil_r.
  - rewrite process_links_step. set (st1 := printed _ st).
    pose proof (get_message_details_outcome w (link_url link) st1) as Hout.
    simpl. unfold yields_record at 1. rewrite Herr in Hout |- *.
    destruct (extractable w (link_url link)).
    + destruct Hout as (d & Hd & Hurl).
      destruct (get_message_details w (link_url link) st1) as [r st2]. simpl in Hd; subst r.
      destruct (IH (acc ++ [d]) (printed ("  Found: " +:+ title d +:+ " - "
                  +:+ Datetime.isoformat_date (date d)) st2)) as (dl & st' & Hrun & Hurls).
      exists (d :: dl), st'. rewrite Hrun, <- app_assoc. simpl. by rewrite Hurl, Hurls.
    + destruct (get_message_details w (link_url link) st1) as [r st2]. simpl in Hout; subst r.
      destruct (IH acc st2) as (dl & st' & Hrun & Hurls).
      by exists dl, st'.
Qed.




(** Every record collected by the loop is what the extractor makes of the
    page at its URL. *)
Lemma process_links_extracted (w : world) (links : list MessageLink)
    (acc dl : list MessageDetails) (st st' : state) :
  process_links w links acc st = (Ok dl, st') ->
  Forall (extracted_from w) acc -> Forall (extracted_from w) dl.
Proof.
  revert acc st; induction links as [|link rest IH]; intros acc st.
  - by intros [= <- <-].
  - rewrite process_links_step. set (st1 := printed _ st).
    destruct (get_message_details w (link_url link) st1) as [[[d|]|e] st2] eqn:Hd.
    + intros Hrun Hacc. apply (IH _ _ Hrun). apply Forall_app. split; [done|].
      constructor; [|done]. by apply (get_message_details_extracted w _ _ _ _ Hd).
    + apply IH.
    + done.
Qed.





(** What the invariant gives on the emptiness of title and media URL: a
    title is empty only for a page whose first [h1] has no text, and a
    media URL is never empty when the library's [Media] refuses an empty
    URL. *)
Lemma episode_invariant_nonempty (w : world) (ep : Podgen.Episode) :
  episode_invariant w ep ->
  (Podgen.ep_title ep = ""%string ->
   exists soup h1,
     http_get w (Podgen.ep_link ep) = inr soup
     /\ Bs4.find "h1" soup = Some h1 /\ Bs4.get_text_strip h1 = ""%string)
  /\ (Media_refuses w "" <> None -> Podgen.media_url (Podgen.ep_media ep) <> ""%string).
Proof.
  intros (soup & Hget & Htitle & _ & Hmedia & _). split.
  - intros Hempty. rewrite Hempty in Htitle. unfold title_of in Htitle.
    destruct (Bs4.find "h1" soup) as [h1|] eqn:Hh1; [|discriminate].
    by exists soup, h1.
  - intros Hrefuses Hempty. by rewrite Hempty in Hmedia.
Qed.

(** * Further properties *)

(** ** Cutting a text at a separator *)

Lemma split_from_nonempty (sep : string) (skip : nat) (s : string) :
  Str.split_from sep skip s <> [].
Proof.
  revert skip; induction s as [|c s IH]; intros skip; simpl; [done|].
  destruct skip as [|k]; [|apply IH].
  destruct (Str.startswith (String c s) sep); [done|].
  by destruct (Str.split_from sep 0 s).
Qed.

Lemma startswith_nil (p : string) : p <> ""%string -> Str.startswith "" p = false.
Proof. by destruct p. Qed.

(** A text in which the separator occurs is cut into two pieces at
    least. *)
Lemma split_length_contains (sep s : string) :
  sep <> ""%string -> Str.contains sep s = true -> (2 <= length (Str.split sep s))%nat.
Proof.
  intros Hsep. unfold Str.split. induction s as [|c s IH].
  - simpl. rewrite startswith_nil by done. discriminate.
  - cbn [Str.contains Str.split_from].
    destruct (Str.startswith (String c s) sep).
    + intros _. pose proof (split_from_nonempty sep (Nat.pred (String.length sep)) s).
      destruct (Str.split_from sep (Nat.pred (String.length sep)) s); [done|simpl; lia].
    + simpl. intros Hc. specialize (IH Hc).
      destruct (Str.split_from sep 0 s); simpl in *; lia.
Qed.

(** A text in which the separator does not occur is one piece. *)
Lemma split_without_separator (sep s : string) :
  Str.contains sep s = false -> Str.split sep s = [s].
Proof.
  unfold Str.split. induction s as [|c s IH]; [done|].
  cbn [Str.contains Str.split_from]. intros [Hs Hc]%orb_false_iff.
  by rewrite Hs, (IH Hc).
Qed.

(** One step of the cut at a separator of a single character. *)
Lemma split_char_cons (a c : ascii) (s : string) :
  Str.split (String a "") (String c s) =
  if Ascii.eqb a c then ""%string :: Str.split (String a "") s
  else match Str.split (String a "") s with
       | piece :: pieces => String c piece :: pieces
       | [] => [String c ""]
       end.
Proof.
  unfold Str.split. cbn [Str.split_from Str.startswith String.length Nat.pred].
  rewrite andb_true_r. by destruct (Ascii.eqb a c).
Qed.

(** The first piece of a cut at a single character: the separator does
    not occur in it, and the text starts with it. *)
Lemma first_piece_char (a : ascii) (s : string) :
  Str.contains (String a "") (Str.first_piece (Str.split (String a "") s)) = false
  /\ exists rest, s = Str.first_piece (Str.split (String a "") s) +:+ rest.
Proof.
  induction s as [|c s [IHc [rest IHr]]].
  - split; [done|by exists ""%string].
  - rewrite split_char_cons. destruct (Ascii.eqb_spec a c) as [<-|Hne].
    + split; [done|by exists (String a s)].
    + pose proof (split_from_nonempty (String a "") 0 s) as Hne'.
      unfold Str.split in *.
      destruct (Str.split_from (String a "") 0 s) as [|piece pieces]; [done|].
      simpl in IHc, IHr |- *. split.
      * rewrite IHc. apply Ascii.eqb_neq in Hne. by rewrite Hne.
      * exists rest. rewrite string_app_cons. by f_equal.
Qed.

Lemma startswith_app (p rest : string) : Str.startswith (p +:+ rest) p = true.
Proof.
  induction p as [|c p IH]; [done|]. rewrite string_app_cons. simpl.
  by rewrite Ascii.eqb_refl, IH.
Qed.

Lemma contains_app (sep pre rest : string) :
  Str.contains sep (pre +:+ sep +:+ rest) = true.
Proof.
  induction pre as [|c pre IH].
  - rewrite string_app_nil_l. destruct sep as [|a sep]; [by destruct rest|].
    rewrite string_app_cons. cbn [Str.contains].
    rewrite <- string_app_cons. by rewrite startswith_app.
  - rewrite string_app_cons. cbn [Str.contains]. rewrite IH. apply orb_true_r.
Qed.

Lemma contains_tail (sub : string) (c : ascii) (s : string) :
  Str.contains sub (String c s) = false -> Str.contains sub s = false.
Proof. cbn [Str.contains]. by intros [_ ?]%orb_false_iff. Qed.

(** ** White space at the ends of a text *)

(** What [lstrip] leaves starts with a character that is no white
    space. *)
Lemma lstrip_head (s : string) (c : ascii) (y : string) :
  Str.lstrip s = String c y -> Str.isspace c = false.
Proof.
  induction s as [|a s IH]; [done|]. simpl.
  destruct (Str.isspace a) eqn:Ha; [done|]. by intros [= <- _].
Qed.

Lemma lstrip_fixed (c : ascii) (y : string) :
  Str.isspace c = false -> Str.lstrip (String c y) = String c y.
Proof. intros Hc. simpl. by rewrite Hc. Qed.

(** What [rstrip] leaves of a text that starts with a character that is
    no white space starts with that character. *)
Lemma rstrip_cons (c : ascii) (s : string) :
  Str.isspace c = false -> exists r, Str.rstrip (String c s) = String c r.
Proof.
  intros Hc. simpl. rewrite Hc. destruct (Str.rstrip s); by eexists.
Qed.

Lemma lstrip_strip (s : string) : Str.lstrip (Str.strip s) = Str.strip s.
Proof.
  unfold Str.strip. destruct (Str.lstrip s) as [|c y] eqn:Hy; [done|].
  pose proof (lstrip_head _ _ _ Hy) as Hc.
  destruct (rstrip_cons c y Hc) as [r ->]. by apply lstrip_fixed.
Qed.

Lemma rstrip_idem (s : string) : Str.rstrip (Str.rstrip s) = Str.rstrip s.
Proof.
  induction s as [|c s IH]; [done|]. simpl.
  destruct (Str.rstrip s) as [|a r] eqn:Hr.
  - destruct (Str.isspace c) eqn:Hc; [done|]. simpl. by rewrite Hc.
  - cbn [Str.rstrip] in IH |- *. fold (Str.rstrip (String a r)). by rewrite IH.
Qed.

(** A prefix of a text that [lstrip] leaves as it is, is left as it is. *)
Lemma lstrip_prefix (a b : string) :
  Str.lstrip (a +:+ b) = a +:+ b -> Str.lstrip a = a.
Proof.
  destruct a as [|c a]; [done|]. rewrite string_app_cons. simpl.
  destruct (Str.isspace c) eqn:Hc; [|done].
  intros Heq. exfalso.
  assert (forall s, (String.length (Str.lstrip s) <= String.length s)%nat) as Hlen.
  { clear. induction s as [|x s IH]; simpl; [lia|]. destruct (Str.isspace x); simpl; lia. }
  specialize (Hlen (a +:+ b)). rewrite Heq in Hlen. simpl in Hlen. lia.
Qed.

Lemma rstrip_app (a b : string) :
  Str.rstrip (a +:+ b) =
  match Str.rstrip b with
  | EmptyString => Str.rstrip a
  | r => (a +:+ r)%string
  end.
Proof.
  induction a as [|c a IH].
  - rewrite string_app_nil_l. by destruct (Str.rstrip b).
  - rewrite string_app_cons. cbn [Str.rstrip]. rewrite IH.
    destruct (Str.rstrip b) as [|x r]; [done|].
    rewrite string_app_cons. by destruct a.
Qed.

Lemma rstrip_fixed_app (a b : string) :
  b <> ""%string -> Str.rstrip b = b -> Str.rstrip (a +:+ b) = (a +:+ b)%string.
Proof. intros Hne Hb. rewrite rstrip_app, Hb. by destruct b. Qed.

Lemma trimmed_strip (s : string) : trimmed (Str.strip s).
Proof. split; [apply lstrip_strip|apply rstrip_idem]. Qed.

Lemma trimmed_app (p r : string) :
  p <> ""%string -> trimmed p -> trimmed r -> trimmed (p +:+ r).
Proof.
  intros Hne [Hl Hr] [Hl' Hr']. split.
  - destruct p as [|c p]; [done|]. pose proof (lstrip_head _ _ _ Hl) as Hc.
    rewrite string_app_cons. by apply lstrip_fixed.
  - rewrite rstrip_app, Hr'. destruct r; [|done]. by rewrite string_app_nil_r.
Qed.

(** White space around the text. *)
Lemma lstrip_app (s b : string) :
  Str.lstrip (s +:+ b) =
  match Str.lstrip s with
  | EmptyString => Str.lstrip b
  | r => (r +:+ b)%string
  end.
Proof.
  induction s as [|c s IH]; [by rewrite string_app_nil_l|].
  rewrite string_app_cons. simpl. by destruct (Str.isspace c).
Qed.

Lemma lstrip_rstrip_nil (s : string) : Str.lstrip s = ""%string -> Str.rstrip s = ""%string.
Proof.
  induction s as [|c s IH]; [done|]. simpl.
  destruct (Str.isspace c); [|done]. by intros ->%IH.
Qed.

Lemma rstrip_lstrip_nil (s : string) : Str.rstrip s = ""%string -> Str.lstrip s = ""%string.
Proof.
  induction s as [|c s IH]; [done|]. simpl.
  destruct (Str.rstrip s); [|done]. destruct (Str.isspace c); [|done]. by intros _; apply IH.
Qed.

Lemma strip_surrounded (a s b : string) :
  Str.strip a = ""%string -> Str.strip b = ""%string ->
  Str.strip (a +:+ s +:+ b) = Str.strip s.
Proof.
  unfold Str.strip. intros Ha Hb.
  assert (Str.lstrip a = ""%string) as Hla.
  { destruct (Str.lstrip a) as [|c y] eqn:Hy; [done|].
    destruct (rstrip_cons c y (lstrip_head _ _ _ Hy)) as [r Hr]. congruence. }
  assert (Str.rstrip b = ""%string) as Hrb.
  { apply lstrip_rstrip_nil. destruct (Str.lstrip b) as [|c y] eqn:Hy; [done|].
    destruct (rstrip_cons c y (lstrip_head _ _ _ Hy)) as [r Hr]. congruence. }
  rewrite lstrip_app, Hla, lstrip_app.
  destruct (Str.lstrip s) as [|c y] eqn:Hs.
  - by rewrite (rstrip_lstrip_nil _ Hrb).
  - by rewrite rstrip_app, Hrb.
Qed.

(** ** Decimal digits *)

Lemma isdigit_digit_char (c : ascii) :
  Str.isdigit c = true ->
  exists k, (k < 10)%nat /\ c = Str.digit_char k /\ Str.digit_value c = Z.of_nat k.
Proof.
  intros Hd%isdigit_spec. exists (N.to_nat (N_of_ascii c) - 48)%nat.
  split; [lia|]. split.
  - unfold Str.digit_char.
    replace (48 + (N.to_nat (N_of_ascii c) - 48))%nat with (nat_of_ascii c)
      by (unfold nat_of_ascii; lia).
    by rewrite ascii_nat_embedding.
  - unfold Str.digit_value. lia.
Qed.

Lemma digit_char_isdigit (k : nat) :
  (k < 10)%nat -> Str.isdigit (Str.digit_char k) = true
                  /\ Str.digit_value (Str.digit_char k) = Z.of_nat k.
Proof.
  intros Hk. do 10 (destruct k as [|k]; [by vm_compute|]). lia.
Qed.

Lemma below_ten (k : nat) : (k < 10)%nat -> In k digits_below_ten.
Proof. intros Hk. apply in_seq. lia. Qed.

(** The text of a number of two digits, and of four, is made of its
    digits. *)
Lemma pad2_digits (a b : ascii) :
  Str.isdigit a = true -> Str.isdigit b = true ->
  Str.pad 2 (Z.to_nat (number [a; b])) = String a (String b "").
Proof.
  intros (i & Hi & -> & _)%isdigit_digit_char (j & Hj & -> & _)%isdigit_digit_char.
  assert (forallb (fun i => forallb (fun j =>
            String.eqb (Str.pad 2 (Z.to_nat (number [Str.digit_char i; Str.digit_char j])))
              (String (Str.digit_char i) (String (Str.digit_char j) "")))
            digits_below_ten) digits_below_ten = true) as Hall by (by vm_compute).
  rewrite forallb_forall in Hall. specialize (Hall i (below_ten i Hi)).
  rewrite forallb_forall in Hall. specialize (Hall j (below_ten j Hj)).
  by apply String.eqb_eq.
Qed.

Lemma pad4_digits (a b c d : ascii) :
  Str.isdigit a = true -> Str.isdigit b = true ->
  Str.isdigit c = true -> Str.isdigit d = true ->
  Str.pad 4 (Z.to_nat (number [a; b; c; d])) = String a (String b (String c (String d ""))).
Proof.
  intros (i & Hi & -> & _)%isdigit_digit_char (j & Hj & -> & _)%isdigit_digit_char
         (k & Hk & -> & _)%isdigit_digit_char (l & Hl & -> & _)%isdigit_digit_char.
  assert (forallb (fun i => forallb (fun j => forallb (fun k => forallb (fun l =>
            String.eqb
              (Str.pad 4 (Z.to_nat (number [Str.digit_char i; Str.digit_char j;
                                            Str.digit_char k; Str.digit_char l])))
              (String (Str.digit_char i) (String (Str.digit_char j)
                 (String (Str.digit_char k) (String (Str.digit_char l) "")))))
            digits_below_ten) digits_below_ten) digits_below_ten) digits_below_ten = true)
    as Hall by (by vm_compute).
  rewrite forallb_forall in Hall. specialize (Hall i (below_ten i Hi)).
  rewrite forallb_forall in Hall. specialize (Hall j (below_ten j Hj)).
  rewrite forallb_forall in Hall. specialize (Hall k (below_ten k Hk)).
  rewrite forallb_forall in Hall. specialize (Hall l (below_ten l Hl)).
  by apply String.eqb_eq.
Qed.

(** A number below 100, and one below 10000, is written by two digits,
    and by four. *)
Lemma two_digits (n : Z) :
  0 <= n < 100 ->
  exists a b, Str.isdigit a = true /\ Str.isdigit b = true /\ number [a; b] = n.
Proof.
  intros Hn. exists (Str.digit_char (Z.to_nat (n / 10))), (Str.digit_char (Z.to_nat (n mod 10))).
  destruct (digit_char_isdigit (Z.to_nat (n / 10))) as [Ha Hva];
    [apply Nat2Z.inj_lt; rewrite Z2Nat.id; [|apply Z.div_pos; lia];
     change (Z.of_nat 10) with 10; apply Z.div_lt_upper_bound; lia|].
  destruct (digit_char_isdigit (Z.to_nat (n mod 10))) as [Hb Hvb];
    [pose proof (Z.mod_pos_bound n 10); lia|].
  split; [done|]. split; [done|]. unfold number. simpl. rewrite Hva, Hvb.
  rewrite !Z2Nat.id; [|pose proof (Z.mod_pos_bound n 10); lia|apply Z.div_pos; lia].
  pose proof (Z.div_mod n 10). lia.
Qed.

Lemma four_digits (n : Z) :
  0 <= n < 10000 ->
  exists a b c d,
    Str.isdigit a = true /\ Str.isdigit b = true /\ Str.isdigit c = true
    /\ Str.isdigit d = true /\ number [a; b; c; d] = n.
Proof.
  intros Hn.
  destruct (two_digits (n / 100)) as (a & b & Ha & Hb & Hab);
    [split; [apply Z.div_pos; lia|apply Z.div_lt_upper_bound; lia]|].
  destruct (two_digits (n mod 100)) as (c & d & Hc & Hd & Hcd);
    [pose proof (Z.mod_pos_bound n 100); lia|].
  exists a, b, c, d. repeat (split; [done|]).
  unfold number in *. simpl in *. pose proof (Z.div_mod n 100). lia.
Qed.

(** The decimal text of a number from 1000 to 9999 has four digits. *)
Lemma of_nat_four_digits (y1 y2 y3 y4 : ascii) :
  Str.isdigit y1 = true -> Str.isdigit y2 = true ->
  Str.isdigit y3 = true -> Str.isdigit y4 = true ->
  1000 <= number [y1; y2; y3; y4] ->
  Str.of_nat (Z.to_nat (number [y1; y2; y3; y4]))
  = String y1 (String y2 (String y3 (String y4 ""))).
Proof.
  intros (i & Hi & -> & Hvi)%isdigit_digit_char (j & Hj & -> & Hvj)%isdigit_digit_char
         (k & Hk & -> & Hvk)%isdigit_digit_char (l & Hl & -> & Hvl)%isdigit_digit_char Hy.
  assert (i <> 0)%nat as Hi0.
  { unfold number in Hy. simpl in Hy. lia. }
  assert (forallb (fun i => forallb (fun j => forallb (fun k => forallb (fun l =>
            Nat.eqb i 0 ||
            String.eqb
              (Str.of_nat (Z.to_nat (number [Str.digit_char i; Str.digit_char j;
                                             Str.digit_char k; Str.digit_char l])))
              (String (Str.digit_char i) (String (Str.digit_char j)
                 (String (Str.digit_char k) (String (Str.digit_char l) "")))))
            digits_below_ten) digits_below_ten) digits_below_ten) digits_below_ten = true)
    as Hall by (by vm_compute).
  rewrite forallb_forall in Hall. specialize (Hall i (below_ten i Hi)).
  rewrite forallb_forall in Hall. specialize (Hall j (below_ten j Hj)).
  rewrite forallb_forall in Hall. specialize (Hall k (below_ten k Hk)).
  rewrite forallb_forall in Hall. specialize (Hall l (below_ten l Hl)).
  apply orb_true_iff in Hall as [Hz%Nat.eqb_eq|Heq]; [done|]. by apply String.eqb_eq.
Qed.




Lemma isdigit_not_space (c : ascii) : Str.isdigit c = true -> Str.isspace c = false.
Proof.
  intros Hd%isdigit_spec. unfold Str.isspace. cbv zeta.
  repeat match goal with
    | |- context [(?a <=? ?b)%N] => destruct (N.leb_spec a b); try lia
    | |- context [(?a =? ?b)%N] => destruct (N.eqb_spec a b); try lia
    end; done.
Qed.

(** ** [parse_date] *)

Lemma parse_date_cases (w : world) (s : string) (st : state) :
  parse_date w s st =
  match Datetime.strptime_BdY (Str.strip s) with
  | Ok dt => (Ok dt, st)
  | Raise (ValueError _) => (Ok (clock w (ticks st)), ticked st)
  | Raise e => (Raise e, st)
  end.
Proof.
  unfold parse_date, try_except_ValueError, lift, datetime_now.
  by destruct (Datetime.strptime_BdY (Str.strip s)) as [dt|[]].
Qed.

Lemma hd_error_In {A} (l : list A) (x : A) : List.hd_error l = Some x -> In x l.
Proof. destruct l; [done|]. intros [= ->]. by left. Qed.

Lemma day_alts_range (s : string) (d : Z) (r : string) :
  In (d, r) (Datetime.day_alts s) -> 1 <= d <= 31.
Proof.
  unfold Datetime.day_alts. destruct s as [|a [|b r2]]; [done| |].
  - rewrite app_nil_l, app_nil_r.
    destruct (Datetime.in_range 49 57 a) eqn:Ha; [|done].
    intros [[= <- _]|[]]. apply in_range_spec in Ha. unfold Str.digit_value. lia.
  - rewrite !in_app_iff.
    intros [[H|[H|H]]|[H|H]]; revert H;
      match goal with
      | |- In _ (if ?c then _ else _) -> _ => destruct c eqn:Hc; [|done]
      end; intros [[= <- _]|[]];
      unfold Datetime.in_range, Str.isdigit in Hc; cbv zeta in Hc;
      rewrite ?andb_true_iff, ?N.leb_le in Hc; unfold Str.digit_value; lia.
Qed.

Lemma monthname_alts_range (s : string) (m : Z) (r : string) :
  In (m, r) (Datetime.monthname_alts s) -> 1 <= m <= 12.
Proof.
  unfold Datetime.monthname_alts. rewrite in_flat_map.
  intros ([word k] & Hw & Hin).
  destruct (Datetime.after_word word s); [|done]. destruct Hin as [[= <- _]|[]].
  unfold Datetime.month_words in Hw. simpl in Hw.
  repeat (destruct Hw as [[= _ <-]|Hw]; [lia|]). done.
Qed.

Lemma year_alts_range (s : string) (y : Z) (r : string) :
  In (y, r) (Datetime.year_alts s) -> 0 <= y <= 9999.
Proof.
  unfold Datetime.year_alts. destruct s as [|y1 [|y2 [|y3 [|y4 r']]]]; try done.
  destruct (_ && _) eqn:Hd; [|done]. intros [[= <- _]|[]].
  do 3 (apply andb_true_iff in Hd as [Hd ?]).
  rewrite ?isdigit_spec in *. unfold Str.digit_value. lia.
Qed.

Lemma match_BdY_range (s : string) (y m d : Z) (rest : string) :
  Datetime.match_BdY s = Some (y, m, d, rest) ->
  0 <= y <= 9999 /\ 1 <= m <= 12 /\ 1 <= d <= 31.
Proof.
  unfold Datetime.match_BdY. intros Hm%hd_error_In.
  apply in_flat_map in Hm as ([m' r1] & Hmonth & Hm).
  apply in_flat_map in Hm as (r2 & _ & Hm).
  apply in_flat_map in Hm as ([d' r3] & Hday & Hm).
  destruct (Datetime.after_comma r3) as [r4|]; [|done].
  apply in_flat_map in Hm as (r5 & _ & Hm).
  apply in_map_iff in Hm as ([y' rest'] & [= -> -> -> ->] & Hyear).
  split; [by apply (year_alts_range r5 y rest)|].
  split; [by apply (monthname_alts_range s m r1)|by apply (day_alts_range r2 d r3)].
Qed.

Lemma strptime_BdY_outcome (s : string) :
  match Datetime.strptime_BdY s with
  | Ok dt => calendar_day dt
  | Raise e => exists msg, e = ValueError msg
  end.
Proof.
  unfold Datetime.strptime_BdY.
  destruct (Datetime.match_BdY s) as [[[[y m] d] rest]|] eqn:Hm; [|by eexists].
  apply match_BdY_range in Hm as (Hy & Hmo & Hd).
  destruct rest; [|by eexists].
  destruct (Z.ltb_spec y 1); [by eexists|].
  destruct (Z.ltb_spec (Datetime.days_in_month y m) d); [by eexists|].
  unfold calendar_day; simpl. repeat split; lia.
Qed.

(** X2. [parse_date] never raises.  Whatever the text, it returns either
    a day of the calendar at midnight (year 1 to 9999, month 1 to 12, day
    within the month), read from the text without a look at the clock, or
    the reading of the clock. *)
Theorem parse_date_day_or_now (w : world) (date_str : string) (st : state) :
  (exists dt, parse_date w date_str st = (Ok dt, st) /\ calendar_day dt)
  \/ parse_date w date_str st = (Ok (clock w (ticks st)), ticked st).
Proof.
  rewrite parse_date_cases.
  pose proof (strptime_BdY_outcome (Str.strip date_str)) as Hout.
  destruct (Datetime.strptime_BdY (Str.strip date_str)) as [dt|e].
  - left. by exists dt.
  - right. by destruct Hout as [msg ->].
Qed.

(** X3. White space before and after the text does not count for
    [parse_date]. *)
Theorem parse_date_ignores_outer_space (w : world) (a s b : string) (st : state) :
  Str.strip a = ""%string -> Str.strip b = ""%string ->
  parse_date w (a +:+ s +:+ b) st = parse_date w s st.
Proof.
  intros Ha Hb. by rewrite !parse_date_cases, strip_surrounded.
Qed.

Lemma parse_date_ignores_outer_space_witness :
  Str.strip "  " = ""%string /\ Str.strip (String "010" "") = ""%string
  /\ parse_date (Sample.site []) ("  " +:+ "November 9, 2025" +:+ String "010" "") initial_state
     = (Ok (Datetime.midnight 2025 11 9), initial_state).
Proof.
  split; [reflexivity|]. split; [reflexivity|].
  rewrite (parse_date_ignores_outer_space (Sample.site []) "  " "November 9, 2025"
             (String "010" "") initial_state eq_refl eq_refl).
  reflexivity.
Defined.

Lemma monthname_alts_month_name (m : Z) (r : string) :
  1 <= m <= 12 ->
  Datetime.monthname_alts (Datetime.month_name m +:+ r) = [(m, r)].
Proof.
  intros Hm.
  assert (m = 1 \/ m = 2 \/ m = 3 \/ m = 4 \/ m = 5 \/ m = 6 \/ m = 7 \/ m = 8
          \/ m = 9 \/ m = 10 \/ m = 11 \/ m = 12) as Hcases by lia.
  repeat (destruct Hcases as [->|Hcases]; [by vm_compute|]). subst m. by vm_compute.
Qed.

Lemma month_name_head (m : Z) :
  1 <= m <= 12 ->
  exists c t, Datetime.month_name m = String c t /\ Str.isspace c = false.
Proof.
  intros Hm.
  assert (m = 1 \/ m = 2 \/ m = 3 \/ m = 4 \/ m = 5 \/ m = 6 \/ m = 7 \/ m = 8
          \/ m = 9 \/ m = 10 \/ m = 11 \/ m = 12) as Hcases by lia.
  repeat (destruct Hcases as [->|Hcases]; [by eexists _, _|]). subst m. by eexists _, _.
Qed.

Lemma spaces_alts_one (c : ascii) (r : string) :
  Str.isspace c = false -> Datetime.spaces_alts (String " " (String c r)) = [String c r].
Proof. intros Hc. cbn [Datetime.spaces_alts]. rewrite Hc. reflexivity. Qed.

(** The day written with one digit, before the comma. *)
Lemma day_alts_one_digit (a : ascii) (r : string) :
  Str.isdigit a = true -> 1 <= Str.digit_value a ->
  Datetime.day_alts (String a (String "," r)) = [(Str.digit_value a, String "," r)].
Proof.
  intros Ha%isdigit_spec Hv. unfold Datetime.day_alts, Datetime.in_range, Str.isdigit.
  unfold Str.digit_value in Hv. cbv zeta.
  change (N_of_ascii ",") with 44%N. set (n := N_of_ascii a) in *.
  split_leb; reflexivity.
Qed.

Lemma year_alts_digits (y1 y2 y3 y4 : ascii) :
  Str.isdigit y1 = true -> Str.isdigit y2 = true ->
  Str.isdigit y3 = true -> Str.isdigit y4 = true ->
  Datetime.year_alts (String y1 (String y2 (String y3 (String y4 ""))))
  = [(number [y1; y2; y3; y4], ""%string)].
Proof.
  intros H1 H2 H3 H4. unfold Datetime.year_alts. rewrite H1, H2, H3, H4.
  cbn [andb]. unfold number. simpl. repeat f_equal. lia.
Qed.

Lemma strptime_BdY_written (y m d : Z) (D : string) (y1 y2 y3 y4 : ascii) :
  calendar_day (Datetime.midnight y m d) ->
  day_text d D ->
  Str.isdigit y1 = true -> Str.isdigit y2 = true ->
  Str.isdigit y3 = true -> Str.isdigit y4 = true ->
  number [y1; y2; y3; y4] = y ->
  Datetime.strptime_BdY
    (Datetime.month_name m +:+ " " +:+ D +:+ ", "
     +:+ String y1 (String y2 (String y3 (String y4 ""))))
  = Ok (Datetime.midnight y m d).
Proof.
  intros (Hy & Hm & Hd & _) HD H1 H2 H3 H4 Hyear. simpl in Hy, Hm, Hd.
  pose proof (days_in_month_le y m) as Hdim.
  unfold Datetime.strptime_BdY, Datetime.match_BdY.
  rewrite monthname_alts_month_name by done. cbn [flat_map]. rewrite app_nil_r.
  assert (exists c t, D = String c t /\ Str.isspace c = false) as (c & t & HDc & Hc).
  { destruct HD as [a Ha _|a b Ha _ _]; eexists _, _; (split; [done|]);
      by apply isdigit_not_space. }
  assert (forall X, Datetime.spaces_alts (" " +:+ D +:+ X) = [(D +:+ X)%string]) as ->.
  { intros X. rewrite HDc, !string_app_cons, string_app_nil_l. by apply spaces_alts_one. }
  cbn [flat_map]. rewrite app_nil_r. rewrite !string_app_cons, string_app_nil_l.
  assert (exists tl, Datetime.day_alts (D +:+ String "," (String " "
                       (String y1 (String y2 (String y3 (String y4 ""))))))
                     = (d, String "," (String " "
                       (String y1 (String y2 (String y3 (String y4 ""))))))
                       :: tl) as [tl ->].
  { destruct HD as [a Ha Hv|a b Ha Hb Hv].
    - rewrite string_app_cons, string_app_nil_l, day_alts_one_digit by (done || lia).
      rewrite Hv. by eexists.
    - rewrite !string_app_cons, string_app_nil_l, day_alts_digits by done.
      rewrite Hv. destruct (Z.leb_spec 1 d); [|lia]. destruct (Z.leb_spec d 31); [|lia].
      by eexists. }
  cbn [flat_map Datetime.after_comma Ascii.eqb Bool.eqb].
  rewrite spaces_alts_one by (by apply isdigit_not_space).
  cbn [flat_map]. rewrite year_alts_digits by done. cbn [map app hd_error]. rewrite Hyear.
  destruct (Z.ltb_spec y 1); [lia|]. destruct (Z.ltb_spec (Datetime.days_in_month y m) d); [lia|].
  done.
Qed.

Lemma written_date_trimmed (m : Z) (mid : string) (y1 y2 y3 y4 : ascii) :
  1 <= m <= 12 -> Str.isdigit y4 = true ->
  Str.strip (Datetime.month_name m +:+ mid +:+ String y1 (String y2 (String y3 (String y4 ""))))
  = (Datetime.month_name m +:+ mid +:+ String y1 (String y2 (String y3 (String y4 ""))))%string.
Proof.
  intros Hm H4%isdigit_not_space. unfold Str.strip.
  destruct (month_name_head m Hm) as (c & t & -> & Hc).
  rewrite string_app_cons, lstrip_fixed by done. rewrite <- string_app_cons.
  rewrite <- string_app_assoc. apply rstrip_fixed_app; [done|].
  simpl. by rewrite H4.
Qed.

Lemma day_text_padded (d : Z) : 1 <= d <= 31 -> day_text d (Str.pad 2 (Z.to_nat d)).
Proof.
  intros Hd. destruct (two_digits d) as (a & b & Ha & Hb & Hab); [lia|].
  rewrite <- Hab at 2. rewrite pad2_digits by done. by apply day_two_digits.
Qed.

Lemma day_text_plain (d : Z) : 1 <= d <= 31 -> day_text d (Str.of_nat (Z.to_nat d)).
Proof.
  intros Hd.
  assert (d = 1 \/ d = 2 \/ d = 3 \/ d = 4 \/ d = 5 \/ d = 6 \/ d = 7 \/ d = 8 \/ d = 9
          \/ d = 10 \/ d = 11 \/ d = 12 \/ d = 13 \/ d = 14 \/ d = 15 \/ d = 16
          \/ d = 17 \/ d = 18 \/ d = 19 \/ d = 20 \/ d = 21 \/ d = 22 \/ d = 23
          \/ d = 24 \/ d = 25 \/ d = 26 \/ d = 27 \/ d = 28 \/ d = 29 \/ d = 30
          \/ d = 31) as Hcases by lia.
  repeat (destruct Hcases as [->|Hcases];
          [first [by apply day_one_digit | by apply day_two_digits]|]).
  subst d. by apply day_two_digits.
Qed.

Lemma parse_date_written (w : world) (dt : Datetime.datetime) (D : string) (st : state) :
  calendar_day dt -> 1000 <= Datetime.year dt ->
  day_text (Datetime.day dt) D ->
  parse_date w (Datetime.month_name (Datetime.month dt) +:+ " " +:+ D +:+ ", "
                +:+ Str.of_nat (Z.to_nat (Datetime.year dt))) st
  = (Ok dt, st).
Proof.
  intros Hday Hy HD. pose proof Hday as (Hy' & Hm & Hd & Hdt).
  destruct (four_digits (Datetime.year dt)) as (y1 & y2 & y3 & y4 & H1 & H2 & H3 & H4 & Hyear);
    [lia|].
  rewrite <- Hyear at 1. rewrite of_nat_four_digits by (done || lia).
  rewrite parse_date_cases.
  replace (Datetime.month_name (Datetime.month dt) +:+ " " +:+ D +:+ ", "
           +:+ String y1 (String y2 (String y3 (String y4 ""))))%string
    with (Datetime.month_name (Datetime.month dt) +:+ (" " +:+ D +:+ ", ")
          +:+ String y1 (String y2 (String y3 (String y4 ""))))%string
    by (by rewrite !string_app_assoc).
  rewrite written_date_trimmed by done. rewrite !string_app_assoc.
  rewrite (strptime_BdY_written (Datetime.year dt) (Datetime.month dt) (Datetime.day dt));
    try done; by rewrite <- Hdt.
Qed.

(** X4. [parse_date] reads back the dates of the descriptions: for a day
    of the calendar from the year 1000 on, the text that
    [strftime('%B %d, %Y')] makes of it at line 112 is read as that day,
    and so is the same text with the day written without leading zero, as
    in "November 9, 2025".  The clock is not read. *)
Theorem parse_date_reads_described_date (w : world) (dt : Datetime.datetime) (st : state) :
  calendar_day dt -> 1000 <= Datetime.year dt ->
  parse_date w (Datetime.strftime_BdY dt) st = (Ok dt, st)
  /\ parse_date w (Datetime.month_name (Datetime.month dt) +:+ " "
                   +:+ Str.of_nat (Z.to_nat (Datetime.day dt)) +:+ ", "
                   +:+ Str.of_nat (Z.to_nat (Datetime.year dt))) st
     = (Ok dt, st).
Proof.
  intros Hday Hy. pose proof Hday as (_ & _ & Hd & _).
  pose proof (days_in_month_le (Datetime.year dt) (Datetime.month dt)).
  split.
  - unfold Datetime.strftime_BdY. apply parse_date_written; try done.
    apply day_text_padded. lia.
  - apply parse_date_written; try done. apply day_text_plain. lia.
Qed.

Lemma parse_date_reads_described_date_witness :
  calendar_day (Datetime.midnight 2025 11 9) /\ 1000 <= 2025
  /\ Datetime.strftime_BdY (Datetime.midnight 2025 11 9) = "November 09, 2025"%string
  /\ parse_date (Sample.site []) "November 09, 2025" initial_state
     = (Ok (Datetime.midnight 2025 11 9), initial_state)
  /\ parse_date (Sample.site []) "November 9, 2025" initial_state
     = (Ok (Datetime.midnight 2025 11 9), initial_state).
Proof.
  assert (calendar_day (Datetime.midnight 2025 11 9)) as Hday.
  { unfold calendar_day; simpl. repeat split; try lia. by vm_compute. }
  assert (1000 <= 2025) as Hy by lia.
  split; [exact Hday|]. split; [exact Hy|]. split; [reflexivity|].
  exact (parse_date_reads_described_date (Sample.site []) _ initial_state Hday Hy).
Defined.

(** ** The links of a listing in two parts *)


Lemma filter_filter {A} (f g : A -> bool) (l : list A) :
  List.filter f (List.filter g l) = List.filter (fun x => g x && f x) l.
Proof.
  induction l as [|x l IH]; [done|]. simpl.
  destruct (g x); simpl; [destruct (f x)|]; by rewrite ?IH.
Qed.




(** ** The records of the detail extractor *)

Lemma find_audio_url_stated (soup : Bs4.document) (audio : string) :
  find_audio_url soup = Ok (Some audio) -> stated_by_player soup audio.
Proof.
  rewrite find_audio_url_priority.
  destruct (Bs4.find_class "audio" "wp-audio-shortcode" soup) as [player|] eqn:Hplayer;
    [|done].
  intros Hfound. exists player. split; [done|]. split.
  { unfold Bs4.find_class in Hplayer. by apply List.find_some in Hplayer as [? _]. }
  unfold Bs4.find in Hfound |- *.
  destruct (Bs4.get player "src") as [[|c v]|] eqn:Hsrc.
  2: { left. injection Hfound as <-. by split. }
  all: right.
  all: destruct (List.find (Bs4.is_tag "source") _) as [source|] eqn:Hsource;
    [apply List.find_some in Hsource as [? ?]; left; exists source;
     destruct (Bs4.get source "src"); [by injection Hfound as <-|done]|].
  all: destruct (List.find (Bs4.is_tag "a") _) as [a|] eqn:Ha; [|done].
  all: apply List.find_some in Ha as [? ?]; right; exists a.
  all: destruct (Bs4.get a "href"); [by injection Hfound as <-|done].
Qed.

(** X6. The audio URL of a record is one that the page states: the
    [src], not empty, of its first marked player, or the [src] of a
    [source] inside that player, or the [href] of a link inside it. *)
Theorem audio_url_is_stated_by_the_page (w : world) (message_url : string)
    (st st' : state) (d : MessageDetails) :
  get_message_details w message_url st = (Ok (Some d), st') ->
  exists soup,
    http_get w message_url = inr soup /\ stated_by_player soup (audio_url d).
Proof.
  intros Hrun. apply get_message_details_extracted in Hrun as [<- Hext].
  destruct Hext as (soup & Hget & _ & Haudio & _). exists soup.
  split; [done|]. by apply find_audio_url_stated.
Qed.

Lemma audio_url_is_stated_by_the_page_witness :
  exists d,
    fst (get_message_details (Sample.site []) Sample.undated_url initial_state) = Ok (Some d)
    /\ audio_url d = Sample.undated_audio
    /\ stated_by_player Sample.undated_page (audio_url d).
Proof.
  destruct (get_message_details (Sample.site []) Sample.undated_url initial_state)
    as [[[d|]|e] st'] eqn:Hrun; try (vm_compute in Hrun; discriminate Hrun).
  exists d. split; [reflexivity|]. split.
  - vm_compute in Hrun. by injection Hrun as <- _.
  - destruct (audio_url_is_stated_by_the_page _ _ _ _ _ Hrun) as (soup & Hget & Hstated).
    vm_compute in Hget. by injection Hget as <-.
Defined.

Lemma get_text_strip_trimmed (n : Bs4.node) : trimmed (Bs4.get_text_strip n).
Proof.
  unfold Bs4.get_text_strip.
  induction (Bs4.descendants (Bs4.children_of n)) as [|d l IH]; [done|].
  cbn [omap list_omap]. destruct d as [s|]; [|exact IH].
  destruct (Str.strip s) as [|c t] eqn:Hs; [exact IH|].
  cbn [fold_right]. apply trimmed_app; [done| |exact IH].
  rewrite <- Hs. apply trimmed_strip.
Qed.

(** X7. The title of a record has no white space at its ends: [strip]
    leaves it as it is. *)
Theorem record_title_is_trimmed (w : world) (message_url : string) (st st' : state)
    (d : MessageDetails) :
  get_message_details w message_url st = (Ok (Some d), st') ->
  Str.strip (title d) = title d.
Proof.
  intros Hrun. apply get_message_details_extracted in Hrun as [_ Hext].
  destruct Hext as (soup & _ & -> & _).
  assert (trimmed (title_of soup)) as [Hl Hr].
  { unfold title_of. destruct (Bs4.find "h1" soup); [apply get_text_strip_trimmed|done]. }
  unfold Str.strip. by rewrite Hl, Hr.
Qed.

Lemma record_title_is_trimmed_witness :
  exists d,
    fst (get_message_details (Sample.site []) Sample.grace_url initial_state) = Ok (Some d)
    /\ title d = "Grace"%string /\ Str.strip (title d) = title d.
Proof.
  destruct (get_message_details (Sample.site []) Sample.grace_url initial_state)
    as [[[d|]|e] st'] eqn:Hrun; try (vm_compute in Hrun; discriminate Hrun).
  exists d. split; [reflexivity|]. split.
  - vm_compute in Hrun. by injection Hrun as <- _.
  - exact (record_title_is_trimmed _ _ _ _ _ Hrun).
Defined.

Lemma extract_speaker_some (f : string) : exists s, extract_speaker f = Some s.
Proof.
  unfold extract_speaker. cbv zeta.
  destruct (Str.contains " - " (Urllib.unquote f)) eqn:Hc; [|by eexists].
  apply split_length_contains in Hc; [|done].
  destruct (Nat.ltb_spec 1 (length (Str.split " - " (Urllib.unquote f)))); [by eexists|lia].
Qed.

(** X8. Every record has a speaker: the test [len(parts) > 1] of line
    103 never fails, the key ['speaker'] is always set, and the
    description never falls back on "Unknown". *)
Theorem speaker_is_always_set (w : world) (message_url : string) (st st' : state)
    (d : MessageDetails) :
  get_message_details w message_url st = (Ok (Some d), st') ->
  exists s,
    speaker d = Some s
    /\ description d = ("Message by " +:+ s +:+ " on " +:+ Datetime.strftime_BdY (date d))%string.
Proof.
  intros Hrun. apply get_message_details_extracted in Hrun as [_ Hext].
  destruct Hext as (soup & _ & _ & _ & Hsp & Hdesc & _).
  destruct (extract_speaker_some (filename_of (audio_url d))) as [s Hs].
  exists s. rewrite Hdesc, Hsp, Hs. done.
Qed.

Lemma speaker_is_always_set_witness :
  exists d s,
    fst (get_message_details (Sample.site []) Sample.hope_url initial_state) = Ok (Some d)
    /\ speaker d = Some s
    /\ description d
       = ("Message by " +:+ s +:+ " on " +:+ Datetime.strftime_BdY (date d))%string.
Proof.
  destruct (get_message_details (Sample.site []) Sample.hope_url initial_state)
    as [[[d|]|e] st'] eqn:Hrun; try (vm_compute in Hrun; discriminate Hrun).
  destruct (speaker_is_always_set _ _ _ _ _ Hrun) as (s & Hs & Hd).
  exists d, s. split; [reflexivity|]. split; [exact Hs|exact Hd].
Defined.

(** X9. The speaker of a record holds no "?" and does not start with
    white space. *)
Theorem speaker_without_query (f s : string) :
  extract_speaker f = Some s ->
  Str.contains "?" s = false /\ Str.lstrip s = s.
Proof.
  unfold extract_speaker. cbv zeta.
  destruct (Str.contains " - " (Urllib.unquote f)); [|by intros [= <-]].
  destruct (Nat.ltb 1 _); [|done]. intros [= <-].
  set (t := Str.replace ".mp3" "" (Str.last_piece (Str.split " - " (Urllib.unquote f)))).
  destruct (first_piece_char "?" (Str.strip t)) as [Hq [rest Hrest]].
  split; [done|].
  apply (lstrip_prefix _ rest). rewrite <- Hrest. apply lstrip_strip.
Qed.

Lemma speaker_without_query_witness :
  extract_speaker "2025-11-09%20Message%20-%20%20Jane%20Doe%20?ver=2" = Some "Jane Doe "%string
  /\ Str.contains "?" "Jane Doe " = false /\ Str.lstrip "Jane Doe " = "Jane Doe "%string.
Proof.
  split; [reflexivity|].
  apply (speaker_without_query "2025-11-09%20Message%20-%20%20Jane%20Doe%20?ver=2").
  reflexivity.
Defined.

(** The separator " - " does not start inside a text that holds no " -",
    whatever follows it after a space. *)
Lemma no_separator_before (c : ascii) (p rest : string) :
  Str.contains " -" (String c p) = false ->
  Str.startswith (String c p +:+ " - " +:+ rest) " - " = false.
Proof.
  cbn [Str.contains]. intros [Hs _]%orb_false_iff.
  rewrite string_app_cons. cbn [Str.startswith] in Hs |- *.
  destruct (Ascii.eqb " " c); [|done]. cbn [andb] in Hs |- *.
  destruct p as [|c2 p]; [done|].
  rewrite string_app_cons. rewrite andb_true_r in Hs. by rewrite Hs.
Qed.

(** A text that holds no " -" and is followed by " - " is the first piece
    of the cut. *)
Lemma split_at_separator (pre rest : string) :
  Str.contains " -" pre = false ->
  Str.split " - " (pre +:+ " - " +:+ rest) = pre :: Str.split " - " rest.
Proof.
  unfold Str.split. induction pre as [|c pre IH]; intros Hpre.
  - rewrite string_app_nil_l. reflexivity.
  - pose proof (no_separator_before c pre rest Hpre) as Hs.
    rewrite string_app_cons in Hs |- *. cbn [Str.split_from]. rewrite Hs.
    by rewrite (IH (contains_tail _ _ _ Hpre)).
Qed.

(** The extension does not start before its place in a name that does not
    hold it. *)
Lemma extension_not_before (c : ascii) (n : string) :
  Str.startswith (String c n) ".mp3" = false ->
  Str.startswith (String c n +:+ ".mp3") ".mp3" = false.
Proof.
  destruct n as [|c2 [|c3 [|c4 n]]]; rewrite ?string_app_cons, ?string_app_nil_l;
    cbn [Str.startswith]; rewrite ?andb_true_r, ?andb_false_r; intros Hs.
  - by destruct (Ascii.eqb "." c).
  - destruct (Ascii.eqb "." c); [|done]. destruct (Ascii.eqb_spec "m" c2) as [<-|]; done.
  - destruct (Ascii.eqb "." c); [|done]. destruct (Ascii.eqb "m" c2); [|done].
    destruct (Ascii.eqb_spec "p" c3) as [<-|]; done.
  - done.
Qed.

Lemma replace_extension (name : string) :
  Str.contains ".mp3" name = false ->
  Str.replace ".mp3" "" (name +:+ ".mp3") = name.
Proof.
  unfold Str.replace. induction name as [|c n IH]; intros Hn; [reflexivity|].
  assert (Str.startswith (String c n) ".mp3" = false) as Hs.
  { cbn [Str.contains] in Hn. by apply orb_false_iff in Hn as [? _]. }
  apply extension_not_before in Hs. rewrite string_app_cons in Hs |- *.
  cbn [Str.replace_from]. rewrite Hs. by rewrite (IH (contains_tail _ _ _ Hn)).
Qed.

(** The separator " - " does not occur in a name followed by the
    extension when it does not occur in the name. *)
Lemma no_separator_in_file (name : string) :
  Str.contains " - " name = false -> Str.contains " - " (name +:+ ".mp3") = false.
Proof.
  induction name as [|c n IH]; intros Hn; [reflexivity|].
  rewrite string_app_cons. cbn [Str.contains] in Hn |- *.
  apply orb_false_iff in Hn as [Hs Hn]. rewrite (IH Hn), orb_false_r.
  revert Hs. clear.
  destruct n as [|c2 [|c3 n]]; rewrite ?string_app_cons, ?string_app_nil_l;
    cbn [Str.startswith]; rewrite ?andb_true_r, ?andb_false_r; intros Hs; try done.
  all: destruct (Ascii.eqb " " c); [|done]; by destruct (Ascii.eqb "-" c2).
Qed.

(** X10. On a file name that decodes to [pre - name.mp3], where [pre]
    holds no " -" and [name] holds neither the separator " - ", nor the
    extension, nor "?", nor white space at its ends, the speaker is
    [name]. *)
Theorem speaker_of_separated_name (f pre name : string) :
  Urllib.unquote f = (pre +:+ " - " +:+ name +:+ ".mp3")%string ->
  Str.contains " -" pre = false ->
  Str.contains " - " name = false ->
  Str.contains ".mp3" name = false ->
  Str.contains "?" name = false ->
  Str.strip name = name ->
  extract_speaker f = Some name.
Proof.
  intros Hf Hpre Hsep Hext Hq Hstrip. unfold extract_speaker. cbv zeta.
  rewrite Hf, contains_app, split_at_separator by done.
  rewrite (split_without_separator _ _ (no_separator_in_file name Hsep)).
  change (Str.last_piece [pre; name +:+ ".mp3"]) with (name +:+ ".mp3")%string.
  cbn [length Nat.ltb Nat.leb].
  rewrite replace_extension, Hstrip, split_without_separator by done. done.
Qed.

Lemma speaker_of_separated_name_witness :
  Urllib.unquote "2025-11-09%20Message%20-%20Jane%20Doe.mp3"
  = ("2025-11-09 Message" +:+ " - " +:+ "Jane Doe" +:+ ".mp3")%string
  /\ extract_speaker "2025-11-09%20Message%20-%20Jane%20Doe.mp3" = Some "Jane Doe"%string.
Proof.
  split; [reflexivity|].
  apply (speaker_of_separated_name _ "2025-11-09 Message" "Jane Doe"); reflexivity.
Defined.

Lemma isoformat_of_date (m : string) (dt : Datetime.datetime) :
  is_date m -> calendar_date m = Some dt -> Datetime.isoformat_date dt = m.
Proof.
  unfold is_date, calendar_date. intros Hs.
  pose proof (string_of_list_ascii_of_string m) as Hm.
  destruct (list_ascii_of_string m) as [|y1 [|y2 [|y3 [|y4 [|h1 [|m1 [|m2 [|h2 [|d1 [|d2 [|? ?]]]]]]]]]]];
    try discriminate Hs.
  simpl in Hm. subst m. unfold Re.date_shape in Hs.
  do 9 (apply andb_true_iff in Hs as [Hs ?]).
  repeat match goal with H : Ascii.eqb _ _ = true |- _ => apply Ascii.eqb_eq in H; subst end.
  destruct (_ && _); [|done]. intros [= <-].
  unfold Datetime.isoformat_date, Datetime.midnight. cbn [Datetime.year Datetime.month Datetime.day].
  rewrite pad4_digits, !pad2_digits by done. reflexivity.
Qed.



Lemma search_date_here (s m : string) :
  Re.match_date s = Some m -> Re.search_date s = Some m.
Proof.
  intros Hm. destruct s as [|c s]; [by vm_compute in Hm|].
  cbn [Re.search_date]. by rewrite Hm.
Qed.

(** X12. Conversely, the text that shows a day of the calendar (year 1
    to 9999) is found by the date pattern and read back as that day by
    lines 91-93, without a look at the clock. *)
Theorem extract_date_of_shown_date (w : world) (dt : Datetime.datetime) (st : state) :
  calendar_day dt ->
  Re.search_date (Datetime.isoformat_date dt) = Some (Datetime.isoformat_date dt)
  /\ extract_date w (Datetime.isoformat_date dt) st = (Ok dt, st).
Proof.
  intros (Hy & Hm & Hd & Hdt). pose proof (days_in_month_le (Datetime.year dt) (Datetime.month dt)).
  destruct (four_digits (Datetime.year dt)) as (y1 & y2 & y3 & y4 & ? & ? & ? & ? & Hyear); [lia|].
  destruct (two_digits (Datetime.month dt)) as (m1 & m2 & ? & ? & Hmonth); [lia|].
  destruct (two_digits (Datetime.day dt)) as (d1 & d2 & ? & ? & Hday); [lia|].
  set (m := string_of_list_ascii [y1; y2; y3; y4; "-"%char; m1; m2; "-"%char; d1; d2]).
  assert (is_date m) as Hshape.
  { unfold is_date, m. rewrite list_ascii_of_string_of_list_ascii. unfold Re.date_shape.
    repeat match goal with H : Str.isdigit _ = true |- _ => rewrite H end. done. }
  assert (calendar_date m = Some dt) as Hcal.
  { unfold calendar_date, m. rewrite list_ascii_of_string_of_list_ascii.
    rewrite Hyear, Hmonth, Hday.
    repeat match goal with
      | |- context [?a <=? ?b] => destruct (Z.leb_spec a b); [|lia]
      end. simpl. by rewrite <- Hdt. }
  rewrite (isoformat_of_date m dt Hshape Hcal).
  assert (Re.search_date m = Some m) as Hs.
  { assert (Re.match_date m = Some m) as Hmatch.
    { apply match_date_spec. split; [done|]. exists ""%string. by rewrite string_app_nil_r. }
    by apply search_date_here. }
  split; [done|]. unfold extract_date. rewrite Hs.
  pose proof (strptime_of_date m Hshape) as Hp. rewrite Hcal in Hp. unfold lift. by rewrite Hp.
Qed.

Lemma extract_date_of_shown_date_witness :
  calendar_day (Datetime.midnight 2024 2 29)
  /\ Datetime.isoformat_date (Datetime.midnight 2024 2 29) = "2024-02-29"%string
  /\ extract_date (Sample.site []) "2024-02-29" initial_state
     = (Ok (Datetime.midnight 2024 2 29), initial_state).
Proof.
  assert (calendar_day (Datetime.midnight 2024 2 29)) as Hday.
  { unfold calendar_day; simpl. repeat split; try lia. by vm_compute. }
  split; [exact Hday|]. split; [reflexivity|].
  exact (proj2 (extract_date_of_shown_date (Sample.site []) _ initial_state Hday)).
Defined.

(** X13. What an extraction leaves behind: exactly one request, to the
    URL given, and no file; a line on the console exactly when it returns
    nothing; a reading of the clock exactly when it returns a record whose
    file name shows no date, and that reading is the date of the
    record. *)
Theorem get_message_details_footprint (w : world) (message_url : string) (st : state) :
  requests (snd (get_message_details w message_url st)) = requests st ++ [message_url]
  /\ files (snd (get_message_details w message_url st)) = files st
  /\ match fst (get_message_details w message_url st) with
     | Ok (Some d) =>
         stdout (snd (get_message_details w message_url st)) = stdout st
         /\ url d = message_url
         /\ match Re.search_date (filename_of (audio_url d)) with
            | Some _ => ticks (snd (get_message_details w message_url st)) = ticks st
            | None =>
                ticks (snd (get_message_details w message_url st)) = S (ticks st)
                /\ date d = clock w (ticks st)
            end
     | Ok None =>
         ticks (snd (get_message_details w message_url st)) = ticks st
         /\ exists line,
              stdout (snd (get_message_details w message_url st)) = stdout st ++ [line]
     | Raise _ =>
         ticks (snd (get_message_details w message_url st)) = ticks st
         /\ stdout (snd (get_message_details w message_url st)) = stdout st
     end.
Proof.
  rewrite get_message_details_cases.
  destruct (http_get w message_url) as [e|soup]; [by repeat split; eauto|].
  destruct (find_audio_url soup) as [[audio|]|e]; [|by repeat split; eauto|done].
  cbv zeta. destruct (Re.search_date (filename_of audio)) as [m|] eqn:Hm.
  - destruct (Datetime.strptime_Ymd m); [|done]. simpl. by rewrite Hm.
  - simpl. by rewrite Hm.
Qed.

(** ** The console and the clock of the feed builder *)

Lemma accepted_refusal (w : world) (msg : MessageDetails) :
  accepted w msg = match refusal w msg with Some _ => false | None => true end.
Proof.
  unfold accepted, refusal. destruct (Media_refuses w (audio_url msg)); [done|].
  by destruct (speaker msg).
Qed.

Lemma error_lines_cons (w : world) (msg : MessageDetails)
    (rest : list (option MessageDetails)) :
  error_lines w (Some msg :: rest) =
  match refusal w msg with
  | Some e =>
      ("Error adding episode " +:+ title msg +:+ ": " +:+ exn_str e)%string
      :: error_lines w rest
  | None => error_lines w rest
  end.
Proof. unfold error_lines. simpl. by destruct (refusal w msg). Qed.

Lemma readings_cons (w : world) (msg : MessageDetails)
    (rest : list (option MessageDetails)) :
  readings w (Some msg :: rest) =
  match Media_refuses w (audio_url msg) with
  | Some _ => readings w rest
  | None => S (readings w rest)
  end.
Proof. unfold readings. simpl. by destruct (Media_refuses w (audio_url msg)). Qed.

Lemma zone_later (w : world) (t t0 t' : nat) (eps : list Podgen.Episode) :
  (t <= t0)%nat ->
  Forall (fun ep => exists k, (t0 <= k < t')%nat
            /\ snd (Podgen.ep_publication_date ep) = utc_offset w (clock w k)) eps ->
  Forall (fun ep => exists k, (t <= k < t')%nat
            /\ snd (Podgen.ep_publication_date ep) = utc_offset w (clock w k)) eps.
Proof.
  intros Ht Hall. eapply Forall_impl; [exact Hall|].
  intros ep (k & Hk & Hoff). exists k. split; [lia|done].
Qed.

Lemma add_episodes_run (w : world) (messages : list (option MessageDetails))
    (p : Podgen.Podcast) (st : state) :
  exists eps st',
    add_episodes w messages p st = (Ok (extended p eps), st')
    /\ loop_footprint w messages st st' eps.
Proof.
  revert p st; induction messages as [|[msg|] rest IH]; intros p st.
  - exists [], st. rewrite extended_nil. unfold loop_footprint, error_lines, readings. simpl.
    rewrite app_nil_r. repeat split; try done; lia.
  - cbn [add_episodes]. unfold bind at 1, try_except. rewrite build_episode_cases.
    unfold loop_footprint.
    rewrite publishable_cons_Some, accepted_refusal, error_lines_cons, readings_cons.
    unfold refusal.
    destruct (Media_refuses w (audio_url msg)) as [e|] eqn:Hmedia.
    { unfold bind at 1. cbn [print ret].
      destruct (IH p (printed ("Error adding episode " +:+ title msg +:+ ": " +:+ exn_str e) st))
        as (eps & st' & -> & Hout & Hticks & Hlen & Hzone).
      exists eps, st'. simpl in Hout, Hticks, Hzone. rewrite <- app_assoc in Hout.
      by repeat split. }
    assert (forall e,
              exists eps st',
                add_episodes w rest p
                  (printed ("Error adding episode " +:+ title msg +:+ ": " +:+ exn_str e)
                     (ticked st)) = (Ok (extended p eps), st')
                /\ stdout st' = stdout st
                     ++ ("Error adding episode " +:+ title msg +:+ ": " +:+ exn_str e)%string
                     :: error_lines w rest
                /\ ticks st' = (ticks st + S (readings w rest))%nat
                /\ length eps = length (publishable w rest)
                /\ Forall (fun ep => exists k, (ticks st <= k < ticks st')%nat
                     /\ snd (Podgen.ep_publication_date ep) = utc_offset w (clock w k)) eps)
      as Hrefused.
    { intros e.
      destruct (IH p (printed ("Error adding episode " +:+ title msg +:+ ": " +:+ exn_str e)
                        (ticked st))) as (eps & st' & -> & Hout & Hticks & Hlen & Hzone).
      exists eps, st'. simpl in Hout, Hticks, Hzone. rewrite <- app_assoc in Hout.
      repeat split; try done; [lia|]. apply (zone_later w _ (S (ticks st))); [lia|done]. }
    assert (exists eps st',
              add_episodes w rest
                (extended p [episode_of (utc_offset w (clock w (ticks st))) msg]) (ticked st)
              = (Ok (extended p (episode_of (utc_offset w (clock w (ticks st))) msg :: eps)), st')
              /\ stdout st' = stdout st ++ error_lines w rest
              /\ ticks st' = (ticks st + S (readings w rest))%nat
              /\ length (episode_of (utc_offset w (clock w (ticks st))) msg :: eps)
                 = length (msg :: publishable w rest)
              /\ Forall (fun ep => exists k, (ticks st <= k < ticks st')%nat
                   /\ snd (Podgen.ep_publication_date ep) = utc_offset w (clock w k))
                   (episode_of (utc_offset w (clock w (ticks st))) msg :: eps))
      as (eps & st' & Hrun & Haccepted).
    { destruct (IH (extended p [episode_of (utc_offset w (clock w (ticks st))) msg])
                  (ticked st)) as (eps & st' & -> & Hout & Hticks & Hlen & Hzone).
      exists eps, st'. rewrite extended_app. simpl in Hout, Hticks, Hzone.
      repeat split; try done; [lia|simpl; lia|].
      constructor; [exists (ticks st); split; [lia|done]|].
      apply (zone_later w _ (S (ticks st))); [lia|done]. }
    destruct (speaker msg) as [s|].
    + destruct (Person_refuses w s) as [e|].
      * unfold bind at 1. cbn [print ret]. by apply Hrefused.
      * rewrite Hrun. by eexists _, _.
    + rewrite Hrun. by eexists _, _.
  - cbn [add_episodes]. unfold loop_footprint. rewrite publishable_cons_None.
    destruct (IH p st) as (eps & st' & Hrun & ?). by exists eps, st'.
Qed.



(** The run of the feed builder: its loop, then [feed_end]. *)
Lemma generate_feed_run (w : world) (messages : list (option MessageDetails))
    (st : state) :
  exists eps st1,
    add_episodes w messages new_podcast st = (Ok (extended new_podcast eps), st1)
    /\ loop_footprint w messages st st1 eps
    /\ files st1 = files st
    /\ generate_feed w messages st = feed_end w (extended new_podcast eps) st1.
Proof.
  destruct (add_episodes_run w messages new_podcast st) as (eps & st1 & Hrun & Hloop).
  destruct (add_episodes_spec w messages new_podcast st)
    as (eps' & st1' & Hrun' & _ & _ & Hfiles).
  rewrite Hrun in Hrun'. injection Hrun' as _ <-.
  exists eps, st1. split; [done|]. split; [done|]. split; [done|].
  unfold generate_feed, bind. rewrite Hrun. unfold rss_file, feed_end, print.
  by destruct (rss_refuses w (extended new_podcast eps)).
Qed.


Lemma readings_le (w : world) (messages : list (option MessageDetails)) :
  (readings w messages <= length messages)%nat.
Proof.
  induction messages as [|[msg|] rest IH]; [done| |].
  - rewrite readings_cons. destruct (Media_refuses w (audio_url msg)); cbn [length]; lia.
  - change (readings w (None :: rest)) with (readings w rest). cbn [length]. lia.
Qed.

(** X15. The zone of a publication date is the local zone as it is when
    the feed is built, not as it is on the date of the message: the offset
    of each episode of the feed that the loop builds is the one given for
    a reading of the clock made during the build.  The build reads the
    clock once for each message whose media the library accepts.  The
    feed built is the one in the file when the library serialises it;
    when it fails to, the builder raises and no file is written. *)
Theorem publication_zone_is_read_at_build (w : world)
    (messages : list (option MessageDetails)) (st : state) :
  ticks (snd (generate_feed w messages st)) = (ticks st + readings w messages)%nat
  /\ (readings w messages <= length messages)%nat
  /\ exists p st1,
       add_episodes w messages new_podcast st = (Ok p, st1)
       /\ Forall (fun ep =>
                    exists k, (ticks st <= k < ticks st + readings w messages)%nat
                      /\ snd (Podgen.ep_publication_date ep) = utc_offset w (clock w k))
            (Podgen.episodes p)
       /\ match rss_refuses w p with
          | None => files (snd (generate_feed w messages st)) !! RSS_FILENAME = Some p
          | Some e =>
              fst (generate_feed w messages st) = Raise e
              /\ files (snd (generate_feed w messages st)) = files st
          end.
Proof.
  destruct (generate_feed_run w messages st)
    as (eps & st1 & Hrun & (_ & Hticks & _ & Hzone) & Hfiles & ->).
  split; [|split; [apply readings_le|]].
  { unfold feed_end. by destruct (rss_refuses w (extended new_podcast eps)). }
  exists (extended new_podcast eps), st1. split; [done|]. split.
  { simpl. by rewrite <- Hticks. }
  unfold feed_end. destruct (rss_refuses w (extended new_podcast eps)); cbn [fst snd].
  - done.
  - apply lookup_insert_eq.
Qed.

(** ** The runs of the orchestrator *)

(** X16. When the listing cannot be fetched, [main] ends without error
    after four lines on the console - the start, the error of the fetch,
    "Found 0 potential message links." and the notice that there is
    nothing to do - and one request; the clock is not read and no file is
    written. *)
Theorem main_when_listing_fails (w : world) (e : string) (st : state) :
  http_get w BASE_URL = inl e ->
  main w st
  = (Ok tt,
     mk_state
       (stdout st ++ ["Scraping messages...";
                      "Error fetching " +:+ BASE_URL +:+ ": " +:+ e;
                      "Found 0 potential message links.";
                      "No messages found to generate feed."]%string)
       (requests st ++ [BASE_URL]) (ticks st) (files st)).
Proof.
  intros Hget. unfold main, scrape_messages, get_soup, bind, http_request, print, ret.
  rewrite Hget. cbn [process_links firstn length ret]. unfold printed, requested. simpl.
  by rewrite <- !app_assoc.
Qed.

Lemma main_when_listing_fails_witness :
  http_get Sample.offline BASE_URL
  = inl "ConnectionError: no route to https://www.westminster.org/messages/"%string
  /\ main Sample.offline initial_state
     = (Ok tt,
        mk_state
          ["Scraping messages...";
           "Error fetching https://www.westminster.org/messages/: ConnectionError: no route to https://www.westminster.org/messages/";
           "Found 0 potential message links.";
           "No messages found to generate feed."]%string
          [BASE_URL] 0 ∅).
Proof.
  split; [reflexivity|].
  exact (main_when_listing_fails Sample.offline _ initial_state eq_refl).
Defined.





Lemma process_links_outcome (w : world) (links : list MessageLink)
    (acc : list MessageDetails) (st : state) :
  match first_error w (List.map link_url links) with
  | Some e => fst (process_links w links acc st) = Raise e
  | None => exists dl, fst (process_links w links acc st) = Ok dl
  end.
Proof.
  revert acc st; induction links as [|link rest IH]; intros acc st; [by eexists|].
  rewrite process_links_step. set (st1 := printed _ st).
  pose proof (get_message_details_outcome w (link_url link) st1) as Hout.
  cbn [List.map first_error].
  destruct (extraction_error w (link_url link)) as [e|].
  - destruct (get_message_details w (link_url link) st1) as [r st2]. simpl in Hout. by subst r.
  - destruct (extractable w (link_url link)).
    + destruct Hout as (d & Hd & _).
      destruct (get_message_details w (link_url link) st1) as [r st2]. simpl in Hd. subst r.
      apply IH.
    + destruct (get_message_details w (link_url link) st1) as [r st2]. simpl in Hout. subst r.
      apply IH.
Qed.

(** How [main] ends, by the three places from which an exception leaves
    it. *)
Lemma main_outcome (w : world) (st : state) :
  match scrape_error w with
  | Some e => fst (main w st) = Raise e
  | None =>
      match first_error w (List.map link_url (List.firstn 20 (listing_of w))) with
      | Some e => fst (main w st) = Raise e
      | None =>
          exists dl st1,
            collect_details w st = (Ok dl, st1)
            /\ match dl with
               | [] => fst (main w st) = Ok tt
               | _ :: _ =>
                   exists p st2,
                     add_episodes w (List.map Some dl) new_podcast st1 = (Ok p, st2)
                     /\ fst (main w st)
                        = match rss_refuses w p with
                          | Some e => Raise e
                          | None => Ok tt
                          end
               end
      end
  end.
Proof.
  rewrite main_split.
  destruct (collect_details_run w st) as (st0 & _ & _ & ->).
  destruct (scrape_error w) as [e|]; [done|].
  pose proof (process_links_outcome w (List.firstn 20 (listing_of w)) [] st0) as Hout.
  destruct (first_error w (List.map link_url (List.firstn 20 (listing_of w)))) as [e|].
  - destruct (process_links w (List.firstn 20 (listing_of w)) [] st0) as [r st1].
    simpl in Hout. by subst r.
  - destruct Hout as [dl Hdl].
    destruct (process_links w (List.firstn 20 (listing_of w)) [] st0) as [r st1].
    simpl in Hdl. subst r. exists dl, st1. split; [done|].
    destruct dl as [|d dl]; [done|].
    destruct (generate_feed_spec w (List.map Some (d :: dl)) st1)
      as (eps & st2 & Hadd & -> & _).
    exists (extended new_podcast eps), st2. split; [done|].
    unfold feed_end. by destruct (rss_refuses w (extended new_podcast eps)).
Qed.

(** X18. [main] raises in three cases, and in no other: when [urljoin]
    raises in the scraper, with its exception; else when the extraction
    of one of the first 20 links raises, with the exception of the first
    of these; else when the loop has collected a record and the library
    fails to serialise the feed that the builder makes of the records,
    with the exception of [rss_file].  Otherwise it ends without
    error. *)
Theorem main_raises_the_first_exception (w : world) (st : state) :
  match scrape_error w with
  | Some e => fst (main w st) = Raise e
  | None =>
      match first_error w (List.map link_url (List.firstn 20 (listing_of w))) with
      | Some e => fst (main w st) = Raise e
      | None =>
          exists dl st1,
            collect_details w st = (Ok dl, st1)
            /\ match dl with
               | [] => fst (main w st) = Ok tt
               | _ :: _ =>
                   exists p st2,
                     add_episodes w (List.map Some dl) new_podcast st1 = (Ok p, st2)
                     /\ fst (main w st)
                        = match rss_refuses w p with
                          | Some e => Raise e
                          | None => Ok tt
                          end
               end
      end
  end.
Proof. apply main_outcome. Qed.

Lemma strptime_Ymd_raises (m : string) (e : exn) :
  Datetime.strptime_Ymd m = Raise e -> exists msg, e = ValueError msg.
Proof.
  unfold Datetime.strptime_Ymd.
  destruct (Datetime.match_Ymd m) as [[[[y mo] d] rest]|]; [|intros [= <-]; by eexists].
  destruct rest; [|intros [= <-]; by eexists].
  destruct (y <? 1); [intros [= <-]; by eexists|].
  destruct (Datetime.days_in_month y mo <? d); [intros [= <-]; by eexists|done].
Qed.

Lemma find_audio_url_raises (soup : Bs4.document) (e : exn) :
  find_audio_url soup = Raise e -> e = KeyError "src" \/ e = KeyError "href".
Proof.
  rewrite find_audio_url_priority.
  destruct (Bs4.find_class "audio" "wp-audio-shortcode" soup) as [audio_tag|]; [|done].
  destruct (Bs4.get audio_tag "src") as [[|c v]|]; [|done|].
  all: destruct (Bs4.find "source" (Bs4.children_of audio_tag)) as [source|];
    [destruct (Bs4.get source "src"); [done|intros [= <-]; tauto]|].
  all: destruct (Bs4.find "a" (Bs4.children_of audio_tag)) as [a|]; [|done].
  all: destruct (Bs4.get a "href"); [done|intros [= <-]; tauto].
Qed.

Lemma extraction_error_class (w : world) (u : string) (e : exn) :
  extraction_error w u = Some e ->
  (exists msg, e = ValueError msg) \/ e = KeyError "src" \/ e = KeyError "href".
Proof.
  unfold extraction_error. destruct (http_get w u) as [?|soup]; [done|].
  destruct (find_audio_url soup) as [[audio|]|e'] eqn:Hfind; [|done|].
  - destruct (Re.search_date (filename_of audio)) as [m|]; [|done].
    destruct (Datetime.strptime_Ymd m) eqn:Hp; [done|]. intros [= ->].
    left. by apply (strptime_Ymd_raises m).
  - intros [= ->]. right. by apply (find_audio_url_raises soup).
Qed.

Lemma first_error_class (w : world) (urls : list string) (e : exn) :
  first_error w urls = Some e ->
  exists u, u ∈ urls /\ extraction_error w u = Some e.
Proof.
  induction urls as [|u rest IH]; [done|]. simpl.
  destruct (extraction_error w u) as [e'|] eqn:Hu.
  - intros [= ->]. exists u. split; [set_solver|done].
  - intros (u' & Hin & He)%IH. exists u'. split; [set_solver|done].
Qed.

(** X19. An exception that leaves [main] comes from one of three
    places: from [urljoin] in the scraper; from the extraction of one of
    the first 20 links, and then it is a [ValueError] or the [KeyError]
    of a missing [src] or [href]; or from [rss_file], for the feed that
    the builder has made of the records collected.  What [Media] and
    [Person] raise in the loop of the feed builder never leaves it.  The
    run has then written no file. *)
Theorem exceptions_that_leave_main (w : world) (st : state) (e : exn) :
  fst (main w st) = Raise e ->
  files (snd (main w st)) = files st
  /\ (scrape_error w = Some e
      \/ ((exists u, u ∈ List.map link_url (List.firstn 20 (listing_of w))
                     /\ extraction_error w u = Some e)
          /\ ((exists msg, e = ValueError msg) \/ e = KeyError "src" \/ e = KeyError "href"))
      \/ (exists dl st1 p st2,
            collect_details w st = (Ok dl, st1)
            /\ add_episodes w (List.map Some dl) new_podcast st1 = (Ok p, st2)
            /\ rss_refuses w p = Some e)).
Proof.
  intros Hraise. split.
  - pose proof (main_cases w st) as Hcases.
    pose proof (collect_details_files w st) as Hfiles1.
    destruct (collect_details w st) as [[[|d dl]|e'] st1]; try tauto.
    destruct Hcases as [Hmain _]. rewrite Hmain in Hraise |- *. simpl in Hfiles1.
    destruct (generate_feed_files w (List.map Some (d :: dl)) st1) as (eps & _ & Hend).
    destruct (rss_refuses w (extended new_podcast eps)).
    + destruct Hend as [_ ->]. done.
    + destruct Hend as [Hok _]. congruence.
  - pose proof (main_outcome w st) as Hout.
    destruct (scrape_error w) as [e'|]; [left; congruence|]. right.
    destruct (first_error w (List.map link_url (List.firstn 20 (listing_of w))))
      as [e'|] eqn:Herr.
    + left. assert (e' = e) as -> by congruence.
      apply first_error_class in Herr as (u & Hin & Hu).
      split; [by exists u|by apply (extraction_error_class w u)].
    + right. destruct Hout as (dl & st1 & Hcollect & Hend).
      destruct dl as [|d dl]; [congruence|].
      destruct Hend as (p & st2 & Hadd & Hmain).
      exists (d :: dl), st1, p, st2. split; [done|]. split; [done|].
      destruct (rss_refuses w p); congruence.
Qed.

Lemma exceptions_that_leave_main_witness :
  fst (main (Sample.site ["/mediacast/hope/"; "/mediacast/nohref/";
                          "/mediacast/baddate/"]%string) initial_state)
  = Raise (KeyError "href")
  /\ files (snd (main (Sample.site ["/mediacast/hope/"; "/mediacast/nohref/";
                                    "/mediacast/baddate/"]%string) initial_state)) = ∅.
Proof.
  assert (fst (main (Sample.site ["/mediacast/hope/"; "/mediacast/nohref/";
                                  "/mediacast/baddate/"]%string) initial_state)
          = Raise (KeyError "href")) as Hraise by (by vm_compute).
  split; [exact Hraise|].
  exact (proj1 (exceptions_that_leave_main _ _ _ Hraise)).
Defined.

Lemma omap_id_Some {A} (l : list A) : omap id (List.map Some l) = l.
Proof. induction l as [|x l IH]; [done|]. simpl. f_equal. exact IH. Qed.

(** The records that the loop collects: those of some of the links, in
    the order of the links, each made from the page of its link. *)
Lemma process_links_collected (w : world) (links : list MessageLink)
    (acc dl : list MessageDetails) (st st' : state) :
  process_links w links acc st = (Ok dl, st') ->
  exists dl',
    dl = acc ++ dl'
    /\ List.map url dl' `sublist_of` List.map link_url links
    /\ Forall (extracted_from w) dl'.
Proof.
  revert acc st; induction links as [|link rest IH]; intros acc st.
  - intros [= <- <-]. exists []. rewrite app_nil_r. split; [done|]. split; constructor.
  - rewrite process_links_step. set (st1 := printed _ st).
    destruct (get_message_details w (link_url link) st1) as [[[d|]|e] st2] eqn:Hd; [| |done].
    + intros (dl' & -> & Hsub & Hext)%IH.
      apply get_message_details_extracted in Hd as [Hurl Hd].
      exists (d :: dl'). rewrite <- app_assoc. split; [done|]. simpl. rewrite Hurl.
      split; [by apply sublist_skip|by constructor].
    + intros (dl' & -> & Hsub & Hext)%IH. exists dl'. split; [done|].
      split; [by apply sublist_cons|done].
Qed.

Lemma filter_sublist {A} (f : A -> bool) (l : list A) : List.filter f l `sublist_of` l.
Proof.
  induction l as [|x l IH]; simpl; [constructor|].
  destruct (f x); by constructor.
Qed.

Lemma map_sublist {A B} (f : A -> B) (l k : list A) :
  l `sublist_of` k -> List.map f l `sublist_of` List.map f k.
Proof. induction 1; simpl; by constructor. Qed.

Lemma built_from_links (eps : list Podgen.Episode) (msgs : list MessageDetails) :
  Forall2 built_from eps msgs -> List.map Podgen.ep_link eps = List.map url msgs.
Proof.
  induction 1 as [|ep msg eps msgs [offset ->] _ IH]; [done|]. simpl. by rewrite IH.
Qed.

(** The feed that a run writes into a place where there was none. *)
Lemma main_feed (w : world) (st : state) (p : Podgen.Podcast) :
  files st !! RSS_FILENAME = None ->
  files (snd (main w st)) !! RSS_FILENAME = Some p ->
  exists dl eps,
    Forall (extracted_from w) dl
    /\ List.map url dl `sublist_of` List.map link_url (List.firstn 20 (listing_of w))
    /\ Forall2 built_from eps (List.filter (accepted w) dl)
    /\ p = extended new_podcast eps.
Proof.
  intros Hnone Hfeed. pose proof (main_cases w st) as Hcases.
  pose proof (collect_details_files w st) as Hfiles1.
  destruct (collect_details_run w st) as (st0 & _ & Hfiles0 & Hrun).
  destruct (collect_details w st) as [[[|d dl]|e] st1] eqn:Hcollect.
  - destruct Hcases as [_ Hfiles]. congruence.
  - destruct Hcases as [Hmain _]. simpl in Hfiles1.
    destruct (generate_feed_files w (List.map Some (d :: dl)) st1) as (eps & Hbuilt & Hend).
    destruct (scrape_error w); [done|].
    symmetry in Hrun. apply process_links_collected in Hrun as (dl' & Hdl & Hsub & Hext).
    simpl in Hdl. subst dl'.
    unfold publishable in Hbuilt. rewrite omap_id_Some in Hbuilt.
    exists (d :: dl), eps. repeat split; try done.
    rewrite Hmain in Hfeed.
    destruct (rss_refuses w (extended new_podcast eps)).
    + destruct Hend as [_ Hw]. rewrite Hw in Hfeed. congruence.
    + destruct Hend as [_ Hw]. rewrite Hw, lookup_insert_eq in Hfeed. congruence.
  - destruct Hcases as [_ Hfiles]. congruence.
Qed.

(** X20. The episodes of a feed that [main] writes where there was none
    follow the listing: their links are among the first 20 links of the
    listing, in the order of the listing, none twice; there are at most
    20 episodes. *)
Theorem feed_links_follow_listing (w : world) (st : state) (p : Podgen.Podcast) :
  files st !! RSS_FILENAME = None ->
  files (snd (main w st)) !! RSS_FILENAME = Some p ->
  List.map Podgen.ep_link (Podgen.episodes p)
    `sublist_of` List.map link_url (List.firstn 20 (listing_of w))
  /\ NoDup (List.map Podgen.ep_link (Podgen.episodes p))
  /\ (length (Podgen.episodes p) <= 20)%nat.
Proof.
  intros Hnone Hfeed.
  destruct (main_feed w st p Hnone Hfeed) as (dl & eps & _ & Hsub & Hbuilt & ->).
  simpl. apply built_from_links in Hbuilt.
  assert (List.map Podgen.ep_link eps
            `sublist_of` List.map link_url (List.firstn 20 (listing_of w))) as Hlinks.
  { rewrite Hbuilt. etransitivity; [|exact Hsub].
    apply map_sublist, filter_sublist. }
  split; [done|]. split.
  - apply (fun H => sublist_NoDup _ _ H Hlinks).
    destruct (listing_of_urls w) as [Hnodup _].
    rewrite <- (List.firstn_skipn 20 (listing_of w)), List.map_app in Hnodup.
    by apply NoDup_app in Hnodup as [? _].
  - apply sublist_length in Hlinks. rewrite !length_map, length_firstn in Hlinks. lia.
Qed.

Lemma feed_links_follow_listing_witness :
  exists p,
    files (snd (main (Sample.site ["/mediacast/hope/"; "/mediacast/silent/";
                                   "/mediacast/grace/"]%string) initial_state))
      !! RSS_FILENAME = Some p
    /\ List.map Podgen.ep_link (Podgen.episodes p) = [Sample.hope_url; Sample.grace_url]
    /\ List.map Podgen.ep_link (Podgen.episodes p)
         `sublist_of`
         List.map link_url
           (List.firstn 20 (listing_of (Sample.site ["/mediacast/hope/"; "/mediacast/silent/";
                                                     "/mediacast/grace/"]%string))).
Proof.
  destruct (files (snd (main (Sample.site ["/mediacast/hope/"; "/mediacast/silent/";
                                           "/mediacast/grace/"]%string) initial_state))
              !! RSS_FILENAME) as [p|] eqn:Hfeed; [|vm_compute in Hfeed; discriminate Hfeed].
  exists p. split; [reflexivity|]. split.
  - vm_compute in Hfeed. by injection Hfeed as <-.
  - exact (proj1 (feed_links_follow_listing _ initial_state p eq_refl Hfeed)).
Defined.

(** X21. Every episode of a feed that [main] writes where there was none
    has exactly one author, the speaker that lines 100-110 read in the
    name of its audio file, and the summary "Message by <speaker> on
    <date>" with the date of its publication. *)
Theorem feed_episode_has_one_author (w : world) (st : state) (p : Podgen.Podcast) :
  files st !! RSS_FILENAME = None ->
  files (snd (main w st)) !! RSS_FILENAME = Some p ->
  Forall episode_credits (Podgen.episodes p).
Proof.
  intros Hnone Hfeed.
  destruct (main_feed w st p Hnone Hfeed) as (dl & eps & Hext & _ & Hbuilt & ->).
  simpl. clear Hfeed.
  assert (Forall (extracted_from w) (List.filter (accepted w) dl)) as Hext'.
  { rewrite Forall_forall in Hext |- *. intros d Hd%list_elem_of_In%filter_In.
    apply Hext, list_elem_of_In. tauto. }
  revert Hbuilt Hext'. generalize (List.filter (accepted w) dl). clear.
  intros msgs Hbuilt. induction Hbuilt as [|ep msg eps msgs [offset ->] _ IH]; [constructor|].
  intros Hext. inversion Hext as [|? ? Hmsg Hrest]; subst. constructor; [|by apply IH].
  destruct Hmsg as (soup & _ & _ & _ & Hsp & Hdesc & _).
  destruct (extract_speaker_some (filename_of (audio_url msg))) as [s Hs].
  exists s. unfold episode_of; simpl. rewrite Hdesc, Hsp, Hs. done.
Qed.

Lemma feed_episode_has_one_author_witness :
  exists p,
    files (snd (main (Sample.site ["/mediacast/grace/"]%string) initial_state))
      !! RSS_FILENAME = Some p
    /\ List.map Podgen.ep_authors (Podgen.episodes p) = [[Podgen.mk_Person "John Roe" None]]
    /\ Forall episode_credits (Podgen.episodes p).
Proof.
  destruct (files (snd (main (Sample.site ["/mediacast/grace/"]%string) initial_state))
              !! RSS_FILENAME) as [p|] eqn:Hfeed; [|vm_compute in Hfeed; discriminate Hfeed].
  exists p. split; [reflexivity|]. split.
  - vm_compute in Hfeed. by injection Hfeed as <-.
  - exact (feed_episode_has_one_author _ initial_state p eq_refl Hfeed).
Defined.

Lemma accepted_extracted (w : world) (d : MessageDetails) :
  extracted_from w d -> accepted w d = library_accepts w (url d).
Proof.
  intros (soup & Hget & _ & Haudio & Hsp & _). unfold accepted, library_accepts.
  by rewrite Hget, Haudio, Hsp.
Qed.

Lemma accepted_urls (w : world) (dl : list MessageDetails) :
  Forall (extracted_from w) dl ->
  List.map url (List.filter (accepted w) dl)
  = List.filter (library_accepts w) (List.map url dl).
Proof.
  induction 1 as [|d dl Hd _ IH]; [done|]. simpl.
  rewrite (accepted_extracted w d Hd). destruct (library_accepts w (url d)); simpl; by rewrite IH.
Qed.

(** X22. When the scraper returns and no extraction among the first 20
    links raises, the feed that the builder hands to [rss_file] holds
    exactly one episode for each of these links whose page gives a record
    that the library accepts, in the order of the listing.  The file
    holds that feed when the library serialises it; when it fails to, the
    run ends with the exception of [rss_file] and no file is written.
    When no link gives a record, the run ends without error and no file
    is written. *)
Theorem feed_of_a_run_without_error (w : world) (st : state) :
  scrape_error w = None ->
  Forall (fun link => extraction_error w (link_url link) = None)
    (List.firstn 20 (listing_of w)) ->
  match List.filter (yields_record w) (List.map link_url (List.firstn 20 (listing_of w))) with
  | [] => fst (main w st) = Ok tt /\ files (snd (main w st)) = files st
  | _ :: _ =>
      exists p,
        List.map Podgen.ep_link (Podgen.episodes p)
        = List.filter (published w) (List.map link_url (List.firstn 20 (listing_of w)))
        /\ match rss_refuses w p with
           | None =>
               fst (main w st) = Ok tt
               /\ files (snd (main w st)) = <[RSS_FILENAME := p]> (files st)
           | Some e =>
               fst (main w st) = Raise e /\ files (snd (main w st)) = files st
           end
  end.
Proof.
  intros Hscrape Hall.
  destruct (collect_details_run w st) as (st0 & _ & Hfiles0 & Hrun).
  rewrite Hscrape in Hrun.
  destruct (process_links_ok w _ [] st0 Hall) as (dl & st1 & Hloop & Hurls).
  destruct (process_links_trace w (List.firstn 20 (listing_of w)) [] st0)
    as (_ & _ & _ & Hfiles1 & _).
  pose proof (process_links_extracted w _ [] _ _ _ Hloop (Forall_nil_2 _)) as Hext.
  rewrite Hloop in Hfiles1. simpl in Hfiles1, Hext.
  rewrite main_split, Hrun, Hloop, <- Hurls. simpl app.
  destruct dl as [|d dl]; [simpl; split; [done|congruence]|].
  change (List.map url (d :: dl)) with (url d :: List.map url dl). cbn beta iota.
  destruct (generate_feed_files w (List.map Some (d :: dl)) st1) as (eps & Hbuilt & Hend).
  exists (extended new_podcast eps). split.
  - unfold publishable in Hbuilt. rewrite omap_id_Some in Hbuilt.
    apply built_from_links in Hbuilt. simpl Podgen.episodes. rewrite Hbuilt.
    change (url d :: List.map url dl) with (List.map url (d :: dl)).
    rewrite (accepted_urls w _ Hext), Hurls, filter_filter. done.
  - destruct (rss_refuses w (extended new_podcast eps));
      destruct Hend as [-> ->]; split; congruence.
Qed.

Lemma feed_of_a_run_without_error_witness :
  scrape_error (Sample.site ["/mediacast/hope/"; "/mediacast/mute/";
                             "/mediacast/silent/"]%string) = None
  /\ Forall (fun link => extraction_error
                        (Sample.site ["/mediacast/hope/"; "/mediacast/mute/";
                                      "/mediacast/silent/"]%string) (link_url link) = None)
    (List.firstn 20 (listing_of (Sample.site ["/mediacast/hope/"; "/mediacast/mute/";
                                              "/mediacast/silent/"]%string)))
  /\ List.filter (published (Sample.site ["/mediacast/hope/"; "/mediacast/mute/";
                                          "/mediacast/silent/"]%string))
       (List.map link_url
          (List.firstn 20 (listing_of (Sample.site ["/mediacast/hope/"; "/mediacast/mute/";
                                                    "/mediacast/silent/"]%string))))
     = [Sample.hope_url]
  /\ exists p,
       files (snd (main (Sample.site ["/mediacast/hope/"; "/mediacast/mute/";
                                      "/mediacast/silent/"]%string) initial_state))
       = <[RSS_FILENAME := p]> ∅
       /\ List.map Podgen.ep_link (Podgen.episodes p) = [Sample.hope_url].
Proof.
  assert (Forall (fun link => extraction_error
                        (Sample.site ["/mediacast/hope/"; "/mediacast/mute/";
                                      "/mediacast/silent/"]%string) (link_url link) = None)
    (List.firstn 20 (listing_of (Sample.site ["/mediacast/hope/"; "/mediacast/mute/";
                                              "/mediacast/silent/"]%string)))) as Hall.
  { repeat constructor. }
  split; [reflexivity|]. split; [exact Hall|]. split; [reflexivity|].
  assert (exists p,
            List.map Podgen.ep_link (Podgen.episodes p) = [Sample.hope_url]
            /\ match rss_refuses (Sample.site ["/mediacast/hope/"; "/mediacast/mute/";
                                               "/mediacast/silent/"]%string) p with
               | None =>
                   fst (main (Sample.site ["/mediacast/hope/"; "/mediacast/mute/";
                                           "/mediacast/silent/"]%string) initial_state) = Ok tt
                   /\ files (snd (main (Sample.site ["/mediacast/hope/"; "/mediacast/mute/";
                                                     "/mediacast/silent/"]%string)
                                    initial_state))
                      = <[RSS_FILENAME := p]> ∅
               | Some e =>
                   fst (main (Sample.site ["/mediacast/hope/"; "/mediacast/mute/";
                                           "/mediacast/silent/"]%string) initial_state)
                   = Raise e
                   /\ files (snd (main (Sample.site ["/mediacast/hope/"; "/mediacast/mute/";
                                                     "/mediacast/silent/"]%string)
                                    initial_state)) = ∅
               end) as (p & Hlinks & Hend).
  { exact (feed_of_a_run_without_error
             (Sample.site ["/mediacast/hope/"; "/mediacast/mute/"; "/mediacast/silent/"]%string)
             initial_state eq_refl Hall). }
  exists p. split; [|exact Hlinks].
  destruct (rss_refuses (Sample.site ["/mediacast/hope/"; "/mediacast/mute/";
                                      "/mediacast/silent/"]%string) p) as [e|].
  - destruct Hend as [Hraise _]. vm_compute in Hraise. discriminate Hraise.
  - exact (proj2 Hend).
Defined.

(** X23. A run asks for no URL twice: the listing and the page of each
    link processed are requested once each, and every URL requested after
    the listing is one that holds the marker "/mediacast/". *)
Theorem no_url_is_requested_twice (w : world) (st : state) :
  exists new,
    requests (snd (main w st)) = requests st ++ new
    /\ NoDup new
    /\ forall u, u ∈ new -> u = BASE_URL \/ is_message_url u = true.
Proof.
  destruct (main_requests w st) as (k & _ & Hreq & _).
  exists (BASE_URL :: List.map link_url (List.firstn k (listing_of w))).
  split; [done|].
  destruct (listing_of_urls w) as [Hnodup Hmsg].
  rewrite <- (List.firstn_skipn k (listing_of w)), List.map_app in Hnodup, Hmsg.
  split.
  - constructor.
    + intros Hin. assert (is_message_url BASE_URL = true) as Hbase; [|done].
      apply Hmsg. set_solver.
    + by apply NoDup_app in Hnodup as [? _].
  - intros u [->|Hu]%elem_of_cons; [by left|]. right. apply Hmsg. set_solver.
Qed.
